(** * AppleJournaltoDayOne: a shallow embedding of [main.go]

    The converter reads an Apple Journal export (HTML entries plus image
    resources), and writes a Day One import archive ([Journal.json] plus the
    renamed photos).  This development embeds [parseAppleDate],
    [processEntryHTML], [createDayOneZip] and [main] together with the parts
    of the Go libraries they call, and proves properties of them.

    Strings are Go strings, that is sequences of bytes ([string] of [ascii]).
    The file system, the HTML parser and renderer, the Markdown converter,
    the MD5 digest and the random source of identifiers are collaborators of
    the program: they are fields of the record [World] below. *)

From Stdlib Require Import ZArith Lia List String Ascii Bool.
From stdpp Require Import base gmap strings list.

Local Open Scope string_scope.

(** ** Package [strings] *)

Module Strings.

Definition bytes (l : list nat) : string :=
  fold_right (fun n s => String (ascii_of_nat n) s) "" l.

Fixpoint rev_string (acc s : string) : string :=
  match s with
  | "" => acc
  | String c s' => rev_string (String c acc) s'
  end.

Definition reverse (s : string) : string := rev_string "" s.

(** [strings.HasPrefix]. *)
Fixpoint HasPrefix (s p : string) {struct p} : bool :=
  match p with
  | "" => true
  | String c p' =>
      match s with
      | "" => false
      | String d s' => Ascii.eqb c d && HasPrefix s' p'
      end
  end.

Fixpoint drop (n : nat) (s : string) : string :=
  match n with
  | 0 => s
  | S n' => match s with "" => "" | String _ s' => drop n' s' end
  end.

(** [strings.HasSuffix]. *)
Definition HasSuffix (s p : string) : bool :=
  HasPrefix (reverse s) (reverse p).

(** [strings.TrimPrefix] and [strings.TrimSuffix]. *)
Definition TrimPrefix (s p : string) : string :=
  if HasPrefix s p then drop (String.length p) s else s.

Definition TrimSuffix (s p : string) : string :=
  if HasSuffix s p
  then reverse (drop (String.length p) (reverse s))
  else s.

(** [strings.Contains]. *)
Fixpoint Contains (s sub : string) : bool :=
  HasPrefix s sub ||
  match s with
  | "" => false
  | String _ s' => Contains s' sub
  end.

(** [strings.Cut]: the text before and after the first instance of
    [sep]. *)
Fixpoint Cut (s sep : string) : option (string * string) :=
  if HasPrefix s sep then Some ("", drop (String.length sep) s)
  else match s with
       | "" => None
       | String c s' =>
           match Cut s' sep with
           | Some (a, b) => Some (String c a, b)
           | None => None
           end
       end.

(** [strings.SplitN s sep n] for a count [n >= 0] and a separator that is
    not empty (the program passes [","] and ["_"] with [n = 2]). *)
Fixpoint SplitN (s sep : string) (n : nat) : list string :=
  match n with
  | 0 => []
  | 1 => [s]
  | S n' =>
      match Cut s sep with
      | Some (a, b) => a :: SplitN b sep n'
      | None => [s]
      end
  end.

(** [strings.ReplaceAll s old new] for [old] not empty: instances are
    replaced left to right without overlap; [skip] counts the bytes of
    the instance of [old] still to pass over. *)
Fixpoint replaceFrom (skip : nat) (s old new : string) : string :=
  match s with
  | "" => ""
  | String c s' =>
      match skip with
      | S k => replaceFrom k s' old new
      | 0 =>
          if HasPrefix s old
          then new +:+ replaceFrom (String.length old - 1) s' old new
          else String c (replaceFrom 0 s' old new)
      end
  end.

Definition ReplaceAll (s old new : string) : string :=
  replaceFrom 0 s old new.

(** *** Case mapping

    [ToLower] and [ToUpper] map byte by byte when the string is ASCII;
    otherwise they map rune by rune with the Unicode tables, which are
    taken as the parameters [unicodeLower] and [unicodeUpper]. *)

Definition isASCIIByte (c : ascii) : bool := (nat_of_ascii c <? 128)%nat.

Fixpoint isASCII (s : string) : bool :=
  match s with
  | "" => true
  | String c s' => isASCIIByte c && isASCII s'
  end.

Definition lowerByte (c : ascii) : ascii :=
  let n := nat_of_ascii c in
  if ((65 <=? n) && (n <=? 90))%nat then ascii_of_nat (n + 32) else c.

Definition upperByte (c : ascii) : ascii :=
  let n := nat_of_ascii c in
  if ((97 <=? n) && (n <=? 122))%nat then ascii_of_nat (n - 32) else c.

Fixpoint mapBytes (f : ascii -> ascii) (s : string) : string :=
  match s with
  | "" => ""
  | String c s' => String (f c) (mapBytes f s')
  end.

Definition ToLower (unicodeLower : string -> string) (s : string) : string :=
  if isASCII s then mapBytes lowerByte s else unicodeLower s.

Definition ToUpper (unicodeUpper : string -> string) (s : string) : string :=
  if isASCII s then mapBytes upperByte s else unicodeUpper s.

(** *** [strings.TrimSpace]

    White space is what [unicode.IsSpace] accepts: the six ASCII
    characters, and the runes U+0085, U+00A0, U+1680, U+2000 to U+200A,
    U+2028, U+2029, U+202F, U+205F and U+3000, met in the string as their
    UTF-8 encodings. *)

Definition isAsciiSpace (c : ascii) : bool :=
  let n := nat_of_ascii c in
  (((9 <=? n) && (n <=? 13)) || (n =? 32))%nat.

Definition unicodeSpaces : list string :=
  map bytes
    [ [194; 133]; [194; 160]; [225; 154; 128];
      [226; 128; 128]; [226; 128; 129]; [226; 128; 130]; [226; 128; 131];
      [226; 128; 132]; [226; 128; 133]; [226; 128; 134]; [226; 128; 135];
      [226; 128; 136]; [226; 128; 137]; [226; 128; 138];
      [226; 128; 168]; [226; 128; 169]; [226; 128; 175];
      [226; 129; 159]; [227; 128; 128] ].

(** The string without its first rune when that rune is white space,
    [encs] being the encodings of the white space outside ASCII. *)
Definition stripSpace (encs : list string) (s : string) : option string :=
  match s with
  | "" => None
  | String c s' =>
      if isAsciiSpace c then Some s'
      else
        match List.find (HasPrefix s) encs with
        | Some e => Some (drop (String.length e) s)
        | None => None
        end
  end.

Fixpoint trimLoop (fuel : nat) (encs : list string) (s : string) : string :=
  match fuel with
  | 0 => s
  | S fuel' =>
      match stripSpace encs s with
      | Some s' => trimLoop fuel' encs s'
      | None => s
      end
  end.

Definition TrimLeftSpace (s : string) : string :=
  trimLoop (String.length s) unicodeSpaces s.

Definition TrimRightSpace (s : string) : string :=
  reverse (trimLoop (String.length s) (map reverse unicodeSpaces) (reverse s)).

Definition TrimSpace (s : string) : string :=
  TrimRightSpace (TrimLeftSpace s).

End Strings.

(** ** Package [path/filepath], on a system whose separator is [/] *)

Module Filepath.
Import Strings.

Definition isSep (c : ascii) : bool := Ascii.eqb c "/".

(** The first path element of [s] (up to a separator or the end) and
    what follows it. *)
Fixpoint splitElem (s : string) : string * string :=
  match s with
  | "" => ("", "")
  | String c s' =>
      if isSep c then ("", s)
      else let '(e, r) := splitElem s' in (String c e, r)
  end.

Definition atElemEnd (s : string) : bool :=
  match s with
  | "" => true
  | String c _ => isSep c
  end.

(** The [..] case of [Clean] when it can backtrack: [out.w--], then
    [out.w--] again as long as [out.w > dotdot] and the byte at [out.w]
    is not a separator.  [out] is the buffer, last byte first. *)
Fixpoint backtrack (out : string) (dotdot : nat) : string :=
  match out with
  | "" => ""
  | String c out' =>
      if (dotdot <? String.length out')%nat && negb (isSep c)
      then backtrack out' dotdot
      else out'
  end.

(** The loop of [Clean]: [path] is what is left to read, [out] the
    buffer written so far (last byte first) and [dotdot] the index where
    [..] must stop. *)
Fixpoint cleanLoop (fuel : nat) (rooted : bool) (path out : string)
    (dotdot : nat) : string :=
  match fuel with
  | 0 => out
  | S fuel' =>
      match path with
      | "" => out
      | String c rest =>
          if isSep c then cleanLoop fuel' rooted rest out dotdot
          else if Ascii.eqb c "." && atElemEnd rest
          then cleanLoop fuel' rooted rest out dotdot
          else if Ascii.eqb c "." && HasPrefix rest "." && atElemEnd (drop 1 rest)
          then
            if (dotdot <? String.length out)%nat
            then cleanLoop fuel' rooted (drop 1 rest) (backtrack out dotdot) dotdot
            else if negb rooted
            then
              let out1 := if (0 <? String.length out)%nat then String "/" out else out in
              let out2 := String "." (String "." out1) in
              cleanLoop fuel' rooted (drop 1 rest) out2 (String.length out2)
            else cleanLoop fuel' rooted (drop 1 rest) out dotdot
          else
            let w := String.length out in
            let out1 :=
              if (rooted && negb (w =? 1)%nat) || (negb rooted && negb (w =? 0)%nat)
              then String "/" out else out in
            let '(e, r) := splitElem path in
            cleanLoop fuel' rooted r (rev_string out1 e) dotdot
      end
  end.

(** [filepath.Clean]. *)
Definition Clean (path : string) : string :=
  match path with
  | "" => "."
  | String c _ =>
      let rooted := isSep c in
      let out :=
        if rooted
        then cleanLoop (String.length path) true (drop 1 path) "/" 1
        else cleanLoop (String.length path) false path "" 0 in
      match out with
      | "" => "."
      | _ => reverse out
      end
  end.

(** [strings.Join]. *)
Fixpoint joinWith (sep : string) (elems : list string) : string :=
  match elems with
  | [] => ""
  | [e] => e
  | e :: es => e +:+ sep +:+ joinWith sep es
  end.

(** [filepath.Join]: the elements from the first one that is not empty,
    joined by the separator and cleaned. *)
Fixpoint Join (elems : list string) : string :=
  match elems with
  | [] => ""
  | e :: es =>
      match e with
      | "" => Join es
      | _ => Clean (joinWith "/" elems)
      end
  end.

(** The bytes of [s] after its last separator, given last byte first,
    and the rest (still last byte first, starting at that separator). *)
Fixpoint lastElemRev (acc r : string) : string * string :=
  match r with
  | "" => (acc, "")
  | String c r' =>
      if isSep c then (acc, r) else lastElemRev (String c acc) r'
  end.

(** [filepath.Dir]: all but the last element of [path], cleaned. *)
Definition Dir (path : string) : string :=
  Clean (reverse (snd (lastElemRev "" (reverse path)))).

Fixpoint dropSeps (r : string) : string :=
  match r with
  | "" => ""
  | String c r' => if isSep c then dropSeps r' else r
  end.

(** [filepath.Base]: the last element of [path], trailing separators
    removed first. *)
Definition Base (path : string) : string :=
  match path with
  | "" => "."
  | _ =>
      match fst (lastElemRev "" (dropSeps (reverse path))) with
      | "" => "/"
      | b => b
      end
  end.

(** [filepath.Ext]: the suffix of the last element of [path] that
    begins at its last dot; [r] is the path last byte first. *)
Fixpoint extRev (acc r : string) : string :=
  match r with
  | "" => ""
  | String c r' =>
      if isSep c then ""
      else if Ascii.eqb c "." then String c acc
      else extRev (String c acc) r'
  end.

Definition Ext (path : string) : string := extRev "" (reverse path).

End Filepath.

(** ** Results with errors *)

Inductive result (A E : Type) : Type :=
| Ok (a : A)
| Err (e : E).
Arguments Ok {A E} a.
Arguments Err {A E} e.

(** ** Package [time]

    A [Time] is an instant: seconds and nanoseconds since the Unix epoch,
    shown in a location.  [Date] and the accessors [Year], [Month], [Day],
    ... convert between instants and dates of the proleptic Gregorian
    calendar. *)

Module GoTime.
Import Strings.
Local Open Scope Z_scope.

Inductive Location : Type :=
| UTC
| FixedZone (name : string) (offset : Z).

Definition zoneOffset (l : Location) : Z :=
  match l with
  | UTC => 0
  | FixedZone _ off => off
  end.

Record Time : Type := mkTime {
  unixSec : Z;
  nanos : Z;
  location : Location
}.

Definition isLeap (year : Z) : bool :=
  (year mod 4 =? 0) && (negb (year mod 100 =? 0) || (year mod 400 =? 0)).

Definition daysIn (month year : Z) : Z :=
  if month =? 2 then (if isLeap year then 29 else 28)
  else if (month =? 4) || (month =? 6) || (month =? 9) || (month =? 11)
  then 30 else 31.

(** Days from 1970-01-01 to the given date; years are counted from
    March so that the leap day comes last. *)
Definition daysFromCivil (y m d : Z) : Z :=
  let y' := if m <=? 2 then y - 1 else y in
  let era := y' / 400 in
  let yoe := y' - era * 400 in
  let mp := if 2 <? m then m - 3 else m + 9 in
  let doy := (153 * mp + 2) / 5 + d - 1 in
  let doe := yoe * 365 + yoe / 4 - yoe / 100 + doy in
  era * 146097 + doe - 719468.

Definition civilFromDays (z : Z) : Z * Z * Z :=
  let z' := z + 719468 in
  let era := z' / 146097 in
  let doe := z' - era * 146097 in
  let yoe := (doe - doe / 1460 + doe / 36524 - doe / 146096) / 365 in
  let doy := doe - (365 * yoe + yoe / 4 - yoe / 100) in
  let mp := (5 * doy + 2) / 153 in
  let d := doy - (153 * mp + 2) / 5 + 1 in
  let m := if mp <? 10 then mp + 3 else mp - 9 in
  let y := yoe + era * 400 in
  ((if m <=? 2 then y + 1 else y), m, d).

(** [time.Date]: values out of range are normalised (a month 13 is
    January of the next year, and so on). *)
Definition Date (year month day hour min sec nsec : Z) (loc : Location) : Time :=
  let m0 := month - 1 in
  let year' := year + m0 / 12 in
  let month' := m0 mod 12 + 1 in
  let sec' := sec + nsec / 1000000000 in
  let nsec' := nsec mod 1000000000 in
  let days := daysFromCivil year' month' 1 + (day - 1) in
  {| unixSec := days * 86400 + hour * 3600 + min * 60 + sec' - zoneOffset loc;
     nanos := nsec';
     location := loc |}.

Definition localSec (t : Time) : Z := unixSec t + zoneOffset (location t).

Definition Year (t : Time) : Z := fst (fst (civilFromDays (localSec t / 86400))).
Definition Month (t : Time) : Z := snd (fst (civilFromDays (localSec t / 86400))).
Definition Day (t : Time) : Z := snd (civilFromDays (localSec t / 86400)).
Definition Hour (t : Time) : Z := (localSec t mod 86400) / 3600.
Definition Minute (t : Time) : Z := (localSec t mod 3600) / 60.
Definition Second (t : Time) : Z := localSec t mod 60.
Definition Nanosecond (t : Time) : Z := nanos t.

(** The zero [Time{}]: January 1, year 1, 00:00:00 UTC. *)
Definition zeroTime : Time := Date 1 1 1 0 0 0 0 UTC.

(** *** Parsing *)

Inductive ParseError : Type :=
| errBad
| errExtraText
| errDayOutOfRange.

Inductive std : Type :=
| stdLongMonth      (* "January" *)
| stdMonth          (* "Jan" *)
| stdDay            (* "2" *)
| stdLongYear.      (* "2006" *)

Definition longMonthNames : list string :=
  ["January"; "February"; "March"; "April"; "May"; "June"; "July";
   "August"; "September"; "October"; "November"; "December"]%string.

Definition shortMonthNames : list string :=
  ["Jan"; "Feb"; "Mar"; "Apr"; "May"; "Jun"; "Jul"; "Aug"; "Sep"; "Oct";
   "Nov"; "Dec"]%string.

Definition startsWithLowerCase (s : string) : bool :=
  match s with
  | EmptyString => false
  | String c _ => let n := nat_of_ascii c in ((97 <=? n) && (n <=? 122))%nat
  end.

(** [nextStdChunk]: the text before the first layout element, the
    element, and the text after it.  Of the elements of package [time]
    the ones tested here are those that begin with [J] or [2]; no other
    occurs in the layouts of the program. *)
Fixpoint nextStdChunk (layout : string) : string * option std * string :=
  match layout with
  | EmptyString => (EmptyString, None, EmptyString)
  | String c rest =>
      if HasPrefix layout "January" then (EmptyString, Some stdLongMonth, drop 7 layout)
      else if HasPrefix layout "Jan" && negb (startsWithLowerCase (drop 3 layout))
      then (EmptyString, Some stdMonth, drop 3 layout)
      else if HasPrefix layout "2006" then (EmptyString, Some stdLongYear, drop 4 layout)
      else if HasPrefix layout "2" then (EmptyString, Some stdDay, drop 1 layout)
      else let '(p, s, suf) := nextStdChunk rest in (String c p, s, suf)
  end.

Fixpoint cutspace (s : string) : string :=
  match s with
  | String " " s' => cutspace s'
  | _ => s
  end.

(** [skip value prefix]: [value] without [prefix]; a space of the prefix
    stands for any run of spaces. *)
Fixpoint skip (fuel : nat) (value pre : string) : result string ParseError :=
  match fuel with
  | O => Err errBad
  | S fuel' =>
      match pre with
      | EmptyString => Ok value
      | String " " _ =>
          match value with
          | String c _ =>
              if negb (Ascii.eqb c " ") then Err errBad
              else skip fuel' (cutspace value) (cutspace pre)
          | EmptyString => skip fuel' (cutspace value) (cutspace pre)
          end
      | String p pre' =>
          match value with
          | String c value' =>
              if Ascii.eqb c p then skip fuel' value' pre' else Err errBad
          | EmptyString => Err errBad
          end
      end
  end.

Definition isDigit (c : ascii) : bool :=
  let n := nat_of_ascii c in ((48 <=? n) && (n <=? 57))%nat.

Definition digitVal (c : ascii) : Z := Z.of_nat (nat_of_ascii c) - 48.

(** [match]: equality of two strings of the same length, ignoring the
    case of letters. *)
Definition matchByte (c1 c2 : ascii) : bool :=
  Ascii.eqb c1 c2 ||
  (let l1 := N.lor (N_of_ascii c1) 32 in
   let l2 := N.lor (N_of_ascii c2) 32 in
   (l1 =? l2)%N && (97 <=? l1)%N && (l1 <=? 122)%N).

(** The rest of [val] after a prefix that matches [v], if any. *)
Fixpoint matchPrefix (val v : string) : option string :=
  match v with
  | EmptyString => Some val
  | String c2 v' =>
      match val with
      | EmptyString => None
      | String c1 val' => if matchByte c1 c2 then matchPrefix val' v' else None
      end
  end.

(** [lookup]: the index of the first name of [tab] that [val] begins
    with, and the rest of [val]. *)
Fixpoint lookup (i : Z) (tab : list string) (val : string) : result (Z * string) ParseError :=
  match tab with
  | [] => Err errBad
  | v :: tab' =>
      match matchPrefix val v with
      | Some rest => Ok (i, rest)
      | None => lookup (i + 1) tab' val
      end
  end.

(** [getnum s false]: a number of one or two digits. *)
Definition getnum (s : string) : result (Z * string) ParseError :=
  match s with
  | String c0 s0 =>
      if isDigit c0 then
        match s0 with
        | String c1 s1 =>
            if isDigit c1 then Ok (digitVal c0 * 10 + digitVal c1, s1)
            else Ok (digitVal c0, s0)
        | EmptyString => Ok (digitVal c0, s0)
        end
      else Err errBad
  | EmptyString => Err errBad
  end.

(** [atoi] on the four bytes of a year, the first of which is a digit. *)
Fixpoint atoiDigits (acc : Z) (s : string) : option Z :=
  match s with
  | EmptyString => Some acc
  | String c s' => if isDigit c then atoiDigits (acc * 10 + digitVal c) s' else None
  end.

Definition getLongYear (value : string) : result (Z * string) ParseError :=
  match value with
  | String c0 (String c1 (String c2 (String c3 rest))) =>
      if isDigit c0 then
        match atoiDigits 0 (String c0 (String c1 (String c2 (String c3 EmptyString)))) with
        | Some y => Ok (y, rest)
        | None => Err errBad
        end
      else Err errBad
  | _ => Err errBad
  end.

Record fields : Type := mkFields { f_year : Z; f_month : Z; f_day : Z }.

(** The loop of [parse]: one layout element per round. *)
Fixpoint parseLoop (fuel : nat) (layout value : string) (f : fields)
    : result fields ParseError :=
  match fuel with
  | O => Err errBad
  | S fuel' =>
      let '(pre, s, suffix) := nextStdChunk layout in
      match skip (S (String.length pre)) value pre with
      | Err e => Err e
      | Ok value =>
          match s with
          | None =>
              match value with
              | EmptyString => Ok f
              | _ => Err errExtraText
              end
          | Some stdLongMonth =>
              match lookup 0 longMonthNames value with
              | Ok (m, value) =>
                  parseLoop fuel' suffix value (mkFields (f_year f) (m + 1) (f_day f))
              | Err e => Err e
              end
          | Some stdMonth =>
              match lookup 0 shortMonthNames value with
              | Ok (m, value) =>
                  parseLoop fuel' suffix value (mkFields (f_year f) (m + 1) (f_day f))
              | Err e => Err e
              end
          | Some stdDay =>
              match getnum value with
              | Ok (d, value) =>
                  parseLoop fuel' suffix value (mkFields (f_year f) (f_month f) d)
              | Err e => Err e
              end
          | Some stdLongYear =>
              match getLongYear value with
              | Ok (y, value) =>
                  parseLoop fuel' suffix value (mkFields y (f_month f) (f_day f))
              | Err e => Err e
              end
          end
      end
  end.

(** [time.Parse], for layouts made of the elements above.  Without zone
    information the time is in UTC, at midnight. *)
Definition Parse (layout value : string) : result Time ParseError :=
  match parseLoop (S (String.length layout)) layout value (mkFields 0 1 1) with
  | Err e => Err e
  | Ok f =>
      if (f_day f <? 1) || (daysIn (f_month f) (f_year f) <? f_day f)
      then Err errDayOutOfRange
      else Ok (Date (f_year f) (f_month f) (f_day f) 0 0 0 0 UTC)
  end.

(** *** Formatting with the layout [time.RFC3339] *)

Definition digitChar (d : Z) : ascii := ascii_of_nat (Z.to_nat (d mod 10) + 48).

Fixpoint appendDigits (width : nat) (n : Z) (acc : string) : string :=
  match width with
  | O => acc
  | S w => appendDigits w (n / 10) (String (digitChar n) acc)
  end.

Fixpoint numDigits (fuel : nat) (n : Z) : nat :=
  match fuel with
  | O => 1%nat
  | S fuel' => if n <? 10 then 1%nat else S (numDigits fuel' (n / 10))
  end.

(** [appendInt x width]: decimal text of [x], padded with zeros to
    [width] digits. *)
Definition appendInt (x : Z) (width : nat) : string :=
  let u := Z.abs x in
  let sign := if x <? 0 then "-"%string else EmptyString in
  (sign +:+ appendDigits (Nat.max width (numDigits (Z.to_nat (Z.log2 u)) u)) u EmptyString)%string.

Definition FormatRFC3339 (t : Time) : string :=
  let off := zoneOffset (location t) in
  let zone :=
    if off =? 0 then "Z"%string
    else
      let m := Z.abs off / 60 in
      let sign := if off <? 0 then "-"%string else "+"%string in
      let hh := appendInt (m / 60) 2 in
      let mm := appendInt (m mod 60) 2 in
      (sign +:+ hh +:+ ":" +:+ mm)%string in
  (appendInt (Year t) 4 +:+ "-" +:+ appendInt (Month t) 2 +:+ "-" +:+ appendInt (Day t) 2
   +:+ "T" +:+ appendInt (Hour t) 2 +:+ ":" +:+ appendInt (Minute t) 2 +:+ ":"
   +:+ appendInt (Second t) 2 +:+ zone)%string.

End GoTime.

(** ** Parsed HTML and the [goquery] selections the program makes *)

Module Html.
Import Strings.

#[local] Unset Elimination Schemes.
Inductive Node : Type :=
| ElementNode (tag : string) (attrs : list (string * string)) (children : list Node)
| TextNode (data : string)
| CommentNode (data : string).
#[local] Set Elimination Schemes.

(** A parsed document: the children of its document node. *)
Definition Document : Type := list Node.

(** A node of a selection, with its element ancestors, the parent
    first. *)
Definition Located : Type := (Node * list Node)%type.
Definition Selection : Type := list Located.

Definition isElement (n : Node) : bool :=
  match n with
  | ElementNode _ _ _ => true
  | _ => false
  end.

Definition nodeChildren (n : Node) : list Node :=
  match n with
  | ElementNode _ _ kids => kids
  | _ => []
  end.

(** *** Selectors: [tag.class1.class2] compounds joined by the
    descendant combinator *)

Record Compound : Type := mkCompound { c_tag : string; c_classes : list string }.

(** A selector, the compound of the subject first and the outermost
    ancestor last. *)
Definition Selector : Type := list Compound.

Definition isClassSep (c : ascii) : bool :=
  let n := nat_of_ascii c in
  ((n =? 32) || (n =? 9) || (n =? 13) || (n =? 10) || (n =? 12))%nat.

(** The words of a [class] attribute, [cur] being the word read so far
    (last byte first). *)
Fixpoint classWords (cur s : string) : list string :=
  match s with
  | "" => [reverse cur]
  | String c s' =>
      if isClassSep c then reverse cur :: classWords "" s'
      else classWords (String c cur) s'
  end.

Definition includesWord (val word : string) : bool :=
  match val with
  | "" => false
  | _ => existsb (String.eqb word) (classWords "" val)
  end.

Definition hasClass (attrs : list (string * string)) (cls : string) : bool :=
  existsb (fun '(k, v) => String.eqb k "class" && includesWord v cls) attrs.

Definition matchCompound (n : Node) (c : Compound) : bool :=
  match n with
  | ElementNode tag attrs _ =>
      String.eqb tag (c_tag c) && forallb (hasClass attrs) (c_classes c)
  | _ => false
  end.

Fixpoint matches (sel : Selector) (ancestors : list Node) (n : Node) : bool :=
  match sel with
  | [] => true
  | c :: outer =>
      matchCompound n c &&
      match outer with
      | [] => true
      | _ =>
          (fix someAncestor (ancs : list Node) : bool :=
             match ancs with
             | [] => false
             | a :: ancs' => matches outer ancs' a || someAncestor ancs'
             end) ancestors
      end
  end.

(** The descendants of a node in document order. *)
Fixpoint descendants (ancestors : list Node) (n : Node) : Selection :=
  match n with
  | ElementNode _ _ kids =>
      flat_map (fun k => (k, n :: ancestors) :: descendants (n :: ancestors) k) kids
  | _ => []
  end.

Definition Is (l : Located) (sel : Selector) : bool :=
  matches sel (snd l) (fst l).

(** [Selection.Find] on a selection of one node. *)
Definition Find (l : Located) (sel : Selector) : Selection :=
  filter (fun d => Is d sel) (descendants (snd l) (fst l)).

(** [Document.Find]. *)
Definition docFind (doc : Document) (sel : Selector) : Selection :=
  filter (fun d => Is d sel) (flat_map (fun k => (k, []) :: descendants [] k) doc).

(** [Selection.Children]: the element children of each node. *)
Definition Children (s : Selection) : Selection :=
  flat_map
    (fun l => map (fun k => (k, fst l :: snd l)) (filter isElement (nodeChildren (fst l))))
    s.

(** [Selection.First]. *)
Definition First (s : Selection) : Selection := take 1 s.

(** [Selection.Parent], for a selection of one node whose parent is an
    element; the parent of a top-level node is the document node, which
    no selector matches. *)
Definition ParentIs (l : Located) (sel : Selector) : bool :=
  match snd l with
  | [] => false
  | p :: ancs => matches sel ancs p
  end.

Fixpoint nodeText (n : Node) : string :=
  match n with
  | TextNode d => d
  | ElementNode _ _ kids => fold_right (fun k acc => nodeText k +:+ acc) "" kids
  | CommentNode _ => ""
  end.

(** [Selection.Text]. *)
Definition Text (s : Selection) : string :=
  fold_right (fun l acc => nodeText (fst l) +:+ acc) "" s.

(** [Selection.Attr]: the value of the first attribute of that name. *)
Definition Attr (l : Located) (key : string) : option string :=
  match fst l with
  | ElementNode _ attrs _ =>
      match List.find (fun '(k, _) => String.eqb k key) attrs with
      | Some (_, v) => Some v
      | None => None
      end
  | _ => None
  end.

(** The selectors of the program. *)
Definition sel_pageHeader : Selector := [mkCompound "div" ["pageHeader"]].
Definition sel_title : Selector := [mkCompound "div" ["title"]].
Definition sel_title_span : Selector := [mkCompound "span" ["s2"]; mkCompound "div" ["title"]].
Definition sel_pageContainer : Selector := [mkCompound "div" ["pageContainer"]].
Definition sel_assetGrid : Selector := [mkCompound "div" ["assetGrid"]].
Definition sel_photo_img : Selector :=
  [mkCompound "img" ["asset_image"]; mkCompound "div" ["gridItem"; "assetType_photo"]].
Definition sel_p : Selector := [mkCompound "p" []].
Definition sel_bodyText : Selector := [mkCompound "div" ["bodyText"]].

End Html.

(** ** Package [github.com/google/uuid] and hexadecimal text *)

Module Uuid.

(** A UUID is an array of 16 bytes. *)
Record UUID : Type := mkUUID {
  u0 : ascii; u1 : ascii; u2 : ascii; u3 : ascii;
  u4 : ascii; u5 : ascii; u6 : ascii; u7 : ascii;
  u8 : ascii; u9 : ascii; u10 : ascii; u11 : ascii;
  u12 : ascii; u13 : ascii; u14 : ascii; u15 : ascii
}.

Definition hexDigit (n : nat) : ascii :=
  if (n <? 10)%nat then ascii_of_nat (48 + n) else ascii_of_nat (87 + n).

(** The two lower-case hexadecimal digits of a byte. *)
Definition hexByte (b : ascii) : string :=
  let n := nat_of_ascii b in
  String (hexDigit (n / 16)) (String (hexDigit (n mod 16)) "").

(** The format [%x] of a sequence of bytes. *)
Fixpoint hexString (s : string) : string :=
  match s with
  | "" => ""
  | String b s' => hexByte b +:+ hexString s'
  end.

(** [UUID.String]: xxxxxxxx-xxxx-xxxx-xxxx-xxxxxxxxxxxx. *)
Definition String_ (u : UUID) : string :=
  hexByte (u0 u) +:+ hexByte (u1 u) +:+ hexByte (u2 u) +:+ hexByte (u3 u) +:+ "-" +:+
  hexByte (u4 u) +:+ hexByte (u5 u) +:+ "-" +:+
  hexByte (u6 u) +:+ hexByte (u7 u) +:+ "-" +:+
  hexByte (u8 u) +:+ hexByte (u9 u) +:+ "-" +:+
  hexByte (u10 u) +:+ hexByte (u11 u) +:+ hexByte (u12 u) +:+ hexByte (u13 u) +:+
  hexByte (u14 u) +:+ hexByte (u15 u).

End Uuid.

(** ** The Day One data structures *)

Module DayOnePhoto.
Record t : Type := mk {
  MD5 : string;
  Type_ : string;
  Identifier : string;
  CreationDate : string
}.
End DayOnePhoto.

Module DayOneEntry.
Record t : Type := mk {
  UUID : string;
  CreationDate : string;
  ModifiedDate : string;
  Text : string;
  Starred : bool;
  TimeZone : string;
  Photos : list DayOnePhoto.t
}.
End DayOneEntry.

Module DayOneJournal.
Record t : Type := mk {
  Metadata : gmap string string;
  Entries : list DayOneEntry.t
}.
End DayOneJournal.

(** ** The collaborators of the program *)

Inductive FileError : Type := OpenFailed | ReadFailed.
Inductive LoadError : Type := LoadOpenFailed | LoadParseFailed.
Inductive StatResult : Type := StatFound | StatNotExist | StatOtherError.

Record DirEntry : Type := mkDirEntry { de_name : string; de_isDir : bool }.

(** One call of the function given to [filepath.WalkDir]. *)
Record WalkCall : Type := mkWalkCall {
  wc_path : string;
  wc_entry : DirEntry;
  wc_err : bool
}.

Record World : Type := mkWorld {
  (** [os.Open] of an entry followed by [goquery.NewDocumentFromReader] *)
  openDocument : string -> result Html.Document LoadError;
  (** [goquery.OuterHtml] of a node; [false] is an error *)
  outerHtml : Html.Node -> result string unit;
  (** [markdownConverter.ConvertString] *)
  convertString : string -> result string unit;
  (** [os.Stat] *)
  stat : string -> StatResult;
  (** [os.Open] of a file followed by a read of all its bytes *)
  readFile : string -> result string FileError;
  (** the MD5 digest (16 bytes) of a sequence of bytes *)
  md5sum : string -> string;
  (** the successive results of [uuid.New] *)
  uuidNew : nat -> Uuid.UUID;
  (** [unicode.ToLower] and [unicode.ToUpper] mapped over a string that
      is not ASCII *)
  unicodeLower : string -> string;
  unicodeUpper : string -> string;
  (** [os.MkdirTemp] *)
  mkdirTemp : result string unit;
  (** [unzip src dest]: [true] when it returns no error *)
  unzipOk : string -> string -> bool;
  (** [os.ReadDir] *)
  readDir : string -> result (list DirEntry) unit;
  (** the calls that [filepath.WalkDir] makes for a root *)
  walkDir : string -> list WalkCall;
  (** [os.Create] of the output archive: [true] when it succeeds *)
  osCreateOk : string -> bool;
  (** [zipWriter.Create] of an archive member *)
  zipCreateOk : string -> bool;
  (** [json.MarshalIndent] of the journal *)
  marshalIndent : DayOneJournal.t -> result string unit;
  (** [Write] of the marshalled journal into its archive member *)
  zipWriteOk : string -> bool;
  (** [os.Open] of a media file *)
  osOpenOk : string -> bool;
  (** [io.Copy] of the media file at a path into its archive member *)
  ioCopyOk : string -> string -> bool;
  (** [os.RemoveAll] of the temporary directory *)
  removeAllOk : string -> bool
}.

(** ** The state threaded through a run: identifiers minted so far and
    the log *)

Inductive LogSite : Type :=
| LogNoDate | LogBadDate | LogMarkdownError | LogNonImage | LogImageNotFound
| LogMD5Failed | LogNoHtmlContent | LogEmptyEntry
| LogZipCreateFailed | LogMediaOpenFailed | LogMediaCopyFailed | LogCopied
| LogStarting | LogCleaningUp | LogCleanupFailed | LogTempDir | LogUnzipping
| LogUnzipComplete | LogDetectedRoot | LogRootWithoutEntries | LogNoResources
| LogProcessingFrom | LogAccessError | LogProcessingEntry | LogEntryError
| LogSkippingEmpty | LogNoEntries | LogProcessedCount | LogCreatingZip
| LogComplete | LogOutputWritten.

Record LogLine : Type := mkLog { log_site : LogSite; log_args : list string }.

Record RunState : Type := mkRunState {
  minted : nat;
  logged : list LogLine
}.

Definition M (A : Type) : Type := RunState -> A * RunState.

Definition ret {A} (a : A) : M A := fun st => (a, st).

Definition bind {A B} (c : M A) (k : A -> M B) : M B :=
  fun st => let '(a, st') := c st in k a st'.

Notation "x <- c ;; k" := (bind c (fun x => k))
  (at level 100, c at next level, right associativity).

Definition logPrintf (site : LogSite) (args : list string) : M unit :=
  fun st => (tt, mkRunState (minted st) (logged st ++ [mkLog site args])).

Fixpoint foldM {A S} (f : A -> S -> M S) (l : list A) (s : S) : M S :=
  match l with
  | [] => ret s
  | a :: l' => s' <- f a s ;; foldM f l' s'
  end.

(** ** The program *)

Definition LF : string := String "010"%char "".

(** [strings.Builder] for the Markdown body: the sequence of the strings
    written, each marked with the call that wrote it (converted text, or
    the reference to a photo). *)
Inductive Piece : Type :=
| MarkdownText (text : string)
| PhotoRef (photoUUID : string).

Definition pieceString (p : Piece) : string :=
  match p with
  | MarkdownText text => text
  | PhotoRef photoUUID => "![](dayone-moment://" +:+ photoUUID +:+ ")" +:+ LF +:+ LF
  end.

Definition Builder : Type := list Piece.

Definition WriteString (b : Builder) (p : Piece) : Builder := (b ++ [p])%list.

Definition builderString (b : Builder) : string :=
  fold_right (fun p acc => pieceString p +:+ acc) "" b.

Inductive ProcError : Type :=
| ErrOpening
| ErrParsingHTML
| ErrNoDate
| ErrBadDate (e : option GoTime.ParseError)
| ErrEmptyEntry.

(** The variables that the closures of [processEntryHTML] share. *)
Record EntryState : Type := mkEntryState {
  es_Photos : list DayOnePhoto.t;
  es_mediaToCopy : gmap string string;
  es_bodyMarkdownBuilder : Builder;
  es_currentPContent : string
}.

Inductive FatalError : Type :=
| FatalTempDir
| FatalUnzip
| FatalNoEntries
| FatalWalk
| FatalCreateZip.

Inductive ZipError : Type :=
| ZipCreatingOutput
| ZipCreatingJournal
| ZipMarshalling
| ZipWritingJournal.

(** What [createDayOneZip] wrote into the member that [zipWriter.Create]
    made for a media file: nothing when [os.Open] failed, what [io.Copy]
    wrote before its error, or the whole file. *)
Inductive MediaContent : Type :=
| NoContent
| PartOf (originalPath : string)
| AllOf (originalPath : string).

Inductive ZipMember : Type :=
| JournalJson (data : string)
| MediaFile (dayOneZipPath : string) (content : MediaContent).

Inductive Outcome : Type :=
| UsageExit
| Fatal (e : FatalError)
| Completed (journal : DayOneJournal.t) (allMediaToCopy : gmap string string)
    (archive : list ZipMember).

Section Program.
Import Strings Filepath.
Context (W : World).

Definition newDayOneUUID : M string :=
  fun st =>
    (ReplaceAll (ToUpper (unicodeUpper W) (Uuid.String_ (uuidNew W (minted st)))) "-" "",
     mkRunState (S (minted st)) (logged st)).

Definition calculateMD5 (filePath : string) : result string FileError :=
  match readFile W filePath with
  | Err e => Err e
  | Ok content => Ok (Uuid.hexString (md5sum W content))
  end.

Definition layouts : list string := ["January 2, 2006"; "Jan 2, 2006"].

Fixpoint parseLayouts (ls : list string) (dateStr : string)
    (err : option GoTime.ParseError) : result GoTime.Time (option GoTime.ParseError) :=
  match ls with
  | [] => Err err
  | layout :: ls' =>
      match GoTime.Parse layout dateStr with
      | Ok t =>
          Ok (GoTime.Date (GoTime.Year t) (GoTime.Month t) (GoTime.Day t) 12 0 0 0 GoTime.UTC)
      | Err e => parseLayouts ls' dateStr (Some e)
      end
  end.

Definition parseAppleDate (dateStr : string) : result GoTime.Time (option GoTime.ParseError) :=
  let parts := SplitN dateStr "," 2 in
  let dateStr :=
    match parts with
    | [_; p1] => TrimSpace p1
    | _ => dateStr
    end in
  parseLayouts layouts dateStr None.

Definition isImageExt (fileExt : string) : bool :=
  String.eqb fileExt ".png" || String.eqb fileExt ".jpg" ||
  String.eqb fileExt ".jpeg" || String.eqb fileExt ".gif".

Section Entry.
Context (htmlFilePath : string) (entryCreationDate : string).

Definition convertAndAppendP (es : EntryState) : M EntryState :=
  match es_currentPContent es with
  | "" => ret es
  | htmlFrag =>
      match convertString W htmlFrag with
      | Err _ =>
          _ <- logPrintf LogMarkdownError [htmlFilePath] ;;
          ret (mkEntryState (es_Photos es) (es_mediaToCopy es)
                 (es_bodyMarkdownBuilder es) "")
      | Ok markdownFrag =>
          ret (mkEntryState (es_Photos es) (es_mediaToCopy es)
                 (WriteString (es_bodyMarkdownBuilder es)
                    (MarkdownText (TrimSpace markdownFrag +:+ LF +:+ LF)))
                 "")
      end
  end.

Definition writeP (htmlContent : string) (es : EntryState) : EntryState :=
  mkEntryState (es_Photos es) (es_mediaToCopy es) (es_bodyMarkdownBuilder es)
    (es_currentPContent es +:+ htmlContent).

(** The function applied to each [img.asset_image] of an asset grid. *)
Definition processImage (imgSel : Html.Located) (es : EntryState) : M EntryState :=
  match Html.Attr imgSel "src" with
  | None => ret es
  | Some "" => ret es
  | Some imgSrc =>
      let absImgSrc := Clean (Join [Dir htmlFilePath; imgSrc]) in
      let originalImageName := Base absImgSrc in
      let fileExt := ToLower (unicodeLower W) (Ext originalImageName) in
      if negb (isImageExt fileExt) then
        _ <- logPrintf LogNonImage [fileExt; htmlFilePath] ;;
        ret es
      else
        match stat W absImgSrc with
        | StatNotExist =>
            _ <- logPrintf LogImageNotFound [absImgSrc; htmlFilePath] ;;
            ret es
        | _ =>
            photoUUID <- newDayOneUUID ;;
            let dayOnePhotoFilename := photoUUID +:+ fileExt in
            let dayOnePhotoZipPath := Join ["photos"; dayOnePhotoFilename] in
            match calculateMD5 absImgSrc with
            | Err _ =>
                _ <- logPrintf LogMD5Failed [absImgSrc] ;;
                ret es
            | Ok md5Hash =>
                let photo :=
                  DayOnePhoto.mk md5Hash (TrimPrefix fileExt ".") photoUUID
                    entryCreationDate in
                ret (mkEntryState (es_Photos es ++ [photo])%list
                       (<[absImgSrc := dayOnePhotoZipPath]> (es_mediaToCopy es))
                       (WriteString (es_bodyMarkdownBuilder es) (PhotoRef photoUUID))
                       (es_currentPContent es))
            end
        end
  end.

(** [goquery.OuterHtml] with its error dropped. *)
Definition outerHtmlOrEmpty (n : Html.Node) : string :=
  match outerHtml W n with
  | Ok h => h
  | Err _ => ""
  end.

Definition appendEach (sel : Html.Selection) (es : EntryState) : M EntryState :=
  foldM (fun l es => convertAndAppendP (writeP (outerHtmlOrEmpty (fst l)) es)) sel es.

(** The function applied to each child of [div.pageContainer]. *)
Definition processChild (s : Html.Located) (es : EntryState) : M EntryState :=
  if Html.Is s Html.sel_pageHeader then ret es
  else if Html.Is s Html.sel_title then ret es
  else if Html.Is s Html.sel_assetGrid then
    es1 <- convertAndAppendP es ;;
    foldM processImage (Html.Find s Html.sel_photo_img) es1
  else
    match outerHtml W (fst s) with
    | Err _ =>
        _ <- logPrintf LogNoHtmlContent [htmlFilePath] ;;
        ret es
    | Ok htmlContent =>
        if Html.Is s Html.sel_p || Html.Is s Html.sel_bodyText
           || Html.ParentIs s Html.sel_bodyText
        then convertAndAppendP (writeP htmlContent es)
        else if (0 <? length (Html.Find s Html.sel_bodyText))%nat
        then appendEach (Html.Find s Html.sel_bodyText) es
        else if (0 <? length (Html.Find s Html.sel_p))%nat
        then appendEach (Html.Find s Html.sel_p) es
        else ret es
    end.

(** The walk over the children of the page container, and the last
    [convertAndAppendP]. *)
Definition processBody (doc : Html.Document) : M EntryState :=
  es <- foldM processChild
          (Html.Children (Html.docFind doc Html.sel_pageContainer))
          (mkEntryState [] ∅ [] "") ;;
  convertAndAppendP es.

End Entry.

(** The title of the entry: the first [div.title span.s2], or else what
    follows the date in the name of the file. *)
Definition extractTitle (doc : Html.Document) (htmlFilePath : string) : string :=
  match Html.First (Html.docFind doc Html.sel_title_span) with
  | (_ :: _) as titleSelection => TrimSpace (Html.Text titleSelection)
  | [] =>
      let fn := Base htmlFilePath in
      let fn := TrimSuffix fn (Ext fn) in
      match SplitN fn "_" 2 with
      | [p0; p1] => if Contains p0 "-" then ReplaceAll p1 "_" " " else ""
      | _ => ""
      end
  end.

(** The text of the entry: the body without surrounding white space,
    under a heading when there is a title. *)
Definition entryText (entryTitle : string) (es : EntryState) : string :=
  let text := TrimSpace (builderString (es_bodyMarkdownBuilder es)) in
  match entryTitle with
  | "" => text
  | _ => "# " +:+ entryTitle +:+ LF +:+ LF +:+ text
  end.

Definition isEmptyEntry (text : string) (photos : list DayOnePhoto.t) : bool :=
  String.eqb text "" && (length photos =? 0)%nat.

Definition processEntryHTML (htmlFilePath baseResourcesPath defaultTimeZone : string)
    : M (result (DayOneEntry.t * gmap string string) ProcError) :=
  match openDocument W htmlFilePath with
  | Err LoadOpenFailed => ret (Err ErrOpening)
  | Err LoadParseFailed => ret (Err ErrParsingHTML)
  | Ok doc =>
      entryUUID <- newDayOneUUID ;;
      let dateStr := TrimSpace (Html.Text (Html.First (Html.docFind doc Html.sel_pageHeader))) in
      match dateStr with
      | "" =>
          _ <- logPrintf LogNoDate [htmlFilePath] ;;
          ret (Err ErrNoDate)
      | _ =>
          match parseAppleDate dateStr with
          | Err e =>
              _ <- logPrintf LogBadDate [dateStr; htmlFilePath] ;;
              ret (Err (ErrBadDate e))
          | Ok creationTime =>
              let isoDate := GoTime.FormatRFC3339 creationTime in
              let entryTitle := extractTitle doc htmlFilePath in
              es <- processBody htmlFilePath isoDate doc ;;
              let text := entryText entryTitle es in
              if isEmptyEntry text (es_Photos es) then
                _ <- logPrintf LogEmptyEntry [htmlFilePath] ;;
                ret (Err ErrEmptyEntry)
              else
                ret (Ok (DayOneEntry.mk entryUUID isoDate isoDate text false
                           defaultTimeZone (es_Photos es),
                         es_mediaToCopy es))
          end
      end
  end.

(** *** [createDayOneZip] *)

(** The body of the loop over [mediaToCopy].  The member is made by
    [zipWriter.Create] before the file is opened and copied, so that it
    stays in the archive when [os.Open] or [io.Copy] fails. *)
Definition addMedia (item : string * string) (archive : list ZipMember)
    : M (list ZipMember) :=
  let '(originalPath, dayOneZipPath) := item in
  if negb (zipCreateOk W dayOneZipPath) then
    _ <- logPrintf LogZipCreateFailed [dayOneZipPath] ;;
    ret archive
  else if negb (osOpenOk W originalPath) then
    _ <- logPrintf LogMediaOpenFailed [originalPath] ;;
    ret (archive ++ [MediaFile dayOneZipPath NoContent])%list
  else if negb (ioCopyOk W originalPath dayOneZipPath) then
    _ <- logPrintf LogMediaCopyFailed [originalPath] ;;
    ret (archive ++ [MediaFile dayOneZipPath (PartOf originalPath)])%list
  else
    _ <- logPrintf LogCopied [originalPath; dayOneZipPath] ;;
    ret (archive ++ [MediaFile dayOneZipPath (AllOf originalPath)])%list.

Definition createDayOneZip (outputZipPath : string) (journal : DayOneJournal.t)
    (mediaToCopy : gmap string string) (tempExtractBasePath : string)
    : M (result (list ZipMember) ZipError) :=
  if negb (osCreateOk W outputZipPath) then ret (Err ZipCreatingOutput)
  else if negb (zipCreateOk W "Journal.json") then ret (Err ZipCreatingJournal)
  else
    match marshalIndent W journal with
    | Err _ => ret (Err ZipMarshalling)
    | Ok jsonData =>
        if negb (zipWriteOk W jsonData) then ret (Err ZipWritingJournal)
        else
          archive <- foldM addMedia (map_to_list mediaToCopy) [JournalJson jsonData] ;;
          ret (Ok archive)
    end.

(** *** [main] *)

(** The journal and the media map that [main] accumulates. *)
Record Collected : Type := mkCollected {
  col_Entries : list DayOneEntry.t;
  col_allMediaToCopy : gmap string string
}.

Definition mergeMedia (entryMedia allMediaToCopy : gmap string string)
    : gmap string string :=
  map_fold (fun original dayOnePath acc => <[original := dayOnePath]> acc)
    allMediaToCopy entryMedia.

Definition isHtmlName (name : string) : bool :=
  HasSuffix (ToLower (unicodeLower W) name) ".html" ||
  HasSuffix (ToLower (unicodeLower W) name) ".htm".

(** The function given to [filepath.WalkDir]; [Err tt] is the error it
    returns, which stops the walk. *)
Definition visit (resourcesPath defaultTimeZone : string) (c : WalkCall)
    (col : Collected) : M (result Collected unit) :=
  if wc_err c then
    _ <- logPrintf LogAccessError [wc_path c] ;;
    ret (Err tt)
  else if de_isDir (wc_entry c) then ret (Ok col)
  else if isHtmlName (de_name (wc_entry c)) then
    _ <- logPrintf LogProcessingEntry [wc_path c] ;;
    r <- processEntryHTML (wc_path c) resourcesPath defaultTimeZone ;;
    match r with
    | Err _ =>
        _ <- logPrintf LogEntryError [wc_path c] ;;
        ret (Ok col)
    | Ok (entry, entryMedia) =>
        if isEmptyEntry (DayOneEntry.Text entry) (DayOneEntry.Photos entry) then
          _ <- logPrintf LogSkippingEmpty [wc_path c] ;;
          ret (Ok col)
        else
          ret (Ok (mkCollected (col_Entries col ++ [entry])%list
                     (mergeMedia entryMedia (col_allMediaToCopy col))))
    end
  else ret (Ok col).

Fixpoint walk (resourcesPath defaultTimeZone : string) (calls : list WalkCall)
    (col : Collected) : M (result Collected unit) :=
  match calls with
  | [] => ret (Ok col)
  | c :: calls' =>
      r <- visit resourcesPath defaultTimeZone c col ;;
      match r with
      | Err e => ret (Err e)
      | Ok col' => walk resourcesPath defaultTimeZone calls' col'
      end
  end.

(** The paths of the [Entries] and [Resources] folders. *)
Definition detectRoots (tempExtractDir : string) : M (string * string) :=
  let entriesPath := Join [tempExtractDir; "Entries"] in
  let resourcesPath := Join [tempExtractDir; "Resources"] in
  match readDir W tempExtractDir with
  | Ok [d] =>
      if de_isDir d then
        let potentialRootFolderName := de_name d in
        let testEntriesPath := Join [tempExtractDir; potentialRootFolderName; "Entries"] in
        match stat W testEntriesPath with
        | StatFound =>
            _ <- logPrintf LogDetectedRoot [potentialRootFolderName] ;;
            ret (testEntriesPath,
                 Join [tempExtractDir; potentialRootFolderName; "Resources"])
        | _ =>
            _ <- logPrintf LogRootWithoutEntries [potentialRootFolderName] ;;
            ret (entriesPath, resourcesPath)
        end
      else ret (entriesPath, resourcesPath)
  | _ => ret (entriesPath, resourcesPath)
  end.

Definition cleanup (tempExtractDir : string) : M unit :=
  _ <- logPrintf LogCleaningUp [tempExtractDir] ;;
  if removeAllOk W tempExtractDir then ret tt
  else logPrintf LogCleanupFailed [tempExtractDir].

Definition main (inputZip outputZip defaultTimeZone : string) : M Outcome :=
  if String.eqb inputZip "" || String.eqb outputZip "" then ret UsageExit
  else
    _ <- logPrintf LogStarting [inputZip; outputZip] ;;
    match mkdirTemp W with
    | Err _ => ret (Fatal FatalTempDir)
    | Ok tempExtractDir =>
        _ <- logPrintf LogTempDir [tempExtractDir] ;;
        _ <- logPrintf LogUnzipping [inputZip; tempExtractDir] ;;
        if negb (unzipOk W inputZip tempExtractDir) then ret (Fatal FatalUnzip)
        else
          _ <- logPrintf LogUnzipComplete [] ;;
          roots <- detectRoots tempExtractDir ;;
          let '(entriesPath, resourcesPath) := roots in
          match stat W entriesPath with
          | StatNotExist => ret (Fatal FatalNoEntries)
          | _ =>
              _ <- (match stat W resourcesPath with
                    | StatNotExist => logPrintf LogNoResources [resourcesPath]
                    | _ => ret tt
                    end) ;;
              _ <- logPrintf LogProcessingFrom [entriesPath] ;;
              r <- walk resourcesPath defaultTimeZone (walkDir W entriesPath)
                     (mkCollected [] ∅) ;;
              match r with
              | Err _ => ret (Fatal FatalWalk)
              | Ok col =>
                  let dayOneJournal :=
                    DayOneJournal.mk {[ "version" := "1.0" ]} (col_Entries col) in
                  _ <- (match col_Entries col with
                        | [] => logPrintf LogNoEntries []
                        | _ => logPrintf LogProcessedCount []
                        end) ;;
                  _ <- logPrintf LogCreatingZip [outputZip] ;;
                  z <- createDayOneZip outputZip dayOneJournal
                         (col_allMediaToCopy col) tempExtractDir ;;
                  match z with
                  | Err _ => ret (Fatal FatalCreateZip)
                  | Ok archive =>
                      _ <- logPrintf LogComplete [] ;;
                      _ <- logPrintf LogOutputWritten [outputZip] ;;
                      _ <- cleanup tempExtractDir ;;
                      ret (Completed dayOneJournal (col_allMediaToCopy col) archive)
                  end
              end
          end
    end.

End Program.

Definition initialState : RunState := mkRunState 0 [].

(** ** The headers of the Apple Journal entries

    The text of a header of the form "Weekday, Month Day, Year": the
    name of the month in full or abbreviated, the day without padding and
    the year on four digits. *)

Module AppleDate.
Import GoTime.
Local Open Scope Z_scope.

Definition monthText (short : bool) (m : Z) : string :=
  nth (Z.to_nat (m - 1)) (if short then shortMonthNames else longMonthNames) ""%string.

Definition dayText (d : Z) : string :=
  if d <? 10 then String (digitChar d) ""
  else String (digitChar (d / 10)) (String (digitChar d) "").

Definition yearText (y : Z) : string := appendDigits 4 y "".

Definition dateText (short : bool) (m d y : Z) : string :=
  (monthText short m +:+ " " +:+ dayText d +:+ ", " +:+ yearText y)%string.

Definition header (weekday : string) (short : bool) (m d y : Z) : string :=
  (weekday +:+ ", " +:+ dateText short m d y)%string.

End AppleDate.

(** ** Definitions used in the proofs *)

Module ProofDefs.
Import Strings GoTime.
Local Open Scope Z_scope.

(** Day within a cycle of 400 years that begins on March 1st. *)
Definition doeOf (yoe m d : Z) : Z :=
  yoe * 365 + yoe / 4 - yoe / 100 +
  ((153 * (if 2 <? m then m - 3 else m + 9) + 2) / 5 + d - 1).

Definition civilOfDoe (doe : Z) : Z * Z * Z :=
  let yoe := (doe - doe / 1460 + doe / 36524 - doe / 146096) / 365 in
  let doy := doe - (365 * yoe + yoe / 4 - yoe / 100) in
  let mp := (5 * doy + 2) / 153 in
  (yoe, (if mp <? 10 then mp + 3 else mp - 9), doy - (153 * mp + 2) / 5 + 1).

Definition upto (n : nat) : list Z := map Z.of_nat (seq 0 n).

Definition checkDay (yoe m d : Z) : bool :=
  implb
    ((1 <=? d) && (d <=? daysIn m (yoe + (if m <=? 2 then 1 else 0))))
    ((0 <=? doeOf yoe m d) && (doeOf yoe m d <? 146097) &&
     (let '(y2, m2, d2) := civilOfDoe (doeOf yoe m d) in
      (y2 =? yoe) && (m2 =? m) && (d2 =? d))).

Definition plainByte (c : ascii) : bool := isASCIIByte c && negb (isAsciiSpace c).

Definition firstPlain (s : string) : Prop :=
  match s with
  | EmptyString => False
  | String c _ => plainByte c = true
  end.

(** What [parseLoop] does for the two layouts of the program. *)
Definition parseMonthDayYear (tab : list string) (value : string)
    : result fields ParseError :=
  match lookup 0 tab value with
  | Err e => Err e
  | Ok (m, v1) =>
      match skip 2 v1 " " with
      | Err e => Err e
      | Ok v2 =>
          match getnum v2 with
          | Err e => Err e
          | Ok (d, v3) =>
              match skip 3 v3 ", " with
              | Err e => Err e
              | Ok v4 =>
                  match getLongYear v4 with
                  | Err e => Err e
                  | Ok (y, v5) =>
                      match v5 with
                      | EmptyString => Ok (mkFields y (m + 1) d)
                      | _ => Err errExtraText
                      end
                  end
              end
          end
      end
  end.

Definition parseStep (rec : string -> string -> fields -> result fields ParseError)
    (layout value : string) (f : fields) : result fields ParseError :=
  let '(pre, s, suffix) := nextStdChunk layout in
  match skip (S (String.length pre)) value pre with
  | Err e => Err e
  | Ok value =>
      match s with
      | None =>
          match value with
          | EmptyString => Ok f
          | _ => Err errExtraText
          end
      | Some stdLongMonth =>
          match lookup 0 longMonthNames value with
          | Ok (m, value) => rec suffix value (mkFields (f_year f) (m + 1) (f_day f))
          | Err e => Err e
          end
      | Some stdMonth =>
          match lookup 0 shortMonthNames value with
          | Ok (m, value) => rec suffix value (mkFields (f_year f) (m + 1) (f_day f))
          | Err e => Err e
          end
      | Some stdDay =>
          match getnum value with
          | Ok (d, value) => rec suffix value (mkFields (f_year f) (f_month f) d)
          | Err e => Err e
          end
      | Some stdLongYear =>
          match getLongYear value with
          | Ok (y, value) => rec suffix value (mkFields y (f_month f) (f_day f))
          | Err e => Err e
          end
      end
  end.

(** An instant that [Date] makes from a date of the calendar, at the
    hour [h] in UTC. *)
Definition validNoon (t : Time) (h : Z) : Prop :=
  exists y m d, 1 <= m <= 12 /\ 1 <= d <= daysIn m y /\ t = Date y m d h 0 0 0 UTC.

(** *** Identifiers and destination paths *)

(** The two upper-case hexadecimal digits of a byte. *)
Definition HexByte (b : ascii) : string := mapBytes upperByte (Uuid.hexByte b).

(** The 32 digits of an identifier. *)
Definition tokenOf (u : Uuid.UUID) : string :=
  (HexByte (Uuid.u0 u) +:+ HexByte (Uuid.u1 u) +:+ HexByte (Uuid.u2 u) +:+
   HexByte (Uuid.u3 u) +:+ HexByte (Uuid.u4 u) +:+ HexByte (Uuid.u5 u) +:+
   HexByte (Uuid.u6 u) +:+ HexByte (Uuid.u7 u) +:+ HexByte (Uuid.u8 u) +:+
   HexByte (Uuid.u9 u) +:+ HexByte (Uuid.u10 u) +:+ HexByte (Uuid.u11 u) +:+
   HexByte (Uuid.u12 u) +:+ HexByte (Uuid.u13 u) +:+ HexByte (Uuid.u14 u) +:+
   HexByte (Uuid.u15 u))%string.

(** The identifier that the [i]-th call of [newDayOneUUID] returns. *)
Definition token (W : World) (i : nat) : string :=
  fst (newDayOneUUID W (mkRunState i [])).

(** Minting does not repeat an identifier among the first [n]. *)
Definition mintInjectiveUpTo (W : World) (n : nat) : Prop :=
  forall i j : nat, (i < n)%nat -> (j < n)%nat -> token W i = token W j -> i = j.

Fixpoint allBytes (p : ascii -> bool) (s : string) : bool :=
  match s with
  | EmptyString => true
  | String c s' => p c && allBytes p s'
  end.

Definition isUpperHexByte (c : ascii) : bool :=
  let n := nat_of_ascii c in
  (((48 <=? n) && (n <=? 57)) || ((65 <=? n) && (n <=? 70)))%nat.

Definition notSep (c : ascii) : bool := negb (Filepath.isSep c).

(** The identifiers of the photo references written in a builder. *)
Definition photoRefs (b : Builder) : list string :=
  flat_map (fun p => match p with PhotoRef id => [id] | MarkdownText _ => [] end) b.

(** The path of a photo in the archive. *)
Definition destPath (photoUUID fileExt : string) : string :=
  Filepath.Join ["photos"%string; (photoUUID +:+ fileExt)%string].

(** The path that an image reference of an entry resolves to, and its
    extension in lower case. *)
Definition resolveImage (htmlFilePath imgSrc : string) : string :=
  Filepath.Clean (Filepath.Join [Filepath.Dir htmlFilePath; imgSrc]).

Definition imageExt (W : World) (htmlFilePath imgSrc : string) : string :=
  ToLower (unicodeLower W) (Filepath.Ext (Filepath.Base (resolveImage htmlFilePath imgSrc))).

(** *** The entry being built *)

(** The header of a document, from which the date is read. *)
Definition headerText (doc : Html.Document) : string :=
  TrimSpace (Html.Text (Html.First (Html.docFind doc Html.sel_pageHeader))).

(** The state after [msg] was logged. *)
Definition withLog (st : RunState) (site : LogSite) (args : list string) : RunState :=
  mkRunState (minted st) (logged st ++ [mkLog site args]).

(** The entry state after a photo was recorded. *)
Definition withPhoto (es : EntryState) (photo : DayOnePhoto.t) (absImgSrc zipPath : string)
    : EntryState :=
  mkEntryState (es_Photos es ++ [photo])
    (<[absImgSrc := zipPath]> (es_mediaToCopy es))
    (WriteString (es_bodyMarkdownBuilder es) (PhotoRef (DayOnePhoto.Identifier photo)))
    (es_currentPContent es).

(** No two source paths have the same destination. *)
Definition distinctDestinations (m : gmap string string) : Prop :=
  forall k1 k2 v, m !! k1 = Some v -> m !! k2 = Some v -> k1 = k2.

(** What holds of the state of an entry whose identifiers were minted
    from the [lo]-th on, [hi] identifiers having been minted in all. *)
Record EntryInv (W : World) (lo hi : nat) (es : EntryState) : Prop := mkEntryInv {
  inv_range : (lo <= hi)%nat;
  inv_refs :
    photoRefs (es_bodyMarkdownBuilder es) = map DayOnePhoto.Identifier (es_Photos es);
  inv_photos :
    forall p, In p (es_Photos es) ->
      exists i, (lo <= i < hi)%nat /\ DayOnePhoto.Identifier p = token W i;
  inv_media :
    forall k v, es_mediaToCopy es !! k = Some v ->
      exists i ext, (lo <= i < hi)%nat /\ isImageExt ext = true /\
        v = destPath (token W i) ext /\
        exists p, In p (es_Photos es) /\ DayOnePhoto.Identifier p = token W i /\
                  DayOnePhoto.Type_ p = TrimPrefix ext ".";
  inv_distinct :
    mintInjectiveUpTo W hi -> distinctDestinations (es_mediaToCopy es)
}.

(** A media map whose destinations come from identifiers minted between
    [lo] and [hi]. *)
Definition mediaFrom (W : World) (lo hi : nat) (m : gmap string string) : Prop :=
  forall k v, m !! k = Some v ->
    exists i ext, (lo <= i < hi)%nat /\ isImageExt ext = true /\
      v = destPath (token W i) ext.

(** An entry that has a text or a photo. *)
Definition hasContent (e : DayOneEntry.t) : Prop :=
  ~ (DayOneEntry.Text e = ""%string /\ DayOneEntry.Photos e = []).

(** *** The run *)

(** The folders that [main] chooses, for a temporary directory. *)
Definition rootsOf (W : World) (tempExtractDir : string) : string * string :=
  fst (detectRoots W tempExtractDir initialState).

(** What holds of the entries and the media collected so far, [n]
    identifiers having been minted. *)
Record RunInv (W : World) (n : nat) (col : Collected) : Prop := mkRunInv {
  run_content : Forall hasContent (col_Entries col);
  run_media : mediaFrom W 0 n (col_allMediaToCopy col);
  run_distinct : mintInjectiveUpTo W n -> distinctDestinations (col_allMediaToCopy col)
}.

(** A computation whose result and whose count of identifiers do not
    depend on what is in the log. *)
Definition logBlind {A : Type} (c : M A) : Prop :=
  forall st st',
    minted st = minted st' ->
    fst (c st) = fst (c st') /\ minted (snd (c st)) = minted (snd (c st')).

(** The journal that [main] hands to [createDayOneZip], for a temporary
    directory: the entries that the walk over the [Entries] folder
    collects (what is in the log plays no role in it). *)
Definition runJournal (W : World) (defaultTimeZone tempExtractDir : string)
    : result DayOneJournal.t unit :=
  match fst (walk W (snd (rootsOf W tempExtractDir)) defaultTimeZone
               (walkDir W (fst (rootsOf W tempExtractDir)))
               (mkCollected [] ∅) initialState) with
  | Ok col => Ok (DayOneJournal.mk {[ "version" := "1.0" ]} (col_Entries col))
  | Err e => Err e
  end.

(** What makes [main] stop with each of its fatal errors.  The last one
    is about the journal of the run and about its marshalled text. *)
Definition fatalCondition (W : World) (inputZip outputZip defaultTimeZone : string)
    (e : FatalError) : Prop :=
  match e with
  | FatalTempDir => mkdirTemp W = Err tt
  | FatalUnzip =>
      exists tmp, mkdirTemp W = Ok tmp /\ unzipOk W inputZip tmp = false
  | FatalNoEntries =>
      exists tmp, mkdirTemp W = Ok tmp /\ unzipOk W inputZip tmp = true /\
        stat W (fst (rootsOf W tmp)) = StatNotExist
  | FatalWalk =>
      exists tmp c, mkdirTemp W = Ok tmp /\ unzipOk W inputZip tmp = true /\
        stat W (fst (rootsOf W tmp)) <> StatNotExist /\
        In c (walkDir W (fst (rootsOf W tmp))) /\ wc_err c = true
  | FatalCreateZip =>
      exists tmp journal,
        mkdirTemp W = Ok tmp /\ unzipOk W inputZip tmp = true /\
        stat W (fst (rootsOf W tmp)) <> StatNotExist /\
        runJournal W defaultTimeZone tmp = Ok journal /\
        (osCreateOk W outputZip = false \/
         zipCreateOk W "Journal.json" = false \/
         marshalIndent W journal = Err tt \/
         exists jsonData,
           marshalIndent W journal = Ok jsonData /\ zipWriteOk W jsonData = false)
  end.

(** None of the conditions above holds: the steps before the archive
    succeed, and the journal of the run can be marshalled and written. *)
Definition noFatalError (W : World) (inputZip outputZip defaultTimeZone : string)
    : Prop :=
  exists tmp,
    mkdirTemp W = Ok tmp /\ unzipOk W inputZip tmp = true /\
    stat W (fst (rootsOf W tmp)) <> StatNotExist /\
    (forall c, In c (walkDir W (fst (rootsOf W tmp))) -> wc_err c = false) /\
    osCreateOk W outputZip = true /\
    zipCreateOk W "Journal.json" = true /\
    forall journal,
      runJournal W defaultTimeZone tmp = Ok journal ->
      exists jsonData,
        marshalIndent W journal = Ok jsonData /\ zipWriteOk W jsonData = true.

(** A world in which no step of a run fails fatally, whatever the
    journal. *)
Definition noFatalCondition (W : World) (inputZip outputZip : string) : Prop :=
  exists tmp,
    mkdirTemp W = Ok tmp /\ unzipOk W inputZip tmp = true /\
    stat W (fst (rootsOf W tmp)) <> StatNotExist /\
    (forall c, In c (walkDir W (fst (rootsOf W tmp))) -> wc_err c = false) /\
    osCreateOk W outputZip = true /\
    zipCreateOk W "Journal.json" = true /\
    (forall journal, exists jsonData, marshalIndent W journal = Ok jsonData) /\
    (forall jsonData, zipWriteOk W jsonData = true).

(** The output archive cannot be created, whatever the step of its
    creation that fails and whatever the journal. *)
Definition cannotCreateArchive (W : World) (outputZip : string) : Prop :=
  osCreateOk W outputZip = false \/
  zipCreateOk W "Journal.json" = false \/
  (exists journal, marshalIndent W journal = Err tt) \/
  (exists jsonData, zipWriteOk W jsonData = false).

(** The run stops with a fatal error only when the source archive
    cannot be extracted, the [Entries] folder is absent or the output
    archive cannot be created. *)
Definition fatalOnlyForThree : Prop :=
  forall (W : World) (inputZip outputZip tz : string) (e : FatalError) (st' : RunState),
    inputZip <> ""%string -> outputZip <> ""%string ->
    main W inputZip outputZip tz initialState = (Fatal e, st') ->
    (exists tmp, mkdirTemp W = Ok tmp /\ unzipOk W inputZip tmp = false)
    \/ (exists tmp, mkdirTemp W = Ok tmp /\ stat W (fst (rootsOf W tmp)) = StatNotExist)
    \/ cannotCreateArchive W outputZip.

(** The failures that are logged and passed over. *)
Record Recoverable (W : World) : Prop := mkRecoverable {
  (** a document without date is not an entry *)
  rec_no_date :
    forall path res tz st doc,
      openDocument W path = Ok doc -> headerText doc = ""%string ->
      processEntryHTML W path res tz st
      = (Err ErrNoDate,
         withLog (mkRunState (S (minted st)) (logged st)) LogNoDate [path]);
  (** a document whose date is not understood is not an entry *)
  rec_bad_date :
    forall path res tz st doc e,
      openDocument W path = Ok doc -> headerText doc <> ""%string ->
      parseAppleDate (headerText doc) = Err e ->
      processEntryHTML W path res tz st
      = (Err (ErrBadDate e),
         withLog (mkRunState (S (minted st)) (logged st)) LogBadDate
           [headerText doc; path]);
  (** an entry without text and without photo is not returned *)
  rec_empty_entry :
    forall path res tz st doc t,
      openDocument W path = Ok doc -> headerText doc <> ""%string ->
      parseAppleDate (headerText doc) = Ok t ->
      let body := processBody W path (GoTime.FormatRFC3339 t) doc
                    (mkRunState (S (minted st)) (logged st)) in
      entryText (extractTitle doc path) (fst body) = ""%string ->
      es_Photos (fst body) = [] ->
      processEntryHTML W path res tz st
      = (Err ErrEmptyEntry, withLog (snd body) LogEmptyEntry [path]);
  (** the walk goes on after a document that is not an entry *)
  rec_entry_skipped :
    forall res tz c col st err st2,
      wc_err c = false -> de_isDir (wc_entry c) = false ->
      isHtmlName W (de_name (wc_entry c)) = true ->
      processEntryHTML W (wc_path c) res tz (withLog st LogProcessingEntry [wc_path c])
      = (Err err, st2) ->
      visit W res tz c col st = (Ok col, withLog st2 LogEntryError [wc_path c]);
  (** an image of another format is dropped *)
  rec_image_format :
    forall path date img src es st,
      Html.Attr img "src" = Some src -> src <> ""%string ->
      isImageExt (imageExt W path src) = false ->
      processImage W path date img es st
      = (es, withLog st LogNonImage [imageExt W path src; path]);
  (** an image that is not there is dropped *)
  rec_image_missing :
    forall path date img src es st,
      Html.Attr img "src" = Some src -> src <> ""%string ->
      isImageExt (imageExt W path src) = true ->
      stat W (resolveImage path src) = StatNotExist ->
      processImage W path date img es st
      = (es, withLog st LogImageNotFound [resolveImage path src; path]);
  (** an image that cannot be read is dropped *)
  rec_image_unreadable :
    forall path date img src es st e,
      Html.Attr img "src" = Some src -> src <> ""%string ->
      isImageExt (imageExt W path src) = true ->
      stat W (resolveImage path src) <> StatNotExist ->
      calculateMD5 W (resolveImage path src) = Err e ->
      processImage W path date img es st
      = (es, withLog (mkRunState (S (minted st)) (logged st)) LogMD5Failed
               [resolveImage path src]);
  (** a fragment that is not converted is dropped *)
  rec_fragment :
    forall path es st e,
      es_currentPContent es <> ""%string ->
      convertString W (es_currentPContent es) = Err e ->
      convertAndAppendP W path es st
      = (mkEntryState (es_Photos es) (es_mediaToCopy es) (es_bodyMarkdownBuilder es)
           ""%string,
         withLog st LogMarkdownError [path]);
  (** a media file whose member cannot be created is left out of the
      archive *)
  rec_media_create :
    forall originalPath dayOneZipPath archive st,
      zipCreateOk W dayOneZipPath = false ->
      addMedia W (originalPath, dayOneZipPath) archive st
      = (archive, withLog st LogZipCreateFailed [dayOneZipPath]);
  (** a media file that cannot be opened leaves its member empty *)
  rec_media_open :
    forall originalPath dayOneZipPath archive st,
      zipCreateOk W dayOneZipPath = true -> osOpenOk W originalPath = false ->
      addMedia W (originalPath, dayOneZipPath) archive st
      = ((archive ++ [MediaFile dayOneZipPath NoContent])%list,
         withLog st LogMediaOpenFailed [originalPath]);
  (** a media file whose copy fails leaves its member with what was
      copied *)
  rec_media_copy :
    forall originalPath dayOneZipPath archive st,
      zipCreateOk W dayOneZipPath = true -> osOpenOk W originalPath = true ->
      ioCopyOk W originalPath dayOneZipPath = false ->
      addMedia W (originalPath, dayOneZipPath) archive st
      = ((archive ++ [MediaFile dayOneZipPath (PartOf originalPath)])%list,
         withLog st LogMediaCopyFailed [originalPath]);
  (** no media file makes [createDayOneZip] fail *)
  rec_media_archive :
    forall outputZipPath journal mediaToCopy tmp st jsonData,
      osCreateOk W outputZipPath = true -> zipCreateOk W "Journal.json" = true ->
      marshalIndent W journal = Ok jsonData -> zipWriteOk W jsonData = true ->
      exists archive st',
        createDayOneZip W outputZipPath journal mediaToCopy tmp st = (Ok archive, st')
}.

(** *** Images and placeholders *)

(** An image of a document: the [src], not empty, of an
    [img.asset_image] of a photo item of an asset grid, the grid being a
    child of the page container that is neither the header nor the
    title. *)
Definition imageOf (doc : Html.Document) (imgSrc : string) : Prop :=
  exists s imgSel,
    In s (Html.Children (Html.docFind doc Html.sel_pageContainer)) /\
    Html.Is s Html.sel_pageHeader = false /\
    Html.Is s Html.sel_title = false /\
    Html.Is s Html.sel_assetGrid = true /\
    In imgSel (Html.Find s Html.sel_photo_img) /\
    Html.Attr imgSel "src" = Some imgSrc /\
    imgSrc <> ""%string.




(** The path of the file of a photo in the archive. *)
Definition photoPath (photo : DayOnePhoto.t) : string :=
  ("photos/" +:+ DayOnePhoto.Identifier photo +:+ "." +:+ DayOnePhoto.Type_ photo)%string.



(** The token that stands for a photo in the text of an entry. *)
Definition placeholder (photoUUID : string) : string :=
  ("![](dayone-moment://" +:+ photoUUID +:+ ")")%string.

Definition notLF (c : ascii) : bool := negb (Ascii.eqb c "010"%char).

(** Every placeholder in the text of an entry that is returned has its
    photo in the entry. *)
Definition everyPlaceholderHasPhoto : Prop :=
  forall (W : World) (htmlFilePath res tz : string) (st st' : RunState)
      (e : DayOneEntry.t) (m : gmap string string) (photoUUID : string),
    processEntryHTML W htmlFilePath res tz st = (Ok (e, m), st') ->
    Contains (DayOneEntry.Text e) (placeholder photoUUID) = true ->
    exists photo,
      In photo (DayOneEntry.Photos e) /\ DayOnePhoto.Identifier photo = photoUUID.


(** The heading line of a title, and the blank line after it. *)
Definition heading (entryTitle : string) : string :=
  ("# " +:+ entryTitle +:+ LF +:+ LF)%string.

End ProofDefs.

(** ** A sample export *)


Module Sample.
Import Html.

Definition el (tag cls : string) (kids : list Node) : Node :=
  ElementNode tag [("class", cls)] kids.

Definition page (kids : list Node) : Document :=
  [ElementNode "html" [] [ElementNode "body" [] [el "div" "pageContainer" kids]]].

Definition pageHeader (text : string) : Node := el "div" "pageHeader" [TextNode text].

Definition title (text : string) : Node :=
  el "div" "title" [el "span" "s2" [TextNode text]].

Definition para (text : string) : Node := el "p" "p2" [TextNode text].

Definition assetGrid (srcs : list string) : Node :=
  el "div" "assetGrid"
    (map (fun src =>
            el "div" "gridItem assetType_photo"
              [ElementNode "img" [("class", "asset_image"); ("src", src)] []])
       srcs).

Definition walkDoc : Document :=
  page [pageHeader "Wednesday, May 14, 2025"; title "Morning Walk";
        para "Felt great today."; assetGrid ["../Resources/IMG1.png"]].

Definition againDoc : Document :=
  page [pageHeader "Thursday, May 15, 2025"; para "The same photo.";
        assetGrid ["../Resources/IMG1.png"]].

Definition titleOnlyDoc : Document :=
  page [pageHeader "Friday, May 16, 2025"; title "Only A Title"].

Definition clipDoc : Document :=
  page [pageHeader "Saturday, May 17, 2025"; para "A clip.";
        assetGrid ["../Resources/clip.mov"]].

Definition garbageDoc : Document :=
  page [pageHeader "garbage text"; para "Lost."].

Definition emptyDoc : Document := page [pageHeader "Sunday, May 18, 2025"].

(** A document whose title is the text of a placeholder, with the
    identifier that the photo of the first entry gets in the run
    below. *)
Definition tokenDoc : Document :=
  page [pageHeader "Monday, May 19, 2025";
        title "![](dayone-moment://00000000000000000000000000000001)"].

Definition walkPath : string := "/tmp/aj/Entries/2025-05-14_Morning_Walk.html".
Definition againPath : string := "/tmp/aj/Entries/2025-05-15_Once_Again.html".
Definition titleOnlyPath : string := "/tmp/aj/Entries/2025-05-16_Title.html".
Definition clipPath : string := "/tmp/aj/Entries/2025-05-17_Clip.html".
Definition garbagePath : string := "/tmp/aj/Entries/garbage.html".
Definition emptyPath : string := "/tmp/aj/Entries/empty.html".
Definition tokenPath : string := "/tmp/aj/Entries/2025-05-19_Token.html".
Definition imagePath : string := "/tmp/aj/Resources/IMG1.png".

Definition documents : list (string * Document) :=
  [(walkPath, walkDoc); (againPath, againDoc); (titleOnlyPath, titleOnlyDoc);
   (clipPath, clipDoc); (garbagePath, garbageDoc); (emptyPath, emptyDoc);
   (tokenPath, tokenDoc)].

Fixpoint assoc {A : Type} (k : string) (l : list (string * A)) : option A :=
  match l with
  | [] => None
  | (k', a) :: l' => if String.eqb k k' then Some a else assoc k l'
  end.

(** A renderer and a converter that stand for the libraries: tags
    without attributes, and the text between the tags. *)
Fixpoint render (n : Node) : string :=
  match n with
  | TextNode d => d
  | CommentNode _ => ""
  | ElementNode tag _ kids =>
      "<" +:+ tag +:+ ">" +:+ fold_right (fun k acc => render k +:+ acc) "" kids
      +:+ "</" +:+ tag +:+ ">"
  end.

Fixpoint stripTags (inTag : bool) (s : string) : string :=
  match s with
  | "" => ""
  | String c s' =>
      if Ascii.eqb c "<" then stripTags true s'
      else if Ascii.eqb c ">" then stripTags false s'
      else if inTag then stripTags inTag s'
      else String c (stripTags inTag s')
  end.

Definition file (path name : string) : WalkCall :=
  mkWalkCall path (mkDirEntry name false) false.

Definition calls : list WalkCall :=
  [mkWalkCall "/tmp/aj/Entries" (mkDirEntry "Entries" true) false;
   file walkPath "2025-05-14_Morning_Walk.html";
   file againPath "2025-05-15_Once_Again.html";
   file titleOnlyPath "2025-05-16_Title.html";
   file clipPath "2025-05-17_Clip.html";
   file garbagePath "garbage.html";
   file emptyPath "empty.html";
   file "/tmp/aj/Entries/notes.txt" "notes.txt"].

Definition zero : ascii := ascii_of_nat 0.

Definition world : World :=
  {| openDocument := fun path =>
       match assoc path documents with
       | Some doc => Ok doc
       | None => Err LoadOpenFailed
       end;
     outerHtml := fun n => Ok (render n);
     convertString := fun html => Ok (stripTags false html);
     stat := fun path =>
       if existsb (String.eqb path)
            ["/tmp/aj/Entries"; "/tmp/aj/Resources"; imagePath;
             "/tmp/aj/Resources/clip.mov"]
       then StatFound else StatNotExist;
     readFile := fun path =>
       if String.eqb path imagePath then Ok "PNG" else Err OpenFailed;
     md5sum := fun _ => Strings.bytes (repeat 0 16);
     uuidNew := fun n =>
       Uuid.mkUUID zero zero zero zero zero zero zero zero
         zero zero zero zero zero zero zero (ascii_of_nat n);
     unicodeLower := fun s => s;
     unicodeUpper := fun s => s;
     mkdirTemp := Ok "/tmp/aj";
     unzipOk := fun _ _ => true;
     readDir := fun _ => Ok [mkDirEntry "Entries" true; mkDirEntry "Resources" true];
     walkDir := fun root => if String.eqb root "/tmp/aj/Entries" then calls else [];
     osCreateOk := fun _ => true;
     zipCreateOk := fun _ => true;
     marshalIndent := fun _ => Ok "{}";
     zipWriteOk := fun _ => true;
     osOpenOk := fun _ => true;
     ioCopyOk := fun _ _ => true;
     removeAllOk := fun _ => true |}.

(** The same export when a folder under [Entries] cannot be read. *)
Definition unreadableWorld : World :=
  {| openDocument := openDocument world;
     outerHtml := outerHtml world;
     convertString := convertString world;
     stat := stat world;
     readFile := readFile world;
     md5sum := md5sum world;
     uuidNew := uuidNew world;
     unicodeLower := unicodeLower world;
     unicodeUpper := unicodeUpper world;
     mkdirTemp := mkdirTemp world;
     unzipOk := unzipOk world;
     readDir := readDir world;
     walkDir := fun root =>
       if String.eqb root "/tmp/aj/Entries"
       then [mkWalkCall "/tmp/aj/Entries" (mkDirEntry "Entries" true) false;
             file walkPath "2025-05-14_Morning_Walk.html";
             mkWalkCall "/tmp/aj/Entries/2024" (mkDirEntry "2024" true) true]
       else [];
     osCreateOk := osCreateOk world;
     zipCreateOk := zipCreateOk world;
     marshalIndent := marshalIndent world;
     zipWriteOk := zipWriteOk world;
     osOpenOk := osOpenOk world;
     ioCopyOk := ioCopyOk world;
     removeAllOk := removeAllOk world |}.

End Sample.

(** ** The sample export, converted *)

Module SampleRun.
Import Sample.

Definition resources : string := "/tmp/aj/Resources".

Definition noEntry : DayOneEntry.t := DayOneEntry.mk "" "" "" "" false "" [].

Definition entryOf (r : result (DayOneEntry.t * gmap string string) ProcError * RunState)
    : DayOneEntry.t :=
  match fst r with
  | Ok (e, _) => e
  | Err _ => noEntry
  end.

Definition mediaOf (r : result (DayOneEntry.t * gmap string string) ProcError * RunState)
    : gmap string string :=
  match fst r with
  | Ok (_, m) => m
  | Err _ => ∅
  end.

(** The first entry, from the initial state. *)
Definition walkEntry : DayOneEntry.t :=
  Eval vm_compute in entryOf (processEntryHTML world walkPath resources "UTC" initialState).
Definition walkMedia : gmap string string :=
  Eval vm_compute in mediaOf (processEntryHTML world walkPath resources "UTC" initialState).
Definition walkState : RunState :=
  Eval vm_compute in snd (processEntryHTML world walkPath resources "UTC" initialState).

(** The second entry, which shows the same image, after the first. *)
Definition againEntry : DayOneEntry.t :=
  Eval vm_compute in entryOf (processEntryHTML world againPath resources "UTC" walkState).
Definition againMedia : gmap string string :=
  Eval vm_compute in mediaOf (processEntryHTML world againPath resources "UTC" walkState).
Definition againState : RunState :=
  Eval vm_compute in snd (processEntryHTML world againPath resources "UTC" walkState).

(** The entry that has a title and nothing else. *)
Definition titleOnlyEntry : DayOneEntry.t :=
  Eval vm_compute in
    entryOf (processEntryHTML world titleOnlyPath resources "UTC" initialState).
Definition titleOnlyState : RunState :=
  Eval vm_compute in
    snd (processEntryHTML world titleOnlyPath resources "UTC" initialState).

(** The entry whose title is the text of a placeholder. *)
Definition tokenEntry : DayOneEntry.t :=
  Eval vm_compute in
    entryOf (processEntryHTML world tokenPath resources "UTC" initialState).
Definition tokenState : RunState :=
  Eval vm_compute in
    snd (processEntryHTML world tokenPath resources "UTC" initialState).

(** The image of the entry with a clip. *)
Definition clipImage : Html.Located :=
  (Html.ElementNode "img" [("class", "asset_image"); ("src", "../Resources/clip.mov")] [],
   []).

Definition emptyState : EntryState := mkEntryState [] ∅ [] "".

(** The whole run. *)
Definition finalJournal : DayOneJournal.t :=
  Eval vm_compute in
    match fst (main world "in.zip" "out.zip" "UTC" initialState) with
    | Completed j _ _ => j
    | _ => DayOneJournal.mk ∅ []
    end.
Definition finalMedia : gmap string string :=
  Eval vm_compute in
    match fst (main world "in.zip" "out.zip" "UTC" initialState) with
    | Completed _ m _ => m
    | _ => ∅
    end.
Definition finalArchive : list ZipMember :=
  Eval vm_compute in
    match fst (main world "in.zip" "out.zip" "UTC" initialState) with
    | Completed _ _ a => a
    | _ => []
    end.
Definition finalState : RunState :=
  Eval vm_compute in snd (main world "in.zip" "out.zip" "UTC" initialState).

End SampleRun.

(** ** [unzip]: the extraction of the source archive

    The members of the archive are read in order.  The file system is seen
    through the operations that [unzip] attempts on it, kept in order in a
    trace; whether an operation succeeds is decided by the environment, which
    may look at the operations attempted before. *)

Module Unzip.
Import Strings Filepath.

(** A member of the archive: [f.Name] and [f.FileInfo().IsDir()]. *)
Record ZipFile : Type := mkZipFile {
  zf_Name : string;
  zf_isDir : bool
}.

(** An operation attempted on the file system. *)
Inductive FsOp : Type :=
| OpMkdirAll (path : string)
| OpOpenFile (fpath : string)
| OpCopy (fpath : string) (f : ZipFile).

Inductive UnzipError : Type :=
| ErrOpenReader
| ErrMkdirAll (path : string)
| ErrIllegalPath (fpath : string)
| ErrOpenFile (fpath : string)
| ErrOpenMember (f : ZipFile)
| ErrCopy (fpath : string).

Record Env : Type := mkEnv {
  (** [zip.OpenReader]: the members of the archive *)
  zipOpenReader : string -> result (list ZipFile) unit;
  (** [os.MkdirAll] *)
  mkdirAllOk : list FsOp -> string -> bool;
  (** [os.OpenFile] with [O_WRONLY|O_CREATE|O_TRUNC] *)
  openFileOk : list FsOp -> string -> bool;
  (** [f.Open] of a member *)
  memberOpenOk : list FsOp -> ZipFile -> bool;
  (** [io.Copy] of the member into the file *)
  copyOk : list FsOp -> string -> ZipFile -> bool
}.

Section WithEnv.
Context (E : Env).

(** The body of the loop over [r.File]. *)
Definition extractFile (dest : string) (f : ZipFile) (tr : list FsOp)
    : result unit UnzipError * list FsOp :=
  let fpath := Join [dest; zf_Name f] in
  if negb (HasPrefix fpath (Clean dest +:+ "/")) then (Err (ErrIllegalPath fpath), tr)
  else if zf_isDir f then (Ok tt, tr ++ [OpMkdirAll fpath])%list
  else
    let tr1 := (tr ++ [OpMkdirAll (Dir fpath)])%list in
    if negb (mkdirAllOk E tr (Dir fpath)) then (Err (ErrMkdirAll (Dir fpath)), tr1)
    else
      let tr2 := (tr1 ++ [OpOpenFile fpath])%list in
      if negb (openFileOk E tr1 fpath) then (Err (ErrOpenFile fpath), tr2)
      else if negb (memberOpenOk E tr2 f) then (Err (ErrOpenMember f), tr2)
      else
        let tr3 := (tr2 ++ [OpCopy fpath f])%list in
        if negb (copyOk E tr2 fpath f) then (Err (ErrCopy fpath), tr3)
        else (Ok tt, tr3).

Fixpoint extractAll (dest : string) (files : list ZipFile) (tr : list FsOp)
    : result unit UnzipError * list FsOp :=
  match files with
  | [] => (Ok tt, tr)
  | f :: files' =>
      match extractFile dest f tr with
      | (Ok _, tr') => extractAll dest files' tr'
      | (Err e, tr') => (Err e, tr')
      end
  end.

Definition unzip (src dest : string) : result unit UnzipError * list FsOp :=
  match zipOpenReader E src with
  | Err _ => (Err ErrOpenReader, [])
  | Ok files =>
      if negb (mkdirAllOk E [] dest) then (Err (ErrMkdirAll dest), [OpMkdirAll dest])
      else extractAll dest files [OpMkdirAll dest]
  end.

End WithEnv.

(** The test against paths that leave the destination. *)
Definition legal (dest : string) (f : ZipFile) : bool :=
  HasPrefix (Join [dest; zf_Name f]) (Clean dest +:+ "/").

(** An operation that stays under the destination: the path that is
    written to passed the test. *)
Definition within (dest : string) (op : FsOp) : Prop :=
  let under := fun p => HasPrefix p (Clean dest +:+ "/") = true in
  match op with
  | OpMkdirAll path => path = dest \/ under path \/ exists fpath, path = Dir fpath /\ under fpath
  | OpOpenFile fpath => under fpath
  | OpCopy fpath _ => under fpath
  end.

(** The elements of a path: what its separators separate. *)
Fixpoint elements (s : string) : list string :=
  match s with
  | "" => [""]
  | String c s' =>
      if isSep c then "" :: elements s'
      else
        match elements s' with
        | [] => [String c ""]
        | e :: es => String c e :: es
        end
  end.

(** An element that names a file or a folder. *)
Definition isProper (e : string) : bool :=
  negb (String.eqb e "") && negb (String.eqb e ".") && negb (String.eqb e "..").

(** A name without any [..], that names something. *)
Definition ordinary (name : string) : bool :=
  forallb (fun e => negb (String.eqb e "..")) (elements name) &&
  existsb isProper (elements name).

(** A sample archive, with a member that leaves the destination. *)
Definition sampleEnv (files : list ZipFile) : Env :=
  {| zipOpenReader := fun _ => Ok files;
     mkdirAllOk := fun _ _ => true;
     openFileOk := fun _ _ => true;
     memberOpenOk := fun _ _ => true;
     copyOk := fun _ _ _ => true |}.

Definition sampleFiles : list ZipFile :=
  [mkZipFile "Entries/" true; mkZipFile "Entries/a.html" false;
   mkZipFile "../../etc/passwd" false; mkZipFile "Resources/b.png" false].

End Unzip.

(** ** The texts that the program produces *)

Module Shapes.
Import Strings GoTime.

Definition isLowerHexByte (c : ascii) : bool :=
  let n := nat_of_ascii c in
  (((48 <=? n) && (n <=? 57)) || ((97 <=? n) && (n <=? 102)))%nat.

(** A number on two digits. *)
Definition pad2 (n : Z) : string := appendDigits 2 n "".

(** The text of the noon of a date in UTC, in the layout
    [time.RFC3339]. *)
Definition isoNoon (y m d : Z) : string :=
  AppleDate.yearText y +:+ "-" +:+ pad2 m +:+ "-" +:+ pad2 d +:+ "T12:00:00Z".

End Shapes.

(** ** What the body of an entry is made of *)

Module Body.
Import Strings ProofDefs.

(** A photo made from an image of the document [doc] at
    [htmlFilePath]: its type is the extension of the image without the
    dot, its digest is that of the file, its date is that of the entry,
    and the file has a copy instruction. *)
Definition photoFrom (W : World) (doc : Html.Document) (htmlFilePath date : string)
    (media : gmap string string) (p : DayOnePhoto.t) : Prop :=
  exists imgSrc,
    imageOf doc imgSrc /\
    isImageExt (imageExt W htmlFilePath imgSrc) = true /\
    DayOnePhoto.Type_ p = TrimPrefix (imageExt W htmlFilePath imgSrc) "." /\
    stat W (resolveImage htmlFilePath imgSrc) <> StatNotExist /\
    calculateMD5 W (resolveImage htmlFilePath imgSrc) = Ok (DayOnePhoto.MD5 p) /\
    DayOnePhoto.CreationDate p = date /\
    is_Some (media !! resolveImage htmlFilePath imgSrc).

(** A copy instruction made from an image of the document: the image
    resolves to the source path [k], the file is there, and the
    destination [v] is that of a photo of the entry that has the digest
    of the file. *)
Definition instructionFrom (W : World) (doc : Html.Document) (htmlFilePath : string)
    (photos : list DayOnePhoto.t) (k v : string) : Prop :=
  exists imgSrc p,
    imageOf doc imgSrc /\
    k = resolveImage htmlFilePath imgSrc /\
    isImageExt (imageExt W htmlFilePath imgSrc) = true /\
    stat W k <> StatNotExist /\
    In p photos /\
    calculateMD5 W k = Ok (DayOnePhoto.MD5 p) /\
    DayOnePhoto.Type_ p = TrimPrefix (imageExt W htmlFilePath imgSrc) "." /\
    v = destPath (DayOnePhoto.Identifier p) (imageExt W htmlFilePath imgSrc).

(** A piece of text of the body: the conversion of the HTML of one
    node, without surrounding white space, and a blank line. *)
Definition convertedPiece (W : World) (piece : Piece) : Prop :=
  match piece with
  | MarkdownText text =>
      exists n markdownFrag,
        outerHtmlOrEmpty W n <> "" /\
        convertString W (outerHtmlOrEmpty W n) = Ok markdownFrag /\
        text = TrimSpace markdownFrag +:+ LF +:+ LF
  | PhotoRef _ => True
  end.

Record BodyInv (W : World) (doc : Html.Document) (htmlFilePath date : string)
    (es : EntryState) : Prop :=
  mkBodyInv {
    body_photos :
      Forall (photoFrom W doc htmlFilePath date (es_mediaToCopy es)) (es_Photos es);
    body_media :
      forall k v,
        es_mediaToCopy es !! k = Some v ->
        instructionFrom W doc htmlFilePath (es_Photos es) k v;
    body_count : (size (es_mediaToCopy es) <= length (es_Photos es))%nat;
    body_buffer : es_currentPContent es = "";
    body_pieces : Forall (convertedPiece W) (es_bodyMarkdownBuilder es)
  }.

Definition imageTypes : list string := ["png"; "jpg"; "jpeg"; "gif"].

End Body.

(** ** The run: the log, the files that are entries, the archive *)

Module RunShapes.
Import Strings ProofDefs.

(** The log of [st'] is that of [st] followed by lines that satisfy
    [P]. *)
Definition appends (P : LogLine -> Prop) (st st' : RunState) : Prop :=
  exists lines, logged st' = (logged st ++ lines)%list /\ Forall P lines.

(** A computation that only adds lines that satisfy [P] to the log. *)
Definition logs {A : Type} (P : LogLine -> Prop) (c : M A) : Prop :=
  forall st, appends P st (snd (c st)).

Definition notCleanup (line : LogLine) : Prop := log_site line <> LogCleaningUp.

(** A call of the walk for a file that is taken for an entry. *)
Definition htmlCall (W : World) (c : WalkCall) : bool :=
  negb (de_isDir (wc_entry c)) && isHtmlName W (de_name (wc_entry c)).

(** The journal [col'] is [col] with at most [bound] entries added at
    the end, and the media map still has every source path it had. *)
Definition grows (bound : nat) (col col' : Collected) : Prop :=
  exists new,
    col_Entries col' = (col_Entries col ++ new)%list /\
    (length new <= bound)%nat /\
    forall k, is_Some (col_allMediaToCopy col !! k) ->
              is_Some (col_allMediaToCopy col' !! k).


(** What is written into the member of a media file, once the member
    is created. *)
Definition written (W : World) (originalPath dayOneZipPath : string) : MediaContent :=
  if negb (osOpenOk W originalPath) then NoContent
  else if negb (ioCopyOk W originalPath dayOneZipPath) then PartOf originalPath
  else AllOf originalPath.

(** The members that a copy instruction adds to the archive. *)
Definition membersOf (W : World) (item : string * string) : list ZipMember :=
  if zipCreateOk W (snd item)
  then [MediaFile (snd item) (written W (fst item) (snd item))]
  else [].

(** A sample export without any entry: a folder and a text file. *)
Definition plainCalls : list WalkCall :=
  [mkWalkCall "/tmp/aj/Entries" (mkDirEntry "Entries" true) false;
   mkWalkCall "/tmp/aj/Entries/notes.txt" (mkDirEntry "notes.txt" false) false].

Definition plainWorld : World :=
  {| openDocument := openDocument Sample.world;
     outerHtml := outerHtml Sample.world;
     convertString := convertString Sample.world;
     stat := stat Sample.world;
     readFile := readFile Sample.world;
     md5sum := md5sum Sample.world;
     uuidNew := uuidNew Sample.world;
     unicodeLower := unicodeLower Sample.world;
     unicodeUpper := unicodeUpper Sample.world;
     mkdirTemp := mkdirTemp Sample.world;
     unzipOk := unzipOk Sample.world;
     readDir := readDir Sample.world;
     walkDir := fun _ => plainCalls;
     osCreateOk := osCreateOk Sample.world;
     zipCreateOk := zipCreateOk Sample.world;
     marshalIndent := marshalIndent Sample.world;
     zipWriteOk := zipWriteOk Sample.world;
     osOpenOk := osOpenOk Sample.world;
     ioCopyOk := ioCopyOk Sample.world;
     removeAllOk := removeAllOk Sample.world |}.

End RunShapes.

(** ** Paths under a root *)

Module Paths.
Import Strings Filepath.

(** The name of a file or of a folder: an element that is not empty,
    [.] or [..] and has no separator. *)
Definition plain (e : string) : bool :=
  Unzip.isProper e && ProofDefs.allBytes ProofDefs.notSep e.

(** The loop of [Clean] for what follows the root of a rooted path,
    with the fuel that [Clean] gives it at least. *)
Definition cleanRooted (q out : string) : string :=
  cleanLoop (String.length q) true q out 1.

End Paths.

(** * Properties *)

(** ** The library functions on examples *)

Example TrimSpace_ex : Strings.TrimSpace "  May 14, 2025 " = "May 14, 2025".
Proof. reflexivity. Qed.
Example SplitN_ex :
  Strings.SplitN "Wednesday, May 14, 2025" "," 2 = ["Wednesday"; " May 14, 2025"].
Proof. reflexivity. Qed.
Example ReplaceAll_ex : Strings.ReplaceAll "The_Long__Title" "_" " " = "The Long  Title".
Proof. reflexivity. Qed.
Example ReplaceAll_ex2 : Strings.ReplaceAll "aaaXaa" "aa" "b" = "baXb".
Proof. reflexivity. Qed.
Example TrimSuffix_ex : Strings.TrimSuffix "2025-05-14_Walk.html" ".html" = "2025-05-14_Walk".
Proof. reflexivity. Qed.
Example Clean_ex1 : Filepath.Clean "/tmp/x/Entries/../Resources/I.png" = "/tmp/x/Resources/I.png".
Proof. reflexivity. Qed.
Example Clean_ex2 : Filepath.Clean "a//b/./c/../../d/" = "a/d".
Proof. reflexivity. Qed.
Example Clean_ex3 : Filepath.Clean "../../a/../../b" = "../../../b".
Proof. reflexivity. Qed.
Example Clean_ex4 : Filepath.Clean "/../a/.." = "/".
Proof. reflexivity. Qed.
Example Clean_ex5 : Filepath.Clean "a/.." = ".".
Proof. reflexivity. Qed.
Example Join_ex : Filepath.Join ["photos"; "ABC.png"] = "photos/ABC.png".
Proof. reflexivity. Qed.
Example Dir_ex : Filepath.Dir "/tmp/x/Entries/a.html" = "/tmp/x/Entries".
Proof. reflexivity. Qed.
Example Dir_ex2 : Filepath.Dir "a.html" = ".".
Proof. reflexivity. Qed.
Example Base_ex : Filepath.Base "/tmp/x/Entries/2025-05-14_Walk.html" = "2025-05-14_Walk.html".
Proof. reflexivity. Qed.
Example Base_ex2 : Filepath.Base "/a/b//" = "b".
Proof. reflexivity. Qed.
Example Base_ex3 : Filepath.Base "///" = "/".
Proof. reflexivity. Qed.
Example Ext_ex : Filepath.Ext "/a.b/c.tar.GZ" = ".GZ".
Proof. reflexivity. Qed.
Example Ext_ex2 : Filepath.Ext "/a.b/c" = "".
Proof. reflexivity. Qed.
Example Date_ex : GoTime.unixSec (GoTime.Date 2025 5 14 12 0 0 0 GoTime.UTC) = 1747224000%Z.
Proof. reflexivity. Qed.
Example Date_norm_ex :
  GoTime.Date 2025 14 31 25 0 0 0 GoTime.UTC = GoTime.Date 2026 3 4 1 0 0 0 GoTime.UTC.
Proof. reflexivity. Qed.
Example Parse_ex1 :
  GoTime.Parse "January 2, 2006" "May 14, 2025" = Ok (GoTime.Date 2025 5 14 0 0 0 0 GoTime.UTC).
Proof. reflexivity. Qed.
Example Parse_ex2 : GoTime.Parse "January 2, 2006" "Dec 12, 2023" = Err GoTime.errBad.
Proof. reflexivity. Qed.
Example Parse_ex3 :
  GoTime.Parse "Jan 2, 2006" "dec   7,  2023" = Ok (GoTime.Date 2023 12 7 0 0 0 0 GoTime.UTC).
Proof. reflexivity. Qed.
Example Parse_ex4 : GoTime.Parse "January 2, 2006" "February 30, 2024" = Err GoTime.errDayOutOfRange.
Proof. reflexivity. Qed.
Example Parse_ex5 : GoTime.Parse "January 2, 2006" "May 14, 2025 " = Err GoTime.errExtraText.
Proof. reflexivity. Qed.
Example Format_ex :
  GoTime.FormatRFC3339 (GoTime.Date 2025 5 14 12 0 0 0 GoTime.UTC) = "2025-05-14T12:00:00Z".
Proof. reflexivity. Qed.
Example Format_ex2 :
  GoTime.FormatRFC3339 (GoTime.Date 33 1 2 12 0 0 0 GoTime.UTC) = "0033-01-02T12:00:00Z".
Proof. reflexivity. Qed.

(** ** The calendar: [Date] and the accessors agree *)

Module Calendar.
Import GoTime ProofDefs.
Local Open Scope Z_scope.

Lemma checkCycle_true :
  forallb (fun yoe =>
    forallb (fun m =>
      forallb (fun d => checkDay yoe (m + 1) d) (upto 32)) (upto 12)) (upto 400) = true.
Proof. vm_cast_no_check (eq_refl true). Qed.

Lemma In_upto (n : nat) (z : Z) : 0 <= z < Z.of_nat n -> In z (upto n).
Proof.
  intros Hz. unfold upto. apply in_map_iff. exists (Z.to_nat z). split.
  - lia.
  - apply in_seq. lia.
Qed.

Lemma cycle_roundtrip (yoe m d : Z) :
  0 <= yoe < 400 -> 1 <= m <= 12 ->
  1 <= d <= daysIn m (yoe + (if m <=? 2 then 1 else 0)) ->
  0 <= doeOf yoe m d < 146097 /\ civilOfDoe (doeOf yoe m d) = (yoe, m, d).
Proof.
  intros Hy Hm Hd.
  assert (Hd31 : d <= 31).
  { destruct Hd as [_ Hd]. revert Hd. unfold daysIn.
    repeat match goal with |- context [if ?b then _ else _] => destruct b end; lia. }
  pose proof checkCycle_true as H.
  rewrite forallb_forall in H. specialize (H yoe (In_upto 400 yoe ltac:(lia))).
  rewrite forallb_forall in H. specialize (H (m - 1) (In_upto 12 (m - 1) ltac:(lia))).
  rewrite forallb_forall in H. specialize (H d (In_upto 32 d ltac:(lia))).
  replace (m - 1 + 1) with m in H by lia.
  unfold checkDay in H.
  assert (Hpre : (1 <=? d) && (d <=? daysIn m (yoe + (if m <=? 2 then 1 else 0))) = true).
  { apply andb_true_intro. split; apply Z.leb_le; lia. }
  rewrite Hpre in H. cbn [implb] in H.
  destruct (civilOfDoe (doeOf yoe m d)) as [[y2 m2] d2].
  apply andb_prop in H. destruct H as [HAB HE].
  apply andb_prop in HAB. destruct HAB as [HA HB].
  apply andb_prop in HE. destruct HE as [HE H3].
  apply andb_prop in HE. destruct HE as [H1 H2].
  apply Z.leb_le in HA. apply Z.ltb_lt in HB.
  apply Z.eqb_eq in H1. apply Z.eqb_eq in H2. apply Z.eqb_eq in H3.
  subst. split; [lia | reflexivity].
Qed.

Lemma isLeap_cycle (y k : Z) : isLeap (y + k * 400) = isLeap y.
Proof.
  unfold isLeap.
  replace ((y + k * 400) mod 4) with (y mod 4)
    by (replace (y + k * 400) with (y + (k * 100) * 4) by ring;
        symmetry; apply Z_mod_plus_full).
  replace ((y + k * 400) mod 100) with (y mod 100)
    by (replace (y + k * 400) with (y + (k * 4) * 100) by ring;
        symmetry; apply Z_mod_plus_full).
  replace ((y + k * 400) mod 400) with (y mod 400)
    by (symmetry; apply Z_mod_plus_full).
  reflexivity.
Qed.

Lemma daysIn_cycle (m y k : Z) : daysIn m (y + k * 400) = daysIn m y.
Proof. unfold daysIn. rewrite isLeap_cycle. reflexivity. Qed.

(** A date of the calendar is recovered from its day number. *)
Lemma civil_roundtrip (y m d : Z) :
  1 <= m <= 12 -> 1 <= d <= daysIn m y ->
  civilFromDays (daysFromCivil y m d) = (y, m, d).
Proof.
  intros Hm Hd.
  set (y' := if m <=? 2 then y - 1 else y).
  set (era := y' / 400).
  set (yoe := y' - era * 400).
  assert (Hyoe : 0 <= yoe < 400).
  { unfold yoe, era. pose proof (Z.mod_pos_bound y' 400 ltac:(lia)) as Hb.
    rewrite Z.mod_eq in Hb by lia. lia. }
  assert (Hy : y = yoe + (if m <=? 2 then 1 else 0) + era * 400).
  { unfold yoe, y'. destruct (m <=? 2); lia. }
  assert (Hd' : 1 <= d <= daysIn m (yoe + (if m <=? 2 then 1 else 0))).
  { rewrite <- (daysIn_cycle m _ era), <- Hy. exact Hd. }
  destruct (cycle_roundtrip yoe m d Hyoe Hm Hd') as [Hdoe Hciv].
  assert (Hdays : daysFromCivil y m d = era * 146097 + doeOf yoe m d - 719468).
  { reflexivity. }
  rewrite Hdays. unfold civilFromDays.
  replace (era * 146097 + doeOf yoe m d - 719468 + 719468)
    with (doeOf yoe m d + era * 146097) by ring.
  rewrite Z.div_add by lia. rewrite (Z.div_small (doeOf yoe m d)) by lia.
  replace (doeOf yoe m d + era * 146097 - (0 + era) * 146097)
    with (doeOf yoe m d) by ring.
  change (let '(yoe2, m2, d2) := civilOfDoe (doeOf yoe m d) in
          ((if m2 <=? 2 then yoe2 + (0 + era) * 400 + 1 else yoe2 + (0 + era) * 400), m2, d2)
          = (y, m, d)).
  rewrite Hciv. f_equal. f_equal. destruct (m <=? 2); lia.
Qed.

(** The fields of a [Date] built from a date of the calendar and a
    time of the day. *)
Lemma Date_fields (y m d h mi s : Z) (loc : Location) :
  1 <= m <= 12 -> 1 <= d <= daysIn m y ->
  0 <= h < 24 -> 0 <= mi < 60 -> 0 <= s < 60 ->
  let t := Date y m d h mi s 0 loc in
  Year t = y /\ Month t = m /\ Day t = d /\
  Hour t = h /\ Minute t = mi /\ Second t = s /\ Nanosecond t = 0 /\
  location t = loc.
Proof.
  intros Hm Hd Hh Hmi Hs t.
  assert (Hloc : localSec t = daysFromCivil y m d * 86400 + (h * 3600 + mi * 60 + s)).
  { unfold t, localSec, Date. cbn [unixSec location].
    rewrite (Z.div_small (m - 1) 12) by lia.
    rewrite (Z.mod_small (m - 1) 12) by lia.
    replace (m - 1 + 1) with m by lia. replace (y + 0) with y by lia.
    change (0 / 1000000000) with 0.
    assert (Hlin : daysFromCivil y m 1 + (d - 1) = daysFromCivil y m d).
    { unfold daysFromCivil. lia. }
    rewrite Hlin. lia. }
  assert (Hdiv : localSec t / 86400 = daysFromCivil y m d).
  { rewrite Hloc. rewrite Z.add_comm, Z.div_add by lia.
    rewrite Z.div_small by lia. lia. }
  unfold Year, Month, Day, Hour, Minute, Second, Nanosecond.
  rewrite Hdiv, civil_roundtrip by assumption. cbn [fst snd].
  repeat split.
  - rewrite Hloc, Z.add_comm, Z_mod_plus_full.
    rewrite Z.mod_small by lia.
    replace (h * 3600 + mi * 60 + s) with (mi * 60 + s + h * 3600) by ring.
    rewrite Z.div_add by lia. rewrite Z.div_small by lia. lia.
  - replace (localSec t) with (mi * 60 + s + (daysFromCivil y m d * 24 + h) * 3600)
      by (rewrite Hloc; ring).
    rewrite Z_mod_plus_full. rewrite Z.mod_small by lia.
    rewrite Z.add_comm, Z.div_add by lia. rewrite Z.div_small by lia. lia.
  - replace (localSec t) with (s + (daysFromCivil y m d * 1440 + h * 60 + mi) * 60)
      by (rewrite Hloc; ring).
    rewrite Z_mod_plus_full. apply Z.mod_small. lia.
Qed.

End Calendar.

(** ** Strings *)

Module StringFacts.
Import Strings ProofDefs.

#[local] Arguments String.append : simpl nomatch.

Lemma app_assoc (a b c : string) : (a +:+ b) +:+ c = a +:+ (b +:+ c).
Proof. induction a as [|x a IH]; simpl; [reflexivity | now rewrite IH]. Qed.

Lemma app_empty_r (a : string) : a +:+ "" = a.
Proof. induction a as [|x a IH]; simpl; [reflexivity | now rewrite IH]. Qed.

Lemma length_app (a b : string) :
  String.length (a +:+ b) = (String.length a + String.length b)%nat.
Proof. induction a as [|x a IH]; simpl; [reflexivity | now rewrite IH]. Qed.

Lemma rev_string_app (s acc : string) : rev_string acc s = reverse s +:+ acc.
Proof.
  unfold reverse. revert acc.
  induction s as [|c s IH]; intros acc; simpl; [reflexivity |].
  rewrite (IH (String c acc)), (IH (String c "")), app_assoc. reflexivity.
Qed.

Lemma reverse_cons (c : ascii) (s : string) :
  reverse (String c s) = reverse s +:+ String c "".
Proof. unfold reverse at 1. simpl. apply rev_string_app. Qed.

Lemma reverse_app (a b : string) : reverse (a +:+ b) = reverse b +:+ reverse a.
Proof.
  induction a as [|x a IH]; simpl.
  - now rewrite app_empty_r.
  - now rewrite !reverse_cons, IH, app_assoc.
Qed.

Lemma reverse_involutive (s : string) : reverse (reverse s) = s.
Proof.
  induction s as [|c s IH]; [reflexivity |].
  rewrite reverse_cons, reverse_app, IH. reflexivity.
Qed.

Lemma length_reverse (s : string) : String.length (reverse s) = String.length s.
Proof.
  induction s as [|c s IH]; [reflexivity |].
  rewrite reverse_cons, length_app, IH. simpl. lia.
Qed.

(** *** [Cut] and [SplitN] at the first separator *)

Lemma Cut_first (c : ascii) (a b : string) :
  Contains a (String c "") = false ->
  Cut (a +:+ String c b) (String c "") = Some (a, b).
Proof.
  induction a as [|x a IH]; intros Hc.
  - simpl. rewrite Ascii.eqb_refl. reflexivity.
  - simpl in Hc. apply orb_false_elim in Hc. destruct Hc as [Hx Ha].
    simpl. rewrite andb_true_r in Hx. rewrite Hx. simpl.
    rewrite (IH Ha). reflexivity.
Qed.

Lemma SplitN2_first (c : ascii) (a b : string) :
  Contains a (String c "") = false ->
  SplitN (a +:+ String c b) (String c "") 2 = [a; b].
Proof. intros Hc. simpl. rewrite (Cut_first c a b Hc). reflexivity. Qed.

(** *** [TrimSpace] leaves text that begins and ends with a plain byte *)

Lemma stripSpace_plain (c : ascii) (r : string) :
  plainByte c = true -> stripSpace unicodeSpaces (String c r) = None.
Proof.
  destruct c as [[] [] [] [] [] [] [] []]; intros H; try discriminate H; reflexivity.
Qed.

Lemma stripSpace_plain_rev (c : ascii) (r : string) :
  plainByte c = true -> stripSpace (map reverse unicodeSpaces) (String c r) = None.
Proof.
  destruct c as [[] [] [] [] [] [] [] []]; intros H; try discriminate H; reflexivity.
Qed.

Lemma TrimLeftSpace_plain (s : string) : firstPlain s -> TrimLeftSpace s = s.
Proof.
  destruct s as [|c r]; [intros [] |]. intros H.
  unfold TrimLeftSpace. cbn [String.length trimLoop].
  now rewrite (stripSpace_plain c r H).
Qed.

Lemma TrimRightSpace_plain (s : string) : firstPlain (reverse s) -> TrimRightSpace s = s.
Proof.
  intros H. unfold TrimRightSpace.
  rewrite <- (length_reverse s).
  destruct (reverse s) as [|c r] eqn:E; [destruct H |].
  cbn [String.length trimLoop]. rewrite (stripSpace_plain_rev c r H).
  rewrite <- E. apply reverse_involutive.
Qed.

Lemma TrimLeftSpace_space (s : string) :
  firstPlain s -> TrimLeftSpace (String " " s) = s.
Proof.
  destruct s as [|c r]; [intros [] |]. intros H.
  unfold TrimLeftSpace. cbn [String.length trimLoop].
  change (stripSpace unicodeSpaces (String " " (String c r))) with (Some (String c r)).
  cbn [trimLoop]. now rewrite (stripSpace_plain c r H).
Qed.

Lemma TrimSpace_space_plain (s : string) :
  firstPlain s -> firstPlain (reverse s) -> TrimSpace (String " " s) = s.
Proof.
  intros Hf Hl. unfold TrimSpace.
  rewrite TrimLeftSpace_space by exact Hf. now apply TrimRightSpace_plain.
Qed.

Lemma TrimSpace_plain (s : string) :
  firstPlain s -> firstPlain (reverse s) -> TrimSpace s = s.
Proof.
  intros Hf Hl. unfold TrimSpace.
  rewrite TrimLeftSpace_plain by exact Hf. now apply TrimRightSpace_plain.
Qed.

Lemma firstPlain_app (a b : string) : firstPlain a -> firstPlain (a +:+ b).
Proof. destruct a; simpl; [intros [] | auto]. Qed.

End StringFacts.

(** ** Parsing the date of a header *)

Module ParseFacts.
Import Strings GoTime AppleDate ProofDefs.
Local Open Scope Z_scope.

Lemma parseLoop_S (fuel : nat) (layout value : string) (f : fields) :
  parseLoop (S fuel) layout value f = parseStep (parseLoop fuel) layout value f.
Proof. reflexivity. Qed.

Lemma chunk_long : nextStdChunk "January 2, 2006" = (EmptyString, Some stdLongMonth, " 2, 2006"%string).
Proof. reflexivity. Qed.
Lemma chunk_short : nextStdChunk "Jan 2, 2006" = (EmptyString, Some stdMonth, " 2, 2006"%string).
Proof. reflexivity. Qed.
Lemma chunk_day : nextStdChunk " 2, 2006" = (" "%string, Some stdDay, ", 2006"%string).
Proof. reflexivity. Qed.
Lemma chunk_year : nextStdChunk ", 2006" = (", "%string, Some stdLongYear, EmptyString).
Proof. reflexivity. Qed.
Lemma chunk_end : nextStdChunk "" = (EmptyString, None, EmptyString).
Proof. reflexivity. Qed.

Lemma skip_nil (n : nat) (value : string) : skip (S n) value "" = Ok value.
Proof. reflexivity. Qed.

Lemma parseLoop_tail (n : nat) (tab : list string) (value : string) (m : Z) (v1 : string) :
  match skip 2 v1 " " with
  | Err e => Err e
  | Ok value =>
      match getnum value with
      | Ok (d, value) => parseLoop (S (S n)) ", 2006" value (mkFields 0 (m + 1) d)
      | Err e => Err e
      end
  end =
  match skip 2 v1 " " with
  | Err e => Err e
  | Ok v2 =>
      match getnum v2 with
      | Err e => Err e
      | Ok (d, v3) =>
          match skip 3 v3 ", " with
          | Err e => Err e
          | Ok v4 =>
              match getLongYear v4 with
              | Err e => Err e
              | Ok (y, v5) =>
                  match v5 with
                  | EmptyString => Ok (mkFields y (m + 1) d)
                  | _ => Err errExtraText
                  end
              end
          end
      end
  end.
Proof.
  destruct (skip 2 v1 " ") as [v2|e]; [|reflexivity].
  destruct (getnum v2) as [[d v3]|e]; [|reflexivity].
  rewrite parseLoop_S. unfold parseStep. rewrite chunk_year.
  cbv beta iota zeta. change (S (String.length ", ")) with 3%nat.
  destruct (skip 3 v3 ", ") as [v4|e]; [|reflexivity].
  destruct (getLongYear v4) as [[y v5]|e]; [|reflexivity].
  rewrite parseLoop_S. unfold parseStep. rewrite chunk_end.
  cbv beta iota zeta. rewrite skip_nil. destruct v5; reflexivity.
Qed.

Lemma parseLoop_long (value : string) :
  parseLoop 16 "January 2, 2006" value (mkFields 0 1 1)
  = parseMonthDayYear longMonthNames value.
Proof.
  unfold parseMonthDayYear.
  change 16%nat with (S (S (S (S 12)))).
  rewrite parseLoop_S. unfold parseStep at 1. rewrite chunk_long.
  cbv beta iota zeta. rewrite skip_nil.
  destruct (lookup 0 longMonthNames value) as [[m v1]|e]; [|reflexivity].
  rewrite parseLoop_S. unfold parseStep at 1. rewrite chunk_day.
  cbv beta iota zeta. change (S (String.length " ")) with 2%nat.
  cbn [f_year f_month f_day].
  apply (parseLoop_tail 12 longMonthNames value m v1).
Qed.

Lemma parseLoop_short (value : string) :
  parseLoop 12 "Jan 2, 2006" value (mkFields 0 1 1)
  = parseMonthDayYear shortMonthNames value.
Proof.
  unfold parseMonthDayYear.
  change 12%nat with (S (S (S (S 8)))).
  rewrite parseLoop_S. unfold parseStep at 1. rewrite chunk_short.
  cbv beta iota zeta. rewrite skip_nil.
  destruct (lookup 0 shortMonthNames value) as [[m v1]|e]; [|reflexivity].
  rewrite parseLoop_S. unfold parseStep at 1. rewrite chunk_day.
  cbv beta iota zeta. change (S (String.length " ")) with 2%nat.
  cbn [f_year f_month f_day].
  apply (parseLoop_tail 8 shortMonthNames value m v1).
Qed.

End ParseFacts.

(** ** The date of a header, from its text *)

Module DateFacts.
Import Strings GoTime AppleDate ProofDefs StringFacts ParseFacts Calendar.
Local Open Scope Z_scope.

Lemma digitChar_mod (n : Z) : digitChar n = digitChar (n mod 10).
Proof. unfold digitChar. now rewrite Z.mod_mod by lia. Qed.

Lemma digit_cases (n : Z) :
  n mod 10 = 0 \/ n mod 10 = 1 \/ n mod 10 = 2 \/ n mod 10 = 3 \/ n mod 10 = 4 \/
  n mod 10 = 5 \/ n mod 10 = 6 \/ n mod 10 = 7 \/ n mod 10 = 8 \/ n mod 10 = 9.
Proof. pose proof (Z.mod_pos_bound n 10 ltac:(lia)). lia. Qed.

Ltac by_digit n :=
  rewrite (digitChar_mod n);
  destruct (digit_cases n) as [E|[E|[E|[E|[E|[E|[E|[E|[E|E]]]]]]]]];
  rewrite E; reflexivity.

Lemma isDigit_digitChar (n : Z) : isDigit (digitChar n) = true.
Proof. by_digit n. Qed.

Lemma digitVal_digitChar (n : Z) : digitVal (digitChar n) = n mod 10.
Proof. by_digit n. Qed.

Lemma plainByte_digitChar (n : Z) : plainByte (digitChar n) = true.
Proof. by_digit n. Qed.

Lemma cutspace_digitChar (n : Z) (s : string) :
  cutspace (String (digitChar n) s) = String (digitChar n) s.
Proof. by_digit n. Qed.

Lemma month_cases (m : Z) :
  1 <= m <= 12 ->
  m = 1 \/ m = 2 \/ m = 3 \/ m = 4 \/ m = 5 \/ m = 6 \/ m = 7 \/ m = 8 \/ m = 9 \/
  m = 10 \/ m = 11 \/ m = 12.
Proof. lia. Qed.

Ltac by_month Hm :=
  destruct (month_cases _ Hm) as [E|[E|[E|[E|[E|[E|[E|[E|[E|[E|[E|E]]]]]]]]]]];
  subst; vm_compute; reflexivity.

Lemma lookup_long (m : Z) (rest : string) :
  1 <= m <= 12 ->
  lookup 0 longMonthNames (monthText false m +:+ String " " rest)
  = Ok (m - 1, String " " rest).
Proof. intros Hm. by_month Hm. Qed.

Lemma lookup_short (m : Z) (rest : string) :
  1 <= m <= 12 ->
  lookup 0 shortMonthNames (monthText true m +:+ String " " rest)
  = Ok (m - 1, String " " rest).
Proof. intros Hm. by_month Hm. Qed.

(** An abbreviated name is not a full name, May apart. *)
Lemma lookup_long_short (m : Z) (rest : string) :
  1 <= m <= 12 -> m <> 5 ->
  lookup 0 longMonthNames (monthText true m +:+ String " " rest) = Err errBad.
Proof.
  intros Hm H5.
  destruct (month_cases _ Hm) as [E|[E|[E|[E|[E|[E|[E|[E|[E|[E|[E|E]]]]]]]]]]];
    subst; try (vm_compute; reflexivity). now destruct H5.
Qed.

Lemma monthText_May : monthText true 5 = monthText false 5.
Proof. reflexivity. Qed.

Lemma firstPlain_monthText (short : bool) (m : Z) (rest : string) :
  1 <= m <= 12 -> firstPlain (monthText short m +:+ rest).
Proof.
  intros Hm.
  destruct short;
    destruct (month_cases _ Hm) as [E|[E|[E|[E|[E|[E|[E|[E|[E|[E|[E|E]]]]]]]]]]];
    subst; vm_compute; reflexivity.
Qed.

Lemma getnum_dayText (d : Z) (rest : string) :
  1 <= d <= 31 ->
  skip 2 (String " " (dayText d +:+ String "," rest)) " "
  = Ok (dayText d +:+ String "," rest)
  /\ getnum (dayText d +:+ String "," rest) = Ok (d, String "," rest).
Proof.
  intros Hd.
  assert (Hn : exists n : nat, d = Z.of_nat n /\ (n < 32)%nat)
    by (exists (Z.to_nat d); lia).
  destruct Hn as [n [-> Hn]].
  do 32 (destruct n as [|n]; [try lia; split; vm_compute; reflexivity |]). lia.
Qed.

Lemma yearText_digits (y : Z) :
  yearText y =
  String (digitChar (y / 10 / 10 / 10))
    (String (digitChar (y / 10 / 10)) (String (digitChar (y / 10)) (String (digitChar y) ""))).
Proof. reflexivity. Qed.

Lemma getLongYear_yearText (y : Z) :
  0 <= y <= 9999 ->
  skip 3 (String "," (String " " (yearText y))) ", " = Ok (yearText y)
  /\ getLongYear (yearText y) = Ok (y, EmptyString).
Proof.
  intros Hy. rewrite yearText_digits. split.
  - change (skip 3 (String "," (String " " ?s)) ", ") with (Ok (A := string) (E := ParseError) (cutspace s)).
    now rewrite cutspace_digitChar.
  - unfold getLongYear, atoiDigits.
    rewrite !isDigit_digitChar, !digitVal_digitChar.
    f_equal. f_equal.
    pose proof (Z.div_mod y 10 ltac:(lia)).
    pose proof (Z.div_mod (y / 10) 10 ltac:(lia)).
    pose proof (Z.div_mod (y / 10 / 10) 10 ltac:(lia)).
    pose proof (Z.div_mod (y / 10 / 10 / 10) 10 ltac:(lia)).
    pose proof (Z.mod_pos_bound y 10 ltac:(lia)).
    pose proof (Z.mod_pos_bound (y / 10) 10 ltac:(lia)).
    pose proof (Z.mod_pos_bound (y / 10 / 10) 10 ltac:(lia)).
    pose proof (Z.mod_pos_bound (y / 10 / 10 / 10) 10 ltac:(lia)).
    lia.
Qed.

Lemma daysIn_le_31 (m y : Z) : daysIn m y <= 31.
Proof.
  unfold daysIn.
  repeat match goal with |- context [if ?b then _ else _] => destruct b end; lia.
Qed.

(** The fields read by either layout in the text of a date. *)
Lemma parseMonthDayYear_dateText (short : bool) (m d y : Z) :
  1 <= m <= 12 -> 1 <= d <= 31 -> 0 <= y <= 9999 ->
  parseMonthDayYear (if short then shortMonthNames else longMonthNames)
    (dateText short m d y)
  = Ok (mkFields y m d).
Proof.
  intros Hm Hd Hy. unfold parseMonthDayYear, dateText.
  change (monthText short m +:+ " " +:+ dayText d +:+ ", " +:+ yearText y)
    with (monthText short m +:+ String " " (dayText d +:+ String "," (String " " (yearText y)))).
  assert (Hl : lookup 0 (if short then shortMonthNames else longMonthNames)
                 (monthText short m +:+
                  String " " (dayText d +:+ String "," (String " " (yearText y))))
               = Ok (m - 1, String " " (dayText d +:+ String "," (String " " (yearText y))))).
  { destruct short; [apply lookup_short | apply lookup_long]; exact Hm. }
  rewrite Hl.
  destruct (getnum_dayText d (String " " (yearText y)) Hd) as [Hs Hg].
  rewrite Hs, Hg.
  destruct (getLongYear_yearText y Hy) as [Hs' Hg'].
  rewrite Hs', Hg'. replace (m - 1 + 1) with m by lia. reflexivity.
Qed.

Lemma Parse_long (value : string) :
  Parse "January 2, 2006" value =
  match parseMonthDayYear longMonthNames value with
  | Err e => Err e
  | Ok f =>
      if (f_day f <? 1) || (daysIn (f_month f) (f_year f) <? f_day f)
      then Err errDayOutOfRange
      else Ok (Date (f_year f) (f_month f) (f_day f) 0 0 0 0 UTC)
  end.
Proof.
  unfold Parse. change (S (String.length "January 2, 2006")) with 16%nat.
  now rewrite parseLoop_long.
Qed.

Lemma Parse_short (value : string) :
  Parse "Jan 2, 2006" value =
  match parseMonthDayYear shortMonthNames value with
  | Err e => Err e
  | Ok f =>
      if (f_day f <? 1) || (daysIn (f_month f) (f_year f) <? f_day f)
      then Err errDayOutOfRange
      else Ok (Date (f_year f) (f_month f) (f_day f) 0 0 0 0 UTC)
  end.
Proof.
  unfold Parse. change (S (String.length "Jan 2, 2006")) with 12%nat.
  now rewrite parseLoop_short.
Qed.

Lemma parseLayouts_dateText (short : bool) (m d y : Z) :
  1 <= m <= 12 -> 1 <= d <= daysIn m y -> 0 <= y <= 9999 ->
  parseLayouts layouts (dateText short m d y) None
  = Ok (Date y m d 12 0 0 0 UTC).
Proof.
  intros Hm Hd Hy.
  pose proof (daysIn_le_31 m y) as H31.
  assert (Hrange : (d <? 1) || (daysIn m y <? d) = false).
  { apply orb_false_intro; apply Z.ltb_ge; lia. }
  assert (Hfields :
    Date (Year (Date y m d 0 0 0 0 UTC)) (Month (Date y m d 0 0 0 0 UTC))
      (Day (Date y m d 0 0 0 0 UTC)) 12 0 0 0 UTC = Date y m d 12 0 0 0 UTC).
  { destruct (Date_fields y m d 0 0 0 UTC Hm Hd ltac:(lia) ltac:(lia) ltac:(lia))
      as (-> & -> & -> & _). reflexivity. }
  assert (Hlong : forall s, s = false \/ m = 5 ->
    parseLayouts layouts (dateText s m d y) None = Ok (Date y m d 12 0 0 0 UTC)).
  { intros s Hs. unfold layouts. cbn [parseLayouts]. rewrite Parse_long.
    assert (Hd' : dateText s m d y = dateText false m d y).
    { destruct Hs as [-> | ->]; [reflexivity |]. destruct s; reflexivity. }
    rewrite Hd'.
    rewrite (parseMonthDayYear_dateText false m d y Hm ltac:(lia) Hy).
    cbn [f_day f_month f_year]. rewrite Hrange. now rewrite Hfields. }
  destruct short; [| apply Hlong; now left].
  destruct (Z.eq_dec m 5) as [E5 | N5]; [apply Hlong; now right |].
  unfold layouts. cbn [parseLayouts]. rewrite Parse_long.
  assert (Hfail : parseMonthDayYear longMonthNames (dateText true m d y) = Err errBad).
  { unfold parseMonthDayYear, dateText.
    change (monthText true m +:+ " " +:+ dayText d +:+ ", " +:+ yearText y)
      with (monthText true m +:+ String " " (dayText d +:+ ", " +:+ yearText y)).
    now rewrite lookup_long_short. }
  rewrite Hfail. rewrite Parse_short.
  rewrite (parseMonthDayYear_dateText true m d y Hm ltac:(lia) Hy).
  cbn [f_day f_month f_year]. rewrite Hrange. now rewrite Hfields.
Qed.

Lemma firstPlain_reverse_dateText (short : bool) (m d y : Z) :
  firstPlain (reverse (dateText short m d y)).
Proof.
  unfold dateText. rewrite !reverse_app, yearText_digits.
  rewrite !reverse_cons. cbn. apply plainByte_digitChar.
Qed.

(** The header is cut at its first comma and the date is read from what
    follows. *)
Lemma parseAppleDate_header (weekday : string) (short : bool) (m d y : Z) :
  Contains weekday "," = false ->
  1 <= m <= 12 -> 1 <= d <= daysIn m y -> 0 <= y <= 9999 ->
  parseAppleDate (header weekday short m d y) = Ok (Date y m d 12 0 0 0 UTC).
Proof.
  intros Hw Hm Hd Hy. unfold parseAppleDate, header.
  change (weekday +:+ ", " +:+ dateText short m d y)
    with (weekday +:+ String "," (String " " (dateText short m d y))).
  rewrite (SplitN2_first "," weekday _ Hw).
  rewrite TrimSpace_space_plain.
  - now apply parseLayouts_dateText.
  - unfold dateText. now apply firstPlain_monthText.
  - apply firstPlain_reverse_dateText.
Qed.

End DateFacts.

(** ** Every date that is read is a date of the calendar, at noon *)

Module NoonFacts.
Import Strings GoTime AppleDate ProofDefs StringFacts ParseFacts Calendar DateFacts.
Local Open Scope Z_scope.

Lemma lookup_range (tab : list string) :
  forall (i : Z) (val : string) (k : Z) (rest : string),
    lookup i tab val = Ok (k, rest) -> i <= k < i + Z.of_nat (length tab).
Proof.
  induction tab as [|v tab IH]; intros i val k rest H; [discriminate H |].
  cbn [lookup] in H. destruct (matchPrefix val v) as [r|].
  - injection H as <- <-. cbn [length]. lia.
  - apply IH in H. cbn [length]. lia.
Qed.

Lemma parseMonthDayYear_month (tab : list string) (value : string) (f : fields) :
  parseMonthDayYear tab value = Ok f -> 1 <= f_month f <= Z.of_nat (length tab).
Proof.
  unfold parseMonthDayYear.
  destruct (lookup 0 tab value) as [[m v1]|e] eqn:Hl; [| discriminate].
  destruct (skip 2 v1 " ") as [v2|e]; [| discriminate].
  destruct (getnum v2) as [[d v3]|e]; [| discriminate].
  destruct (skip 3 v3 ", ") as [v4|e]; [| discriminate].
  destruct (getLongYear v4) as [[y v5]|e]; [| discriminate].
  destruct v5; [| discriminate]. intros H. injection H as <-.
  apply lookup_range in Hl. cbn [f_month]. lia.
Qed.

Lemma fields_valid (tab : list string) (value : string) (t : Time) :
  length tab = 12%nat ->
  match parseMonthDayYear tab value with
  | Err e => Err e
  | Ok f =>
      if (f_day f <? 1) || (daysIn (f_month f) (f_year f) <? f_day f)
      then Err errDayOutOfRange
      else Ok (Date (f_year f) (f_month f) (f_day f) 0 0 0 0 UTC)
  end = Ok t ->
  validNoon t 0.
Proof.
  intros Hlen.
  destruct (parseMonthDayYear tab value) as [f|e] eqn:Hf; [| discriminate].
  apply parseMonthDayYear_month in Hf. rewrite Hlen in Hf.
  destruct ((f_day f <? 1) || (daysIn (f_month f) (f_year f) <? f_day f)) eqn:Hr;
    [discriminate |].
  apply orb_false_elim in Hr. destruct Hr as [H1 H2].
  apply Z.ltb_ge in H1, H2. intros H. injection H as <-.
  exists (f_year f), (f_month f), (f_day f). repeat split; lia.
Qed.

Lemma Parse_valid (layout value : string) (t : Time) :
  In layout layouts -> Parse layout value = Ok t -> validNoon t 0.
Proof.
  intros [<- | [<- | []]].
  - rewrite Parse_long. now apply fields_valid.
  - rewrite Parse_short. now apply fields_valid.
Qed.

Lemma parseLayouts_valid (ls : list string) (s : string) (err : option ParseError)
    (t : Time) :
  (forall l, In l ls -> In l layouts) ->
  parseLayouts ls s err = Ok t -> validNoon t 12.
Proof.
  revert err. induction ls as [|l ls IH]; intros err Hin H; [discriminate H |].
  cbn [parseLayouts] in H.
  destruct (Parse l s) as [t0|e] eqn:Hp.
  - apply Parse_valid in Hp; [| apply Hin; now left].
    destruct Hp as (y & m & d & Hm & Hd & ->). injection H as <-.
    destruct (Date_fields y m d 0 0 0 UTC Hm Hd ltac:(lia) ltac:(lia) ltac:(lia))
      as (-> & -> & -> & _).
    now exists y, m, d.
  - apply (IH (Some e)); [| exact H]. intros l' Hl'. apply Hin. now right.
Qed.

(** Whatever the header, a date that is read is a date of the calendar
    at 12:00:00 UTC. *)
Lemma parseAppleDate_valid (dateStr : string) (t : Time) :
  parseAppleDate dateStr = Ok t -> validNoon t 12.
Proof.
  unfold parseAppleDate. intros H.
  apply parseLayouts_valid in H; [exact H | auto].
Qed.

Lemma validNoon_time (t : Time) :
  validNoon t 12 ->
  Hour t = 12 /\ Minute t = 0 /\ Second t = 0 /\ Nanosecond t = 0 /\ location t = UTC.
Proof.
  intros (y & m & d & Hm & Hd & ->).
  destruct (Date_fields y m d 12 0 0 UTC Hm Hd ltac:(lia) ltac:(lia) ltac:(lia))
    as (_ & _ & _ & H).
  exact H.
Qed.

End NoonFacts.

(** ** Identifiers and the paths of the photos *)

Module IdentFacts.
Import Strings Filepath ProofDefs StringFacts.

#[local] Arguments String.append : simpl nomatch.

Ltac by_byte b := destruct b as [[] [] [] [] [] [] [] []]; reflexivity.

Lemma isASCII_hexByte (b : ascii) (s : string) :
  isASCII (Uuid.hexByte b +:+ s) = isASCII s.
Proof. by_byte b. Qed.

Lemma upper_hexByte (b : ascii) (s : string) :
  mapBytes upperByte (Uuid.hexByte b +:+ s) = HexByte b +:+ mapBytes upperByte s.
Proof. by_byte b. Qed.

Lemma replace_HexByte (b : ascii) (s : string) :
  replaceFrom 0 (HexByte b +:+ s) "-" "" = HexByte b +:+ replaceFrom 0 s "-" "".
Proof. by_byte b. Qed.

Lemma allBytes_HexByte (b : ascii) (s : string) :
  allBytes isUpperHexByte (HexByte b +:+ s) = allBytes isUpperHexByte s.
Proof. by_byte b. Qed.

Lemma length_HexByte (b : ascii) (s : string) :
  String.length (HexByte b +:+ s) = S (S (String.length s)).
Proof. by_byte b. Qed.

Lemma String_dashes (u : Uuid.UUID) :
  Uuid.String_ u =
  Uuid.hexByte (Uuid.u0 u) +:+ Uuid.hexByte (Uuid.u1 u) +:+ Uuid.hexByte (Uuid.u2 u) +:+
  Uuid.hexByte (Uuid.u3 u) +:+ String "-" (
  Uuid.hexByte (Uuid.u4 u) +:+ Uuid.hexByte (Uuid.u5 u) +:+ String "-" (
  Uuid.hexByte (Uuid.u6 u) +:+ Uuid.hexByte (Uuid.u7 u) +:+ String "-" (
  Uuid.hexByte (Uuid.u8 u) +:+ Uuid.hexByte (Uuid.u9 u) +:+ String "-" (
  Uuid.hexByte (Uuid.u10 u) +:+ Uuid.hexByte (Uuid.u11 u) +:+ Uuid.hexByte (Uuid.u12 u) +:+
  Uuid.hexByte (Uuid.u13 u) +:+ Uuid.hexByte (Uuid.u14 u) +:+ Uuid.hexByte (Uuid.u15 u) +:+ "")))).
Proof. unfold Uuid.String_. now rewrite (app_empty_r (Uuid.hexByte (Uuid.u15 u))). Qed.

Lemma tokenOf_nil (u : Uuid.UUID) :
  tokenOf u =
  HexByte (Uuid.u0 u) +:+ HexByte (Uuid.u1 u) +:+ HexByte (Uuid.u2 u) +:+
  HexByte (Uuid.u3 u) +:+ HexByte (Uuid.u4 u) +:+ HexByte (Uuid.u5 u) +:+
  HexByte (Uuid.u6 u) +:+ HexByte (Uuid.u7 u) +:+ HexByte (Uuid.u8 u) +:+
  HexByte (Uuid.u9 u) +:+ HexByte (Uuid.u10 u) +:+ HexByte (Uuid.u11 u) +:+
  HexByte (Uuid.u12 u) +:+ HexByte (Uuid.u13 u) +:+ HexByte (Uuid.u14 u) +:+
  HexByte (Uuid.u15 u) +:+ "".
Proof. unfold tokenOf. now rewrite (app_empty_r (HexByte (Uuid.u15 u))). Qed.

(** [newDayOneUUID] returns the 32 upper-case digits of the UUID. *)
Lemma ReplaceAll_ToUpper_String (f : string -> string) (u : Uuid.UUID) :
  ReplaceAll (ToUpper f (Uuid.String_ u)) "-" "" = tokenOf u.
Proof.
  unfold ReplaceAll, ToUpper. rewrite String_dashes, tokenOf_nil.
  assert (HA : forall s, isASCII (String "-" s) = isASCII s) by reflexivity.
  repeat first [rewrite isASCII_hexByte | rewrite HA]. cbn [isASCII].
  assert (HU : forall s, mapBytes upperByte (String "-" s) = String "-" (mapBytes upperByte s))
    by reflexivity.
  repeat first [rewrite upper_hexByte | rewrite HU]. cbn [mapBytes].
  assert (HR : forall s, replaceFrom 0 (String "-" s) "-" "" = replaceFrom 0 s "-" "")
    by reflexivity.
  repeat first [rewrite replace_HexByte | rewrite HR]. reflexivity.
Qed.

Lemma newDayOneUUID_eq (W : World) (st : RunState) :
  newDayOneUUID W st = (token W (minted st), mkRunState (S (minted st)) (logged st)).
Proof. reflexivity. Qed.

Lemma token_eq (W : World) (i : nat) : token W i = tokenOf (uuidNew W i).
Proof. unfold token, newDayOneUUID. cbn [fst minted]. apply ReplaceAll_ToUpper_String. Qed.

Lemma tokenOf_hex (u : Uuid.UUID) : allBytes isUpperHexByte (tokenOf u) = true.
Proof. rewrite tokenOf_nil, !allBytes_HexByte. reflexivity. Qed.

Lemma tokenOf_length (u : Uuid.UUID) : String.length (tokenOf u) = 32%nat.
Proof. rewrite tokenOf_nil, !length_HexByte. reflexivity. Qed.

(** *** Paths *)

Lemma allBytes_app (p : ascii -> bool) (a b : string) :
  allBytes p (a +:+ b) = allBytes p a && allBytes p b.
Proof. induction a as [|c a IH]; simpl; [reflexivity |]. now rewrite IH, andb_assoc. Qed.

Lemma allBytes_impl (p q : ascii -> bool) (s : string) :
  (forall c, p c = true -> q c = true) -> allBytes p s = true -> allBytes q s = true.
Proof.
  intros Hpq. induction s as [|c s IH]; simpl; [reflexivity |].
  intros H. apply andb_prop in H. destruct H as [Hc Hs].
  now rewrite (Hpq c Hc), (IH Hs).
Qed.

Lemma upperHex_notSep (c : ascii) : isUpperHexByte c = true -> notSep c = true.
Proof. destruct c as [[] [] [] [] [] [] [] []]; intros H; try discriminate H; reflexivity. Qed.

Lemma upperHex_notDot (c : ascii) : isUpperHexByte c = true -> Ascii.eqb c "." = false.
Proof. destruct c as [[] [] [] [] [] [] [] []]; intros H; try discriminate H; reflexivity. Qed.

Lemma isImageExt_cases (ext : string) :
  isImageExt ext = true -> ext = ".png" \/ ext = ".jpg" \/ ext = ".jpeg" \/ ext = ".gif".
Proof.
  unfold isImageExt. intros H.
  repeat (apply orb_prop in H; destruct H as [H | H]);
    apply String.eqb_eq in H; auto.
Qed.

Lemma isImageExt_notSep (ext : string) :
  isImageExt ext = true -> allBytes notSep ext = true.
Proof. intros H. destruct (isImageExt_cases ext H) as [->|[->|[->| ->]]]; reflexivity. Qed.

Lemma splitElem_notSep (s : string) : allBytes notSep s = true -> splitElem s = (s, "").
Proof.
  induction s as [|c s IH]; [reflexivity |]. simpl. intros H.
  apply andb_prop in H. destruct H as [Hc Hs]. unfold notSep in Hc.
  apply negb_true_iff in Hc. rewrite Hc, (IH Hs). reflexivity.
Qed.

Lemma cleanLoop_S (fuel : nat) (rooted : bool) (c : ascii) (rest out : string) (dotdot : nat) :
  isSep c = false -> Ascii.eqb c "." = false ->
  cleanLoop (S fuel) rooted (String c rest) out dotdot =
  cleanLoop fuel rooted (snd (splitElem (String c rest)))
    (rev_string
       (if (rooted && negb (String.length out =? 1)%nat)
           || (negb rooted && negb (String.length out =? 0)%nat)
        then String "/" out else out)
       (fst (splitElem (String c rest)))) dotdot.
Proof.
  intros Hs Hd. cbn [cleanLoop]. rewrite Hs, Hd. cbn [andb].
  destruct (splitElem (String c rest)) as [e r]. reflexivity.
Qed.

Lemma cleanLoop_sep (fuel : nat) (rooted : bool) (rest out : string) (dotdot : nat) :
  cleanLoop (S fuel) rooted (String "/" rest) out dotdot
  = cleanLoop fuel rooted rest out dotdot.
Proof. reflexivity. Qed.

Lemma cleanLoop_nil (fuel : nat) (rooted : bool) (out : string) (dotdot : nat) :
  cleanLoop fuel rooted "" out dotdot = out.
Proof. destruct fuel; reflexivity. Qed.

(** A name without separator that begins with a digit is joined to
    [photos] as it is. *)
Lemma Join_photos (name : string) :
  (exists c r, name = String c r /\ isUpperHexByte c = true) ->
  allBytes notSep name = true ->
  Join ["photos"; name] = "photos/" +:+ name.
Proof.
  intros (c & r & -> & Hc) Hn.
  pose proof (upperHex_notSep c Hc) as Hsep. unfold notSep in Hsep.
  apply negb_true_iff in Hsep.
  pose proof (upperHex_notDot c Hc) as Hdot.
  cbn [Join joinWith].
  change ("photos" +:+ "/" +:+ String c r)
    with (String "p" (String "h" (String "o" (String "t" (String "o" (String "s"
            (String "/" (String c r)))))))).
  unfold Clean. cbn [String.length].
  change (isSep "p") with false. cbv iota.
  rewrite cleanLoop_S by reflexivity.
  change (splitElem (String "p" (String "h" (String "o" (String "t" (String "o" (String "s"
            (String "/" (String c r)))))))))
    with ("photos", String "/" (String c r)).
  cbn [fst snd String.length Nat.eqb andb orb negb rev_string].
  rewrite cleanLoop_sep.
  rewrite cleanLoop_S by assumption.
  rewrite (splitElem_notSep _ Hn). cbn [fst snd String.length Nat.eqb andb orb negb].
  rewrite cleanLoop_nil, rev_string_app.
  assert (Hout : forall out : string,
            (0 < String.length out)%nat ->
            match out with "" => "." | String _ _ => reverse out end = reverse out).
  { intros [|x xs] Hl; [simpl in Hl; lia | reflexivity]. }
  rewrite Hout.
  - rewrite reverse_app, reverse_involutive. reflexivity.
  - rewrite length_app. simpl. lia.
Qed.

Lemma token_first (W : World) (i : nat) :
  exists c r, token W i = String c r /\ isUpperHexByte c = true.
Proof.
  rewrite token_eq. pose proof (tokenOf_hex (uuidNew W i)) as H.
  pose proof (tokenOf_length (uuidNew W i)) as L.
  destruct (tokenOf (uuidNew W i)) as [|c r]; [discriminate L |].
  simpl in H. apply andb_prop in H. exists c, r. tauto.
Qed.

Lemma destPath_token (W : World) (i : nat) (ext : string) :
  isImageExt ext = true ->
  destPath (token W i) ext = "photos/" +:+ token W i +:+ ext.
Proof.
  intros He. unfold destPath. apply Join_photos.
  - destruct (token_first W i) as (c & r & E & Hc). rewrite E.
    exists c, (r +:+ ext). split; [reflexivity | exact Hc].
  - rewrite allBytes_app, (isImageExt_notSep ext He), andb_true_r.
    rewrite token_eq. apply (allBytes_impl isUpperHexByte); [apply upperHex_notSep |].
    apply tokenOf_hex.
Qed.

Lemma app_inj_length (a b c d : string) :
  String.length a = String.length b -> a +:+ c = b +:+ d -> a = b /\ c = d.
Proof.
  revert b. induction a as [|x a IH]; intros [|y b] L H; try discriminate L.
  - now split.
  - simpl in H. injection H as -> H. injection L as L.
    destruct (IH b L H) as [-> ->]. now split.
Qed.

(** Two destination paths are equal only for the same identifier. *)
Lemma destPath_inj (W : World) (i j : nat) (e1 e2 : string) :
  isImageExt e1 = true -> isImageExt e2 = true ->
  destPath (token W i) e1 = destPath (token W j) e2 ->
  token W i = token W j /\ e1 = e2.
Proof.
  intros H1 H2 E. rewrite !destPath_token in E by assumption.
  apply (app_inj_length "photos/" "photos/") in E; [| reflexivity].
  destruct E as [_ E]. apply app_inj_length in E; [exact E |].
  now rewrite !token_eq, !tokenOf_length.
Qed.

End IdentFacts.

(** ** The steps of [processEntryHTML] *)

Module EntryFacts.
Import Strings Filepath ProofDefs StringFacts IdentFacts.

Section WithWorld.
Context (W : World).

(** *** One image *)

Lemma processImage_eq (htmlFilePath date : string) (imgSel : Html.Located)
    (es : EntryState) (st : RunState) :
  processImage W htmlFilePath date imgSel es st =
  match Html.Attr imgSel "src" with
  | None => (es, st)
  | Some "" => (es, st)
  | Some imgSrc =>
      let absImgSrc := resolveImage htmlFilePath imgSrc in
      let fileExt := imageExt W htmlFilePath imgSrc in
      if negb (isImageExt fileExt)
      then (es, withLog st LogNonImage [fileExt; htmlFilePath])
      else
        match stat W absImgSrc with
        | StatNotExist => (es, withLog st LogImageNotFound [absImgSrc; htmlFilePath])
        | _ =>
            match calculateMD5 W absImgSrc with
            | Err _ =>
                (es, withLog (mkRunState (S (minted st)) (logged st)) LogMD5Failed [absImgSrc])
            | Ok md5Hash =>
                (withPhoto es
                   (DayOnePhoto.mk md5Hash (TrimPrefix fileExt ".")
                      (token W (minted st)) date)
                   absImgSrc (destPath (token W (minted st)) fileExt),
                 mkRunState (S (minted st)) (logged st))
            end
        end
  end.
Proof.
  unfold processImage.
  destruct (Html.Attr imgSel "src") as [[|c src]|]; try reflexivity.
  cbv zeta. fold (resolveImage htmlFilePath (String c src)).
  fold (imageExt W htmlFilePath (String c src)).
  destruct (negb (isImageExt (imageExt W htmlFilePath (String c src)))); [reflexivity |].
  unfold withPhoto, destPath, withLog. cbn [DayOnePhoto.Identifier].
  destruct (stat W (resolveImage htmlFilePath (String c src)));
    [ | reflexivity | ];
    unfold bind; rewrite newDayOneUUID_eq;
    destruct (calculateMD5 W (resolveImage htmlFilePath (String c src))); reflexivity.
Qed.

(** [processImage] either leaves the entry as it is, or records one
    photo under a new identifier. *)
Lemma processImage_cases (htmlFilePath date : string) (imgSel : Html.Located)
    (es : EntryState) (st : RunState) :
  let r := processImage W htmlFilePath date imgSel es st in
  (fst r = es /\ (minted st <= minted (snd r) <= S (minted st))%nat)
  \/ (exists imgSrc md5Hash,
        Html.Attr imgSel "src" = Some imgSrc /\
        isImageExt (imageExt W htmlFilePath imgSrc) = true /\
        fst r = withPhoto es
                  (DayOnePhoto.mk md5Hash (TrimPrefix (imageExt W htmlFilePath imgSrc) ".")
                     (token W (minted st)) date)
                  (resolveImage htmlFilePath imgSrc)
                  (destPath (token W (minted st)) (imageExt W htmlFilePath imgSrc)) /\
        minted (snd r) = S (minted st)).
Proof.
  cbv zeta. rewrite processImage_eq.
  destruct (Html.Attr imgSel "src") as [[|c src]|];
    try (left; cbn; split; [reflexivity | lia]).
  cbv zeta.
  destruct (isImageExt (imageExt W htmlFilePath (String c src))) eqn:Hext;
    cbn [negb]; [| left; cbn; split; [reflexivity | lia]].
  destruct (stat W (resolveImage htmlFilePath (String c src)));
    try (left; cbn; split; [reflexivity | lia]);
    (destruct (calculateMD5 W (resolveImage htmlFilePath (String c src))) as [h|e];
     [ right; exists (String c src), h; cbn; rewrite Hext; auto
     | left; cbn; split; [reflexivity | lia] ]).
Qed.

Lemma photoRefs_app (a b : Builder) :
  photoRefs (a ++ b)%list = (photoRefs a ++ photoRefs b)%list.
Proof. unfold photoRefs. apply flat_map_app. Qed.

Lemma mintInjectiveUpTo_mono (n n' : nat) :
  (n <= n')%nat -> mintInjectiveUpTo W n' -> mintInjectiveUpTo W n.
Proof. intros Hle H i j Hi Hj. apply H; lia. Qed.

Lemma EntryInv_mono (lo hi hi' : nat) (es : EntryState) :
  (hi <= hi')%nat -> EntryInv W lo hi es -> EntryInv W lo hi' es.
Proof.
  intros Hle [Hr Hrefs Hp Hm Hd]. split.
  - lia.
  - exact Hrefs.
  - intros p Hin. destruct (Hp p Hin) as (i & Hi & E). exists i. split; [lia | exact E].
  - intros k v Hk. destruct (Hm k v Hk) as (i & ext & Hi & He & Hv & Hph).
    exists i, ext. repeat split; try assumption; lia.
  - intros Hinj. apply Hd. now apply (mintInjectiveUpTo_mono hi hi').
Qed.

Lemma EntryInv_withPhoto (lo hi : nat) (es : EntryState) (md5Hash ext date src : string) :
  isImageExt ext = true ->
  EntryInv W lo hi es ->
  EntryInv W lo (S hi)
    (withPhoto es (DayOnePhoto.mk md5Hash (TrimPrefix ext ".") (token W hi) date)
       src (destPath (token W hi) ext)).
Proof.
  intros Hext [Hr Hrefs Hp Hm Hd]. split; cbn [withPhoto es_Photos es_mediaToCopy
    es_bodyMarkdownBuilder DayOnePhoto.Identifier].
  - lia.
  - unfold WriteString. rewrite photoRefs_app, map_app, Hrefs. reflexivity.
  - intros p Hin. apply in_app_or in Hin. destruct Hin as [Hin | [<- | []]].
    + destruct (Hp p Hin) as (i & Hi & E). exists i. split; [lia | exact E].
    + exists hi. split; [lia | reflexivity].
  - intros k v Hk. destruct (decide (src = k)) as [-> | Hne].
    + rewrite lookup_insert_eq in Hk. injection Hk as <-.
      exists hi, ext. repeat split; try assumption; try lia.
      eexists. split; [apply in_or_app; right; left; reflexivity |].
      split; reflexivity.
    + rewrite lookup_insert_ne in Hk by exact Hne.
      destruct (Hm k v Hk) as (i & e & Hi & He & Hv & p & Hin & Hid & Hty).
      exists i, e. repeat split; try assumption; try lia.
      exists p. split; [apply in_or_app; now left | now split].
  - intros Hinj k1 k2 v H1 H2.
    assert (Hold : forall k, k <> src ->
              es_mediaToCopy es !! k = Some v ->
              v <> destPath (token W hi) ext).
    { intros k Hne Hk Hv. destruct (Hm k v Hk) as (i & e & Hi & He & Hv' & _).
      rewrite Hv in Hv'. apply destPath_inj in Hv'; try assumption.
      destruct Hv' as [Ht _]. apply Hinj in Ht; lia. }
    destruct (decide (src = k1)) as [<- | N1]; destruct (decide (src = k2)) as [<- | N2];
      try reflexivity.
    + rewrite lookup_insert_eq in H1. rewrite lookup_insert_ne in H2 by exact N2.
      injection H1 as <-. exfalso. now apply (Hold k2 (not_eq_sym N2) H2).
    + rewrite lookup_insert_eq in H2. rewrite lookup_insert_ne in H1 by exact N1.
      injection H2 as <-. exfalso. now apply (Hold k1 (not_eq_sym N1) H1).
    + rewrite lookup_insert_ne in H1 by exact N1.
      rewrite lookup_insert_ne in H2 by exact N2.
      apply (Hd (mintInjectiveUpTo_mono hi (S hi) ltac:(lia) Hinj) k1 k2 v H1 H2).
Qed.

Lemma processImage_inv (htmlFilePath date : string) (imgSel : Html.Located) (lo : nat)
    (es : EntryState) (st : RunState) :
  EntryInv W lo (minted st) es ->
  EntryInv W lo (minted (snd (processImage W htmlFilePath date imgSel es st)))
    (fst (processImage W htmlFilePath date imgSel es st)).
Proof.
  intros Hinv.
  destruct (processImage_cases htmlFilePath date imgSel es st)
    as [[-> Hm] | (src & h & _ & Hext & -> & ->)].
  - apply (EntryInv_mono lo (minted st)); [lia | exact Hinv].
  - now apply EntryInv_withPhoto.
Qed.

(** *** Text blocks *)

Lemma convertAndAppendP_cases (htmlFilePath : string) (es : EntryState) (st : RunState) :
  let r := convertAndAppendP W htmlFilePath es st in
  es_Photos (fst r) = es_Photos es /\
  es_mediaToCopy (fst r) = es_mediaToCopy es /\
  minted (snd r) = minted st /\
  ((es_bodyMarkdownBuilder (fst r) = es_bodyMarkdownBuilder es)
   \/ exists text,
        es_bodyMarkdownBuilder (fst r)
        = WriteString (es_bodyMarkdownBuilder es) (MarkdownText text)).
Proof.
  cbv zeta. unfold convertAndAppendP.
  destruct (es_currentPContent es) as [|c s]; [cbn; auto |].
  destruct (convertString W (String c s)) as [md|e]; cbn; eauto 6.
Qed.

Lemma convertAndAppendP_inv (htmlFilePath : string) (lo : nat)
    (es : EntryState) (st : RunState) :
  EntryInv W lo (minted st) es ->
  EntryInv W lo (minted (snd (convertAndAppendP W htmlFilePath es st)))
    (fst (convertAndAppendP W htmlFilePath es st)).
Proof.
  intros [Hr Hrefs Hp Hm Hd].
  destruct (convertAndAppendP_cases htmlFilePath es st) as (HP & HM & HS & HB).
  rewrite HS. split.
  - exact Hr.
  - rewrite HP. destruct HB as [-> | [text ->]]; [exact Hrefs |].
    unfold WriteString. rewrite photoRefs_app. cbn. now rewrite app_nil_r.
  - rewrite HP. exact Hp.
  - rewrite HM, HP. exact Hm.
  - rewrite HM. exact Hd.
Qed.

Lemma writeP_inv (lo hi : nat) (html : string) (es : EntryState) :
  EntryInv W lo hi es -> EntryInv W lo hi (writeP html es).
Proof. intros [Hr Hrefs Hp Hm Hd]. split; assumption. Qed.

(** *** Folds *)

Lemma foldM_inv {A : Type} (f : A -> EntryState -> M EntryState) (lo : nat) :
  (forall a es st,
      EntryInv W lo (minted st) es ->
      EntryInv W lo (minted (snd (f a es st))) (fst (f a es st))) ->
  forall l es st,
    EntryInv W lo (minted st) es ->
    EntryInv W lo (minted (snd (foldM f l es st))) (fst (foldM f l es st)).
Proof.
  intros Hf l. induction l as [|a l IH]; intros es st Hinv; [exact Hinv |].
  cbn [foldM]. unfold bind. specialize (Hf a es st Hinv).
  destruct (f a es st) as [es' st']. now apply IH.
Qed.

Lemma bind_inv (c : M EntryState) (k : EntryState -> M EntryState)
    (lo : nat) (st : RunState) :
  EntryInv W lo (minted (snd (c st))) (fst (c st)) ->
  (forall es st', EntryInv W lo (minted st') es ->
                  EntryInv W lo (minted (snd (k es st'))) (fst (k es st'))) ->
  EntryInv W lo (minted (snd (bind c k st))) (fst (bind c k st)).
Proof. intros Hc Hk. unfold bind. destruct (c st) as [es' st']. now apply Hk. Qed.

Lemma appendEach_inv (htmlFilePath : string) (sel : Html.Selection) (lo : nat)
    (es : EntryState) (st : RunState) :
  EntryInv W lo (minted st) es ->
  EntryInv W lo (minted (snd (appendEach W htmlFilePath sel es st)))
    (fst (appendEach W htmlFilePath sel es st)).
Proof.
  unfold appendEach. apply foldM_inv. intros l es' st' H.
  now apply convertAndAppendP_inv, writeP_inv.
Qed.

Lemma processChild_inv (htmlFilePath date : string) (s : Html.Located) (lo : nat)
    (es : EntryState) (st : RunState) :
  EntryInv W lo (minted st) es ->
  EntryInv W lo (minted (snd (processChild W htmlFilePath date s es st)))
    (fst (processChild W htmlFilePath date s es st)).
Proof.
  intros Hinv. unfold processChild.
  destruct (Html.Is s Html.sel_pageHeader); [exact Hinv |].
  destruct (Html.Is s Html.sel_title); [exact Hinv |].
  destruct (Html.Is s Html.sel_assetGrid).
  - apply bind_inv; [now apply convertAndAppendP_inv |].
    intros es' st' H. apply foldM_inv; [| exact H].
    intros a es'' st'' H'. now apply processImage_inv.
  - destruct (outerHtml W (fst s)) as [html|e]; [| exact Hinv].
    destruct (Html.Is s Html.sel_p || Html.Is s Html.sel_bodyText
              || Html.ParentIs s Html.sel_bodyText).
    { now apply convertAndAppendP_inv, writeP_inv. }
    destruct (0 <? length (Html.Find s Html.sel_bodyText))%nat.
    { now apply appendEach_inv. }
    destruct (0 <? length (Html.Find s Html.sel_p))%nat.
    { now apply appendEach_inv. }
    exact Hinv.
Qed.

Lemma EntryInv_init (lo : nat) : EntryInv W lo lo (mkEntryState [] ∅ [] "").
Proof.
  split; cbn.
  - lia.
  - reflexivity.
  - intros p [].
  - intros k v Hk. rewrite lookup_empty in Hk. discriminate Hk.
  - intros _ k1 k2 v Hk. rewrite lookup_empty in Hk. discriminate Hk.
Qed.

(** The invariant holds of the body of every document. *)
Lemma processBody_inv (htmlFilePath date : string) (doc : Html.Document) (st : RunState) :
  EntryInv W (minted st) (minted (snd (processBody W htmlFilePath date doc st)))
    (fst (processBody W htmlFilePath date doc st)).
Proof.
  unfold processBody. apply bind_inv.
  - apply foldM_inv; [| apply EntryInv_init].
    intros a es st' H. now apply processChild_inv.
  - intros es st' H. now apply convertAndAppendP_inv.
Qed.

End WithWorld.

End EntryFacts.

(** ** Entries and the run *)

Module RunFacts.
Import Strings Filepath ProofDefs StringFacts IdentFacts EntryFacts.

Section WithWorld.
Context (W : World).

(** *** [processEntryHTML] *)

Lemma processEntryHTML_eq (htmlFilePath res tz : string) (st : RunState) :
  processEntryHTML W htmlFilePath res tz st =
  match openDocument W htmlFilePath with
  | Err LoadOpenFailed => (Err ErrOpening, st)
  | Err LoadParseFailed => (Err ErrParsingHTML, st)
  | Ok doc =>
      let st1 := mkRunState (S (minted st)) (logged st) in
      match headerText doc with
      | "" => (Err ErrNoDate, withLog st1 LogNoDate [htmlFilePath])
      | String _ _ as dateStr =>
          match parseAppleDate dateStr with
          | Err e =>
              (Err (ErrBadDate e), withLog st1 LogBadDate [dateStr; htmlFilePath])
          | Ok creationTime =>
              let isoDate := GoTime.FormatRFC3339 creationTime in
              let body := processBody W htmlFilePath isoDate doc st1 in
              let text := entryText (extractTitle doc htmlFilePath) (fst body) in
              if isEmptyEntry text (es_Photos (fst body))
              then (Err ErrEmptyEntry, withLog (snd body) LogEmptyEntry [htmlFilePath])
              else
                (Ok (DayOneEntry.mk (token W (minted st)) isoDate isoDate text false tz
                       (es_Photos (fst body)),
                     es_mediaToCopy (fst body)),
                 snd body)
          end
      end
  end.
Proof.
  unfold processEntryHTML.
  destruct (openDocument W htmlFilePath) as [doc | []]; try reflexivity.
  unfold bind at 1. rewrite newDayOneUUID_eq. fold (headerText doc).
  destruct (headerText doc) as [|c s]; [reflexivity |].
  destruct (parseAppleDate (String c s)) as [t | e]; [| reflexivity].
  cbv zeta. unfold bind at 1.
  destruct (processBody W htmlFilePath (GoTime.FormatRFC3339 t) doc
              (mkRunState (S (minted st)) (logged st))) as [es st2].
  cbn [fst snd].
  destruct (isEmptyEntry (entryText (extractTitle doc htmlFilePath) es) (es_Photos es));
    reflexivity.
Qed.

Lemma isEmptyEntry_false (text : string) (photos : list DayOnePhoto.t) :
  isEmptyEntry text photos = false <-> ~ (text = "" /\ photos = []).
Proof.
  unfold isEmptyEntry. split.
  - intros H [-> ->]. discriminate H.
  - intros H. destruct text as [|c s]; [| reflexivity].
    destruct photos; [| reflexivity]. now destruct H.
Qed.

Lemma isEmptyEntry_true (text : string) (photos : list DayOnePhoto.t) :
  isEmptyEntry text photos = true <-> text = "" /\ photos = [].
Proof.
  unfold isEmptyEntry. split.
  - intros H. apply andb_prop in H. destruct H as [Ht Hp].
    apply String.eqb_eq in Ht. destruct photos; [auto | discriminate Hp].
  - intros [-> ->]. reflexivity.
Qed.

(** What an entry that [processEntryHTML] returns is made of. *)
Lemma processEntryHTML_Ok (htmlFilePath res tz : string) (st st' : RunState)
    (e : DayOneEntry.t) (m : gmap string string) :
  processEntryHTML W htmlFilePath res tz st = (Ok (e, m), st') ->
  exists doc creationTime,
    openDocument W htmlFilePath = Ok doc /\
    headerText doc <> "" /\
    parseAppleDate (headerText doc) = Ok creationTime /\
    let isoDate := GoTime.FormatRFC3339 creationTime in
    let body := processBody W htmlFilePath isoDate doc
                  (mkRunState (S (minted st)) (logged st)) in
    let text := entryText (extractTitle doc htmlFilePath) (fst body) in
    isEmptyEntry text (es_Photos (fst body)) = false /\
    e = DayOneEntry.mk (token W (minted st)) isoDate isoDate text false tz
          (es_Photos (fst body)) /\
    m = es_mediaToCopy (fst body) /\
    st' = snd body.
Proof.
  rewrite processEntryHTML_eq.
  destruct (openDocument W htmlFilePath) as [doc | []]; try discriminate.
  cbv zeta. destruct (headerText doc) as [|c s] eqn:Hh; [discriminate |].
  destruct (parseAppleDate (String c s)) as [t | err] eqn:Hp; [| discriminate].
  destruct (isEmptyEntry _ _) eqn:Hemp; [discriminate |].
  intros H. injection H as <- <- <-.
  exists doc, t. rewrite Hh. repeat split; try assumption. discriminate.
Qed.

Lemma processEntryHTML_minted (htmlFilePath res tz : string) (st : RunState) :
  (minted st <= minted (snd (processEntryHTML W htmlFilePath res tz st)))%nat.
Proof.
  rewrite processEntryHTML_eq.
  destruct (openDocument W htmlFilePath) as [doc | []]; [| cbn; lia | cbn; lia].
  cbv zeta.
  destruct (headerText doc) as [|c s]; [cbn; lia |].
  destruct (parseAppleDate (String c s)) as [t | err]; [| cbn; lia].
  pose proof (inv_range _ _ _ _
                (processBody_inv W htmlFilePath (GoTime.FormatRFC3339 t) doc
                   (mkRunState (S (minted st)) (logged st)))) as Hr.
  cbn [minted] in Hr.
  destruct (isEmptyEntry _ _); cbn [snd withLog minted]; lia.
Qed.

(** *** Merging the media of an entry *)

Lemma mergeMedia_union (entryMedia allMediaToCopy : gmap string string) :
  mergeMedia entryMedia allMediaToCopy = entryMedia ∪ allMediaToCopy.
Proof.
  unfold mergeMedia.
  apply (map_fold_weak_ind
           (fun r (m : gmap string string) => r = m ∪ allMediaToCopy)).
  - now rewrite (left_id_L ∅ (∪)).
  - intros i x m r Hi ->. now rewrite insert_union_l.
Qed.

(** The last writer wins. *)
Lemma mergeMedia_lookup (entryMedia allMediaToCopy : gmap string string) (k : string) :
  mergeMedia entryMedia allMediaToCopy !! k =
  match entryMedia !! k with
  | Some v => Some v
  | None => allMediaToCopy !! k
  end.
Proof.
  rewrite mergeMedia_union, lookup_union.
  destruct (entryMedia !! k), (allMediaToCopy !! k); reflexivity.
Qed.

Lemma mediaFrom_mono (lo lo' hi hi' : nat) (m : gmap string string) :
  (lo' <= lo)%nat -> (hi <= hi')%nat -> mediaFrom W lo hi m -> mediaFrom W lo' hi' m.
Proof.
  intros Hlo Hhi H k v Hk. destruct (H k v Hk) as (i & ext & Hi & He & Hv).
  exists i, ext. repeat split; try assumption; lia.
Qed.

(** Destinations minted in disjoint ranges differ. *)
Lemma mediaFrom_disjoint (lo1 hi1 lo2 hi2 n : nat) (m1 m2 : gmap string string)
    (k1 k2 v1 v2 : string) :
  mintInjectiveUpTo W n -> (hi1 <= lo2)%nat -> (hi2 <= n)%nat ->
  mediaFrom W lo1 hi1 m1 -> mediaFrom W lo2 hi2 m2 ->
  m1 !! k1 = Some v1 -> m2 !! k2 = Some v2 -> v1 <> v2.
Proof.
  intros Hinj H12 Hn M1 M2 K1 K2 E.
  destruct (M1 k1 v1 K1) as (i & e1 & Hi & He1 & ->).
  destruct (M2 k2 v2 K2) as (j & e2 & Hj & He2 & ->).
  apply destPath_inj in E; try assumption. destruct E as [Et _].
  apply Hinj in Et; lia.
Qed.

Lemma RunInv_merge (n lo hi : nat) (col : Collected) (e : DayOneEntry.t)
    (m : gmap string string) :
  (n <= lo)%nat -> (lo <= hi)%nat ->
  RunInv W n col -> hasContent e -> mediaFrom W lo hi m ->
  (mintInjectiveUpTo W hi -> distinctDestinations m) ->
  RunInv W hi (mkCollected (col_Entries col ++ [e])
                 (mergeMedia m (col_allMediaToCopy col))).
Proof.
  intros Hn Hlo [Hc Hm Hd] He Mm Dm. split; cbn [col_Entries col_allMediaToCopy].
  - apply Forall_app. split; [exact Hc | now constructor].
  - intros k v Hk. rewrite mergeMedia_lookup in Hk.
    destruct (m !! k) as [v'|] eqn:Ek.
    + injection Hk as <-. apply (mediaFrom_mono lo 0 hi hi m) in Mm; try lia.
      exact (Mm k v' Ek).
    + apply (mediaFrom_mono 0 0 n hi _ ltac:(lia) ltac:(lia) Hm k v Hk).
  - intros Hinj k1 k2 v H1 H2. rewrite mergeMedia_lookup in H1, H2.
    pose proof (mintInjectiveUpTo_mono W n hi ltac:(lia) Hinj) as Hinjn.
    destruct (m !! k1) as [v1|] eqn:E1; destruct (m !! k2) as [v2|] eqn:E2.
    + assert (v1 = v) by congruence. assert (v2 = v) by congruence. subst v1 v2.
      exact (Dm Hinj k1 k2 v E1 E2).
    + assert (v1 = v) by congruence. subst v1. exfalso.
      apply (mediaFrom_disjoint 0 n lo hi hi _ _ k2 k1 v v Hinj Hn (le_n hi) Hm Mm H2 E1).
      reflexivity.
    + assert (v2 = v) by congruence. subst v2. exfalso.
      apply (mediaFrom_disjoint 0 n lo hi hi _ _ k1 k2 v v Hinj Hn (le_n hi) Hm Mm H1 E2).
      reflexivity.
    + exact (Hd Hinjn k1 k2 v H1 H2).
Qed.

Lemma RunInv_mono (n n' : nat) (col : Collected) :
  (n <= n')%nat -> RunInv W n col -> RunInv W n' col.
Proof.
  intros Hle [Hc Hm Hd]. split.
  - exact Hc.
  - apply (mediaFrom_mono 0 0 n n'); [lia | exact Hle | exact Hm].
  - intros Hinj. apply Hd. now apply (mintInjectiveUpTo_mono W n n').
Qed.

(** The entry and the media that [processEntryHTML] returns. *)
Lemma processEntryHTML_inv (htmlFilePath res tz : string) (st st' : RunState)
    (e : DayOneEntry.t) (m : gmap string string) :
  processEntryHTML W htmlFilePath res tz st = (Ok (e, m), st') ->
  hasContent e /\
  (S (minted st) <= minted st')%nat /\
  mediaFrom W (S (minted st)) (minted st') m /\
  (mintInjectiveUpTo W (minted st') -> distinctDestinations m).
Proof.
  intros H. apply processEntryHTML_Ok in H.
  destruct H as (doc & t & _ & _ & _ & H). cbv zeta in H.
  destruct H as (Hemp & -> & -> & ->).
  pose proof (processBody_inv W htmlFilePath (GoTime.FormatRFC3339 t) doc
                (mkRunState (S (minted st)) (logged st))) as [Hr _ _ Hm Hd].
  cbn [minted] in Hr, Hm, Hd.
  split; [| split; [exact Hr | split; [| exact Hd]]].
  - unfold hasContent. cbn. now apply isEmptyEntry_false.
  - intros k v Hk. destruct (Hm k v Hk) as (i & ext & Hi & He & Hv & _).
    now exists i, ext.
Qed.

(** *** [visit] and [walk] *)

Lemma visit_eq (res tz : string) (c : WalkCall) (col : Collected) (st : RunState) :
  visit W res tz c col st =
  if wc_err c then (Err tt, withLog st LogAccessError [wc_path c])
  else if de_isDir (wc_entry c) then (Ok col, st)
  else if isHtmlName W (de_name (wc_entry c)) then
    let r := processEntryHTML W (wc_path c) res tz
               (withLog st LogProcessingEntry [wc_path c]) in
    match fst r with
    | Err _ => (Ok col, withLog (snd r) LogEntryError [wc_path c])
    | Ok (entry, entryMedia) =>
        if isEmptyEntry (DayOneEntry.Text entry) (DayOneEntry.Photos entry)
        then (Ok col, withLog (snd r) LogSkippingEmpty [wc_path c])
        else (Ok (mkCollected (col_Entries col ++ [entry])
                    (mergeMedia entryMedia (col_allMediaToCopy col))),
              snd r)
    end
  else (Ok col, st).
Proof.
  unfold visit.
  destruct (wc_err c); [reflexivity |].
  destruct (de_isDir (wc_entry c)); [reflexivity |].
  destruct (isHtmlName W (de_name (wc_entry c))); [| reflexivity].
  unfold bind, logPrintf, withLog. cbv zeta.
  destruct (processEntryHTML W (wc_path c) res tz _) as [[[e m] | err] st'];
    [| reflexivity].
  cbn [fst snd].
  destruct (isEmptyEntry (DayOneEntry.Text e) (DayOneEntry.Photos e)); reflexivity.
Qed.

Lemma visit_inv (res tz : string) (c : WalkCall) (col : Collected) (st : RunState) :
  RunInv W (minted st) col ->
  let r := visit W res tz c col st in
  (minted st <= minted (snd r))%nat /\
  match fst r with
  | Ok col' => RunInv W (minted (snd r)) col' /\ wc_err c = false
  | Err _ => wc_err c = true
  end.
Proof.
  intros Hinv. cbv zeta. rewrite visit_eq.
  destruct (wc_err c); [cbn; split; [lia | reflexivity] |].
  destruct (de_isDir (wc_entry c)); [cbn; split; [lia | now split] |].
  destruct (isHtmlName W (de_name (wc_entry c))); [| cbn; split; [lia | now split]].
  cbv zeta.
  pose proof (processEntryHTML_minted (wc_path c) res tz
                (withLog st LogProcessingEntry [wc_path c])) as Hmint.
  destruct (processEntryHTML W (wc_path c) res tz _) as [[[e m] | err] st'] eqn:Hproc;
    cbn [fst snd withLog minted] in *.
  - apply processEntryHTML_inv in Hproc. cbn [minted withLog] in Hproc.
    destruct Hproc as (Hc & Hlo & Hm & Hd).
    destruct (isEmptyEntry (DayOneEntry.Text e) (DayOneEntry.Photos e));
      cbn [fst snd withLog minted].
    + split; [lia |]. split; [| reflexivity]. now apply (RunInv_mono (minted st)).
    + split; [lia |]. split; [| reflexivity].
      apply (RunInv_merge (minted st) (S (minted st)) (minted st')); try assumption; lia.
  - split; [lia |]. split; [| reflexivity]. now apply (RunInv_mono (minted st)).
Qed.

Lemma walk_inv (res tz : string) (calls : list WalkCall) :
  forall (col : Collected) (st : RunState),
    RunInv W (minted st) col ->
    let r := walk W res tz calls col st in
    (minted st <= minted (snd r))%nat /\
    match fst r with
    | Ok col' => RunInv W (minted (snd r)) col' /\ forall c, In c calls -> wc_err c = false
    | Err _ => exists c, In c calls /\ wc_err c = true
    end.
Proof.
  induction calls as [|c calls IH]; intros col st Hinv; cbv zeta.
  - cbn. split; [lia |]. split; [exact Hinv | intros c []].
  - cbn [walk]. unfold bind.
    pose proof (visit_inv res tz c col st Hinv) as Hv. cbv zeta in Hv.
    destruct (visit W res tz c col st) as [[col' | []] st1]; cbn [fst snd] in Hv.
    + destruct Hv as [Hle [Hinv1 Hok1]].
      specialize (IH col' st1 Hinv1). cbv zeta in IH.
      destruct (walk W res tz calls col' st1) as [[col2 | []] st2]; cbn [fst snd] in *.
      * destruct IH as [Hle2 [Hinv2 Hok]]. split; [lia |]. split; [exact Hinv2 |].
        intros c' [<- | Hin]; [exact Hok1 | now apply Hok].
      * destruct IH as [Hle2 (c' & Hin & He)]. split; [lia |].
        exists c'. split; [now right | exact He].
    + destruct Hv as [Hle He]. cbn. split; [lia |]. exists c. split; [now left | exact He].
Qed.

Lemma RunInv_init : RunInv W 0 (mkCollected [] ∅).
Proof.
  split; cbn.
  - constructor.
  - intros k v Hk. rewrite lookup_empty in Hk. discriminate Hk.
  - intros _ k1 k2 v Hk. rewrite lookup_empty in Hk. discriminate Hk.
Qed.

End WithWorld.

End RunFacts.

(** ** The log is written, never read *)

Module BlindFacts.
Import Strings Filepath ProofDefs.

Lemma blind_ret {A : Type} (a : A) : logBlind (ret a).
Proof. intros st st' H. split; [reflexivity | exact H]. Qed.

Lemma blind_bind {A B : Type} (c : M A) (k : A -> M B) :
  logBlind c -> (forall a, logBlind (k a)) -> logBlind (bind c k).
Proof.
  intros Hc Hk st st' H. unfold bind. destruct (Hc st st' H) as [Hf Hm].
  destruct (c st) as [a s1], (c st') as [a' s1']. cbn [fst snd] in Hf, Hm.
  subst a'. exact (Hk a s1 s1' Hm).
Qed.

Lemma blind_logPrintf (site : LogSite) (args : list string) :
  logBlind (logPrintf site args).
Proof. intros st st' H. split; [reflexivity | exact H]. Qed.

Lemma blind_newDayOneUUID (W : World) : logBlind (newDayOneUUID W).
Proof.
  intros st st' H. unfold newDayOneUUID. cbn [fst snd minted]. rewrite H.
  split; reflexivity.
Qed.

Lemma blind_foldM {A S : Type} (f : A -> S -> M S) (l : list A) :
  (forall a s, logBlind (f a s)) -> forall s, logBlind (foldM f l s).
Proof.
  intros Hf. induction l as [|a l IH]; intros s; [apply blind_ret |].
  cbn [foldM]. apply blind_bind; [apply Hf | exact IH].
Qed.

(** One step of the proof that a computation does not read the log. *)
Ltac blind_step :=
  match goal with
  | |- logBlind (ret _) => apply blind_ret
  | |- logBlind (logPrintf _ _) => apply blind_logPrintf
  | |- logBlind (newDayOneUUID _) => apply blind_newDayOneUUID
  | |- logBlind (bind _ _) => apply blind_bind; [| intros ?]
  | |- logBlind (foldM _ _ _) => apply blind_foldM; intros ? ?
  | |- logBlind (match ?x with _ => _ end) => destruct x
  | |- logBlind (let '(_, _) := ?x in _) => destruct x
  end.

Section WithWorld.
Context (W : World).

Lemma blind_convertAndAppendP (path : string) (es : EntryState) :
  logBlind (convertAndAppendP W path es).
Proof. unfold convertAndAppendP. repeat blind_step. Qed.

Lemma blind_processImage (path date : string) (img : Html.Located) (es : EntryState) :
  logBlind (processImage W path date img es).
Proof. unfold processImage. repeat blind_step. Qed.

Lemma blind_processChild (path date : string) (s : Html.Located) (es : EntryState) :
  logBlind (processChild W path date s es).
Proof.
  unfold processChild, appendEach.
  repeat first [apply blind_convertAndAppendP | apply blind_processImage | blind_step].
Qed.

Lemma blind_processBody (path date : string) (doc : Html.Document) :
  logBlind (processBody W path date doc).
Proof.
  unfold processBody.
  repeat first [apply blind_convertAndAppendP | apply blind_processChild | blind_step].
Qed.

Lemma blind_processEntryHTML (path res tz : string) :
  logBlind (processEntryHTML W path res tz).
Proof.
  unfold processEntryHTML.
  repeat first [apply blind_processBody | blind_step].
Qed.

Lemma blind_visit (res tz : string) (c : WalkCall) (col : Collected) :
  logBlind (visit W res tz c col).
Proof.
  unfold visit. repeat first [apply blind_processEntryHTML | blind_step].
Qed.

Lemma blind_walk (res tz : string) (calls : list WalkCall) :
  forall col, logBlind (walk W res tz calls col).
Proof.
  induction calls as [|c calls IH]; intros col; cbn [walk]; [apply blind_ret |].
  apply blind_bind; [apply blind_visit |].
  intros [col' | e]; [apply IH | apply blind_ret].
Qed.

(** The journal of a run is that of the walk, whatever was logged
    before it. *)
Lemma runJournal_walk (tz tmp : string) (st st' : RunState) (col : Collected) :
  minted st = 0%nat ->
  walk W (snd (rootsOf W tmp)) tz (walkDir W (fst (rootsOf W tmp)))
    (mkCollected [] ∅) st = (Ok col, st') ->
  runJournal W tz tmp
  = Ok (DayOneJournal.mk {[ "version" := "1.0" ]} (col_Entries col)).
Proof.
  intros Hm Hw. unfold runJournal.
  destruct (blind_walk (snd (rootsOf W tmp)) tz (walkDir W (fst (rootsOf W tmp)))
              (mkCollected [] ∅) initialState st (eq_sym Hm)) as [Hf _].
  rewrite Hf, Hw. reflexivity.
Qed.

End WithWorld.

End BlindFacts.

(** ** [createDayOneZip] and [main] *)

Module MainFacts.
Import Strings Filepath ProofDefs StringFacts IdentFacts EntryFacts RunFacts BlindFacts.

Section WithWorld.
Context (W : World).

Lemma detectRoots_fst (tmp : string) (st : RunState) :
  fst (detectRoots W tmp st) = rootsOf W tmp.
Proof.
  unfold rootsOf, detectRoots.
  destruct (readDir W tmp) as [[|d [|d' ds]] | e]; try reflexivity.
  destruct (de_isDir d); [| reflexivity].
  destruct (stat W (Join [tmp; de_name d; "Entries"])); reflexivity.
Qed.

Lemma detectRoots_minted (tmp : string) (st : RunState) :
  minted (snd (detectRoots W tmp st)) = minted st.
Proof.
  unfold detectRoots.
  destruct (readDir W tmp) as [[|d [|d' ds]] | e]; try reflexivity.
  destruct (de_isDir d); [| reflexivity].
  destruct (stat W (Join [tmp; de_name d; "Entries"])); reflexivity.
Qed.

(** Writing a media file mints no identifier. *)
Lemma addMedia_minted (item : string * string) (archive : list ZipMember) (st : RunState) :
  minted (snd (addMedia W item archive st)) = minted st.
Proof.
  unfold addMedia. destruct item as [orig dest].
  destruct (zipCreateOk W dest); [| reflexivity].
  destruct (osOpenOk W orig); [| reflexivity].
  destruct (ioCopyOk W orig dest); reflexivity.
Qed.

Lemma createDayOneZip_cases (outputZipPath : string) (journal : DayOneJournal.t)
    (mediaToCopy : gmap string string) (tmp : string) (st : RunState) :
  match fst (createDayOneZip W outputZipPath journal mediaToCopy tmp st) with
  | Err ZipCreatingOutput => osCreateOk W outputZipPath = false
  | Err ZipCreatingJournal => zipCreateOk W "Journal.json" = false
  | Err ZipMarshalling => marshalIndent W journal = Err tt
  | Err ZipWritingJournal =>
      exists jsonData, marshalIndent W journal = Ok jsonData /\ zipWriteOk W jsonData = false
  | Ok _ =>
      osCreateOk W outputZipPath = true /\ zipCreateOk W "Journal.json" = true /\
      exists jsonData, marshalIndent W journal = Ok jsonData /\
                       zipWriteOk W jsonData = true
  end.
Proof.
  unfold createDayOneZip.
  destruct (osCreateOk W outputZipPath); [| reflexivity].
  destruct (zipCreateOk W "Journal.json"); [| reflexivity].
  destruct (marshalIndent W journal) as [d | []] eqn:Hd; [| reflexivity].
  destruct (zipWriteOk W d) eqn:Hw; cbn [negb].
  - unfold bind. destruct (foldM _ _ _ st) as [a st']. cbn. eauto.
  - cbn. eauto.
Qed.

Lemma createDayOneZip_minted (outputZipPath : string) (journal : DayOneJournal.t)
    (mediaToCopy : gmap string string) (tmp : string) (st : RunState) :
  minted (snd (createDayOneZip W outputZipPath journal mediaToCopy tmp st)) = minted st.
Proof.
  unfold createDayOneZip.
  destruct (osCreateOk W outputZipPath); [| reflexivity].
  destruct (zipCreateOk W "Journal.json"); [| reflexivity].
  destruct (marshalIndent W journal) as [d | []]; [| reflexivity].
  destruct (zipWriteOk W d); [| reflexivity]. cbn [negb]. unfold bind.
  generalize (map_to_list mediaToCopy).
  generalize [JournalJson d]. generalize st.
  intros s a l. revert s a.
  induction l as [|x l IH]; intros s a; [reflexivity |].
  cbn [foldM]. unfold bind.
  pose proof (addMedia_minted x a s) as Ha.
  destruct (addMedia W x a s) as [a' s']. cbn [snd] in Ha.
  specialize (IH s' a').
  destruct (foldM (addMedia W) l a' s') as [a2 s2]. cbn in *. lia.
Qed.

(** How a run ends: with a fatal error whose condition holds, or with
    a journal whose entries and media satisfy the invariant of the
    run. *)
Lemma main_cases (inputZip outputZip tz : string) (st st' : RunState) (out : Outcome) :
  inputZip <> "" -> outputZip <> "" ->
  main W inputZip outputZip tz st = (out, st') ->
  match out with
  | UsageExit => False
  | Fatal e => minted st = 0%nat -> fatalCondition W inputZip outputZip tz e
  | Completed journal allMediaToCopy archive =>
      RunInv W (minted st')
        (mkCollected (DayOneJournal.Entries journal) allMediaToCopy)
  end.
Proof.
  intros Hi Ho. unfold main.
  apply String.eqb_neq in Hi, Ho. rewrite Hi, Ho. cbn [orb].
  unfold bind at 1. cbn [logPrintf].
  set (st0 := mkRunState _ _).
  assert (M0 : minted st0 = minted st) by reflexivity. clearbody st0.
  destruct (mkdirTemp W) as [tmp | []] eqn:Htmp;
    [| intros H; injection H as <- <-; intros _; exact Htmp].
  unfold bind at 1. cbn [logPrintf]. unfold bind at 1. cbn [logPrintf].
  set (st1 := mkRunState _ _).
  assert (M1 : minted st1 = minted st) by exact M0. clearbody st1.
  destruct (unzipOk W inputZip tmp) eqn:Hunzip; cbn [negb];
    [| intros H; injection H as <- <-; intros _; exists tmp; auto].
  unfold bind at 1. cbn [logPrintf].
  set (st2 := mkRunState _ _).
  assert (M2 : minted st2 = minted st) by exact M1. clearbody st2.
  unfold bind at 1.
  pose proof (detectRoots_fst tmp st2) as Hroots.
  pose proof (detectRoots_minted tmp st2) as M3.
  destruct (detectRoots W tmp st2) as [[entriesPath resourcesPath] st3].
  cbn [fst snd] in Hroots, M3.
  assert (He : entriesPath = fst (rootsOf W tmp)) by (now rewrite <- Hroots).
  assert (Hr : resourcesPath = snd (rootsOf W tmp)) by (now rewrite <- Hroots).
  subst entriesPath resourcesPath. clear Hroots.
  destruct (stat W (fst (rootsOf W tmp))) eqn:Hs;
    [| intros H; injection H as <- <-; intros _; exists tmp; auto |].
  all: assert (Hstat : stat W (fst (rootsOf W tmp)) <> StatNotExist)
         by (rewrite Hs; discriminate).
  all: clear Hs.
  all: unfold bind at 1.
  all: destruct (match stat W (snd (rootsOf W tmp)) with
                 | StatNotExist => logPrintf LogNoResources [snd (rootsOf W tmp)]
                 | _ => ret tt
                 end st3) as [[] st4] eqn:H4.
  all: assert (M4 : minted st4 = minted st3)
         by (destruct (stat W (snd (rootsOf W tmp))); cbn in H4;
             injection H4 as <-; reflexivity).
  all: unfold bind at 1; cbn [logPrintf].
  all: set (st5 := mkRunState _ _).
  all: assert (M5 : minted st5 = minted st) by (cbn [minted st5]; congruence).
  all: clearbody st5.
  all: unfold bind at 1.
  all: assert (Hinit : RunInv W (minted st5) (mkCollected [] ∅))
         by (apply (RunInv_mono W 0); [lia | apply RunInv_init]).
  all: pose proof (walk_inv W (snd (rootsOf W tmp)) tz (walkDir W (fst (rootsOf W tmp)))
                     _ st5 Hinit) as Hw.
  all: cbv zeta in Hw.
  all: destruct (walk W (snd (rootsOf W tmp)) tz (walkDir W (fst (rootsOf W tmp)))
                   (mkCollected [] ∅) st5)
         as [[col | []] st6] eqn:Hwalk; cbn [fst snd] in Hw;
       [| intros H; injection H as <- <-; intros _;
          destruct Hw as [_ (c & Hin & Hc)]; exists tmp, c; auto 6].
  all: destruct Hw as [_ [Hinv _]]; cbv zeta.
  all: unfold bind at 1.
  all: destruct (match col_Entries col with
                 | [] => logPrintf LogNoEntries []
                 | _ :: _ => logPrintf LogProcessedCount []
                 end st6) as [[] st7] eqn:H7.
  all: assert (Hm7 : minted st7 = minted st6)
         by (destruct (col_Entries col); cbn in H7; injection H7 as <-; reflexivity).
  all: unfold bind at 1; cbn [logPrintf].
  all: set (st8 := mkRunState _ _).
  all: assert (Hm8 : minted st8 = minted st6) by (cbn; exact Hm7).
  all: clearbody st8.
  all: unfold bind at 1.
  all: pose proof (createDayOneZip_cases outputZip
                     (DayOneJournal.mk {[ "version" := "1.0" ]} (col_Entries col))
                     (col_allMediaToCopy col) tmp st8) as Hz.
  all: pose proof (createDayOneZip_minted outputZip
                     (DayOneJournal.mk {[ "version" := "1.0" ]} (col_Entries col))
                     (col_allMediaToCopy col) tmp st8) as Hm9.
  all: destruct (createDayOneZip W outputZip _ (col_allMediaToCopy col) tmp st8)
         as [[archive | ze] st9]; cbn [fst snd] in Hz, Hm9.
  all: try (intros H; injection H as <- <-; intros M;
            exists tmp, (DayOneJournal.mk {[ "version" := "1.0" ]} (col_Entries col));
            do 3 (split; [assumption |]);
            split; [apply (runJournal_walk W tz tmp st5 st6 col);
                    [congruence | exact Hwalk] |];
            destruct ze; cbn in Hz |- *; eauto 6).
  all: unfold bind, ret, logPrintf, cleanup.
  all: destruct (removeAllOk W tmp); intros H; injection H as <- <-.
  all: destruct col as [es ms]; cbn in *.
  all: now rewrite Hm9, Hm8.
Qed.

End WithWorld.

End MainFacts.

(** * The properties of the converter *)

Import Strings Filepath ProofDefs.
Import StringFacts IdentFacts EntryFacts RunFacts MainFacts.

Lemma main_completed (W : World) (inputZip outputZip tz : string) (st st' : RunState)
    (journal : DayOneJournal.t) (allMediaToCopy : gmap string string)
    (archive : list ZipMember) :
  main W inputZip outputZip tz st = (Completed journal allMediaToCopy archive, st') ->
  RunInv W (minted st') (mkCollected (DayOneJournal.Entries journal) allMediaToCopy).
Proof.
  intros H.
  destruct (String.eqb inputZip "" || String.eqb outputZip "") eqn:Hargs.
  - unfold main in H. rewrite Hargs in H. discriminate H.
  - apply orb_false_elim in Hargs. destruct Hargs as [Hi Ho].
    apply String.eqb_neq in Hi, Ho.
    exact (main_cases W inputZip outputZip tz st st' _ Hi Ho H).
Qed.

(** C1. No entry without text and without photo is emitted:
    [processEntryHTML] returns no such entry, it returns the error of the
    empty entry when the text is empty and no photo was recorded, and the
    journal of a run holds no such entry. *)
Theorem no_empty_entry_emitted (W : World) :
  (forall path res tz st e m st',
      processEntryHTML W path res tz st = (Ok (e, m), st') -> hasContent e)
  /\ (forall path res tz st doc t,
        openDocument W path = Ok doc -> headerText doc <> "" ->
        parseAppleDate (headerText doc) = Ok t ->
        let body := processBody W path (GoTime.FormatRFC3339 t) doc
                      (mkRunState (S (minted st)) (logged st)) in
        entryText (extractTitle doc path) (fst body) = "" ->
        es_Photos (fst body) = [] ->
        fst (processEntryHTML W path res tz st) = Err ErrEmptyEntry)
  /\ (forall inputZip outputZip tz st journal allMediaToCopy archive st',
        main W inputZip outputZip tz st
        = (Completed journal allMediaToCopy archive, st') ->
        Forall hasContent (DayOneJournal.Entries journal)).
Proof.
  split; [| split].
  - intros path res tz st e m st' H.
    now apply (processEntryHTML_inv W path res tz st st' e m).
  - intros path res tz st doc t Hdoc Hh Hp body Htext Hphotos.
    rewrite processEntryHTML_eq, Hdoc. cbv zeta.
    destruct (headerText doc) as [|c s] eqn:Ehd; [now destruct Hh |].
    rewrite Hp. fold body. rewrite Htext, Hphotos. reflexivity.
  - intros inputZip outputZip tz st journal allMediaToCopy archive st' H.
    apply main_completed in H. exact (run_content _ _ _ H).
Qed.

Lemma no_empty_entry_emitted_witness :
  processEntryHTML Sample.world Sample.walkPath SampleRun.resources "UTC" initialState
  = (Ok (SampleRun.walkEntry, SampleRun.walkMedia), SampleRun.walkState)
  /\ hasContent SampleRun.walkEntry.
Proof.
  assert (H : processEntryHTML Sample.world Sample.walkPath SampleRun.resources "UTC"
                initialState
              = (Ok (SampleRun.walkEntry, SampleRun.walkMedia), SampleRun.walkState))
    by (vm_compute; reflexivity).
  split; [exact H |].
  exact (proj1 (no_empty_entry_emitted Sample.world) _ _ _ _ _ _ _ H).
Defined.

(** C2. For a header "Weekday, Month Day, Year" (the month in full or
    abbreviated), [parseAppleDate] returns the instant whose year, month
    and day are those of the header, at 12:00:00 UTC; the same header
    always gives the same instant; and whatever the header, an instant that
    is returned is at 12:00:00 UTC. *)
Theorem parseAppleDate_literal_date (weekday : string) (short : bool) (m d y : Z) :
  Contains weekday "," = false ->
  (1 <= m <= 12)%Z -> (1 <= d <= GoTime.daysIn m y)%Z -> (0 <= y <= 9999)%Z ->
  (exists t,
      parseAppleDate (AppleDate.header weekday short m d y) = Ok t /\
      GoTime.Year t = y /\ GoTime.Month t = m /\ GoTime.Day t = d /\
      GoTime.Hour t = 12%Z /\ GoTime.Minute t = 0%Z /\ GoTime.Second t = 0%Z /\
      GoTime.Nanosecond t = 0%Z /\ GoTime.location t = GoTime.UTC /\
      forall t', parseAppleDate (AppleDate.header weekday short m d y) = Ok t' -> t' = t)
  /\ (forall dateStr t,
        parseAppleDate dateStr = Ok t ->
        GoTime.Hour t = 12%Z /\ GoTime.Minute t = 0%Z /\ GoTime.Second t = 0%Z /\
        GoTime.Nanosecond t = 0%Z /\ GoTime.location t = GoTime.UTC).
Proof.
  intros Hw Hm Hd Hy. split.
  - exists (GoTime.Date y m d 12 0 0 0 GoTime.UTC).
    pose proof (DateFacts.parseAppleDate_header weekday short m d y Hw Hm Hd Hy) as Hp.
    destruct (Calendar.Date_fields y m d 12 0 0 GoTime.UTC Hm Hd
                ltac:(lia) ltac:(lia) ltac:(lia))
      as (HY & HM & HD & HH & HMi & HS & HN & HL).
    repeat split; try assumption.
    intros t' Ht'. rewrite Hp in Ht'. now injection Ht' as <-.
  - intros dateStr t Ht.
    apply NoonFacts.validNoon_time. exact (NoonFacts.parseAppleDate_valid dateStr t Ht).
Qed.

Lemma parseAppleDate_literal_date_witness :
  AppleDate.header "Wednesday" false 5 14 2025 = "Wednesday, May 14, 2025"
  /\ exists t,
      parseAppleDate "Wednesday, May 14, 2025" = Ok t /\
      GoTime.Year t = 2025%Z /\ GoTime.Month t = 5%Z /\ GoTime.Day t = 14%Z /\
      GoTime.Hour t = 12%Z /\ GoTime.Minute t = 0%Z /\ GoTime.Second t = 0%Z /\
      GoTime.Nanosecond t = 0%Z /\ GoTime.location t = GoTime.UTC /\
      forall t', parseAppleDate "Wednesday, May 14, 2025" = Ok t' -> t' = t.
Proof.
  split; [reflexivity |].
  apply (proj1 (parseAppleDate_literal_date "Wednesday" false 5 14 2025
                  ltac:(reflexivity) ltac:(lia) ltac:(vm_compute; split; discriminate)
                  ltac:(lia))).
Defined.

(** The state of the entry behind an entry that [processEntryHTML]
    returns. *)
Lemma processEntryHTML_state (W : World) (path res tz : string) (st st' : RunState)
    (e : DayOneEntry.t) (m : gmap string string) :
  processEntryHTML W path res tz st = (Ok (e, m), st') ->
  exists doc body,
    openDocument W path = Ok doc /\
    processBody W path (DayOneEntry.CreationDate e) doc
      (mkRunState (S (minted st)) (logged st)) = (body, st') /\
    DayOneEntry.Text e = entryText (extractTitle doc path) body /\
    DayOneEntry.Photos e = es_Photos body /\
    m = es_mediaToCopy body /\
    EntryInv W (S (minted st)) (minted st') body.
Proof.
  intros H. apply processEntryHTML_Ok in H.
  destruct H as (doc & t & Hdoc & _ & _ & H). cbv zeta in H.
  destruct H as (_ & -> & -> & ->). cbn [DayOneEntry.CreationDate DayOneEntry.Text
    DayOneEntry.Photos].
  exists doc, (fst (processBody W path (GoTime.FormatRFC3339 t) doc
                      (mkRunState (S (minted st)) (logged st)))).
  split; [exact Hdoc |].
  split; [now destruct (processBody W path (GoTime.FormatRFC3339 t) doc _) |].
  do 3 (split; [reflexivity |]).
  exact (processBody_inv W path (GoTime.FormatRFC3339 t) doc
           (mkRunState (S (minted st)) (logged st))).
Qed.

Lemma sample_mint : mintInjectiveUpTo Sample.world 8.
Proof.
  intros i j Hi Hj.
  do 8 (destruct i as [|i]; [do 8 (destruct j as [|j]; [vm_compute; congruence |]); lia |]).
  lia.
Qed.

(** C4. An image whose extension, in lower case, is not one of [.png],
    [.jpg], [.jpeg] and [.gif] gives no photo and no copy instruction,
    whatever the file system holds: the entry is left as it is, no
    identifier is minted, and the images that follow are processed. *)
Theorem other_format_dropped (W : World) (htmlFilePath date : string)
    (imgSel : Html.Located) (imgSrc : string) (es : EntryState) (st : RunState) :
  Html.Attr imgSel "src" = Some imgSrc ->
  isImageExt (imageExt W htmlFilePath imgSrc) = false ->
  let r := processImage W htmlFilePath date imgSel es st in
  fst r = es
  /\ es_Photos (fst r) = es_Photos es
  /\ es_mediaToCopy (fst r) = es_mediaToCopy es
  /\ minted (snd r) = minted st
  /\ (imgSrc <> "" ->
      snd r = withLog st LogNonImage [imageExt W htmlFilePath imgSrc; htmlFilePath])
  /\ (forall rest,
        foldM (processImage W htmlFilePath date) (imgSel :: rest) es st
        = foldM (processImage W htmlFilePath date) rest es (snd r)).
Proof.
  intros Hsrc Hext. cbv zeta.
  assert (Hr : processImage W htmlFilePath date imgSel es st
               = (es, match imgSrc with
                      | "" => st
                      | _ => withLog st LogNonImage [imageExt W htmlFilePath imgSrc; htmlFilePath]
                      end)).
  { rewrite processImage_eq, Hsrc. destruct imgSrc as [|c s]; [reflexivity |].
    cbv zeta. rewrite Hext. reflexivity. }
  rewrite Hr. cbn [fst snd]. repeat split.
  - destruct imgSrc; reflexivity.
  - intros Hne. destruct imgSrc; [now destruct Hne | reflexivity].
  - intros rest. cbn [foldM]. unfold bind. now rewrite Hr.
Qed.

Lemma other_format_dropped_witness :
  (Html.Attr SampleRun.clipImage "src" = Some "../Resources/clip.mov"
   /\ isImageExt (imageExt Sample.world Sample.clipPath "../Resources/clip.mov") = false)
  /\ fst (processImage Sample.world Sample.clipPath "2025-05-17T12:00:00Z"
            SampleRun.clipImage SampleRun.emptyState initialState)
     = SampleRun.emptyState.
Proof.
  assert (H1 : Html.Attr SampleRun.clipImage "src" = Some "../Resources/clip.mov")
    by reflexivity.
  assert (H2 : isImageExt (imageExt Sample.world Sample.clipPath "../Resources/clip.mov")
               = false) by (vm_compute; reflexivity).
  split; [auto |].
  exact (proj1 (other_format_dropped Sample.world Sample.clipPath "2025-05-17T12:00:00Z"
                  SampleRun.clipImage "../Resources/clip.mov" SampleRun.emptyState
                  initialState H1 H2)).
Defined.

(** The failures of one unit of work are logged and passed over. *)
Lemma recoverable (W : World) : Recoverable W.
Proof.
  split.
  - intros path res tz st doc Hdoc Hh.
    rewrite processEntryHTML_eq, Hdoc. cbv zeta. now rewrite Hh.
  - intros path res tz st doc e Hdoc Hh Hp.
    rewrite processEntryHTML_eq, Hdoc. cbv zeta.
    destruct (headerText doc) as [|c s]; [now destruct Hh |]. now rewrite Hp.
  - intros path res tz st doc t Hdoc Hh Hp body Htext Hphotos.
    rewrite processEntryHTML_eq, Hdoc. cbv zeta.
    destruct (headerText doc) as [|c s]; [now destruct Hh |].
    rewrite Hp. fold body. now rewrite Htext, Hphotos.
  - intros res tz c col st err st2 Herr Hdir Hname Hproc.
    rewrite visit_eq, Herr, Hdir, Hname. cbv zeta. now rewrite Hproc.
  - intros path date img src es st Hsrc Hne Hext.
    rewrite processImage_eq, Hsrc. destruct src as [|c s]; [now destruct Hne |].
    cbv zeta. now rewrite Hext.
  - intros path date img src es st Hsrc Hne Hext Hstat.
    rewrite processImage_eq, Hsrc. destruct src as [|c s]; [now destruct Hne |].
    cbv zeta. now rewrite Hext, Hstat.
  - intros path date img src es st e Hsrc Hne Hext Hstat Hmd5.
    rewrite processImage_eq, Hsrc. destruct src as [|c s]; [now destruct Hne |].
    cbv zeta. rewrite Hext, Hmd5. cbn [negb].
    destruct (stat W (resolveImage path (String c s))); try reflexivity.
    now destruct Hstat.
  - intros path es st e Hne Hconv. unfold convertAndAppendP.
    destruct (es_currentPContent es) as [|c s]; [now destruct Hne |].
    now rewrite Hconv.
  - intros orig dest archive st Hc. unfold addMedia. now rewrite Hc.
  - intros orig dest archive st Hc Ho. unfold addMedia. now rewrite Hc, Ho.
  - intros orig dest archive st Hc Ho Hcp. unfold addMedia. now rewrite Hc, Ho, Hcp.
  - intros out journal media tmp st d Hc Hj Hm Hw. unfold createDayOneZip.
    rewrite Hc, Hj, Hm, Hw. cbn [negb]. unfold bind.
    destruct (foldM (addMedia W) (map_to_list media) [JournalJson d] st) as [a st'].
    now exists a, st'.
Qed.

(** When no fatal condition holds, the run is completed. *)
Lemma main_runs_through (W : World) (inputZip outputZip tz : string) (st : RunState) :
  inputZip <> "" -> outputZip <> "" -> minted st = 0%nat ->
  noFatalError W inputZip outputZip tz ->
  exists journal allMediaToCopy archive st',
    main W inputZip outputZip tz st = (Completed journal allMediaToCopy archive, st').
Proof.
  intros Hi Ho Hm (tmp & Htmp & Hunzip & Hstat & Hwalk & Hcreate & Hjson & Hjournal).
  destruct (main W inputZip outputZip tz st) as [out st'] eqn:Hmain.
  pose proof (main_cases W inputZip outputZip tz st st' out Hi Ho Hmain) as Hc.
  destruct out as [| e | j m a]; [destruct Hc | | now exists j, m, a, st'].
  exfalso. specialize (Hc Hm). destruct e; cbn [fatalCondition] in Hc.
  - congruence.
  - destruct Hc as (tmp' & Ht & Hu). congruence.
  - destruct Hc as (tmp' & Ht & _ & Hs). assert (tmp' = tmp) by congruence. subst tmp'.
    now apply Hstat.
  - destruct Hc as (tmp' & c & Ht & _ & _ & Hin & Herr).
    assert (tmp' = tmp) by congruence. subst tmp'.
    rewrite (Hwalk c Hin) in Herr. discriminate Herr.
  - destruct Hc as (tmp' & j & Ht & _ & _ & Hrun & Hc).
    assert (tmp' = tmp) by congruence. subst tmp'.
    destruct (Hjournal j Hrun) as (d & Hd & Hw).
    destruct Hc as [Hc | [Hc | [Hc | (d' & Hd' & Hc)]]]; congruence.
Qed.

Lemma noFatalCondition_noFatalError (W : World) (inputZip outputZip tz : string) :
  noFatalCondition W inputZip outputZip -> noFatalError W inputZip outputZip tz.
Proof.
  intros (tmp & Htmp & Hunzip & Hstat & Hwalk & Hcreate & Hjson & Hmarshal & Hwrite).
  exists tmp. do 6 (split; [assumption |]).
  intros j _. destruct (Hmarshal j) as [d Hd]. exists d. split; [exact Hd | apply Hwrite].
Qed.

Lemma main_completes (W : World) (inputZip outputZip tz : string) (st : RunState) :
  inputZip <> "" -> outputZip <> "" -> minted st = 0%nat ->
  noFatalCondition W inputZip outputZip ->
  exists journal allMediaToCopy archive st',
    main W inputZip outputZip tz st = (Completed journal allMediaToCopy archive, st').
Proof.
  intros Hi Ho Hm H. apply main_runs_through; try assumption.
  now apply noFatalCondition_noFatalError.
Qed.

(** C5, as the specification has it, fails: the run also stops when the
    walk over the entries reports a path that cannot be read. *)
Lemma walk_error_is_fatal : ~ fatalOnlyForThree.
Proof.
  intros H.
  destruct (main Sample.unreadableWorld "in.zip" "out.zip" "UTC" initialState)
    as [out st'] eqn:E.
  assert (Hout : out = Fatal FatalWalk) by (vm_compute in E; congruence).
  subst out.
  destruct (H Sample.unreadableWorld "in.zip" "out.zip" "UTC" FatalWalk st'
              ltac:(discriminate) ltac:(discriminate) E)
    as [(tmp & Ht & Hu) | [(tmp & Ht & Hs) | [Hc | [Hc | [[j Hc] | [d Hc]]]]]].
  - discriminate Hu.
  - injection Ht as <-. vm_compute in Hs. discriminate Hs.
  - discriminate Hc.
  - discriminate Hc.
  - discriminate Hc.
  - discriminate Hc.
Qed.

(** C5, amended. The run stops with a fatal error only when the temporary
    directory cannot be created, the source archive cannot be extracted,
    the [Entries] folder is absent, the walk over it reports an error, or
    the output archive cannot be created: the output file or its
    [Journal.json] cannot be created, or the journal of the run cannot be
    marshalled or written.  When none of this holds the run is completed.
    The failures of one document, one image or one fragment are logged and
    passed over; a media file that fails is logged and does not make
    [createDayOneZip] fail, and the member already created for it stays in
    the archive, empty when the file cannot be opened and with what was
    copied when the copy fails. *)
Theorem fatal_errors_and_recoverable_failures (W : World)
    (inputZip outputZip tz : string) :
  inputZip <> "" -> outputZip <> "" ->
  (forall e st',
      main W inputZip outputZip tz initialState = (Fatal e, st') ->
      fatalCondition W inputZip outputZip tz e)
  /\ (noFatalError W inputZip outputZip tz ->
      exists journal allMediaToCopy archive st',
        main W inputZip outputZip tz initialState
        = (Completed journal allMediaToCopy archive, st'))
  /\ Recoverable W.
Proof.
  intros Hi Ho. split; [| split].
  - intros e st' H.
    exact (main_cases W inputZip outputZip tz _ st' _ Hi Ho H eq_refl).
  - intros H. now apply main_runs_through.
  - apply recoverable.
Qed.

Lemma fatal_errors_and_recoverable_failures_witness :
  ("in.zip" <> "" /\ "out.zip" <> ""
   /\ main Sample.unreadableWorld "in.zip" "out.zip" "UTC" initialState
      = (Fatal FatalWalk,
         snd (main Sample.unreadableWorld "in.zip" "out.zip" "UTC" initialState)))
  /\ fatalCondition Sample.unreadableWorld "in.zip" "out.zip" "UTC" FatalWalk.
Proof.
  assert (Hi : "in.zip" <> "") by discriminate.
  assert (Ho : "out.zip" <> "") by discriminate.
  assert (Hm : main Sample.unreadableWorld "in.zip" "out.zip" "UTC" initialState
               = (Fatal FatalWalk,
                  snd (main Sample.unreadableWorld "in.zip" "out.zip" "UTC" initialState)))
    by (vm_compute; reflexivity).
  split; [auto |].
  exact (proj1 (fatal_errors_and_recoverable_failures Sample.unreadableWorld
                  "in.zip" "out.zip" "UTC" Hi Ho) FatalWalk _ Hm).
Defined.




(** C9. The entry is tested for emptiness after the heading is put before
    the body: a document with a title, whose body has no text and no
    photo, gives an entry whose text is the heading line of the title (with
    the blank line that follows it), and the walk keeps this entry. *)
Theorem title_only_entry_is_emitted (W : World) (htmlFilePath res tz : string)
    (st : RunState) (doc : Html.Document) (t : GoTime.Time) :
  openDocument W htmlFilePath = Ok doc -> headerText doc <> "" ->
  parseAppleDate (headerText doc) = Ok t ->
  extractTitle doc htmlFilePath <> "" ->
  let body := processBody W htmlFilePath (GoTime.FormatRFC3339 t) doc
                (mkRunState (S (minted st)) (logged st)) in
  TrimSpace (builderString (es_bodyMarkdownBuilder (fst body))) = "" ->
  es_Photos (fst body) = [] ->
  exists e m,
    processEntryHTML W htmlFilePath res tz st = (Ok (e, m), snd body) /\
    DayOneEntry.Text e = heading (extractTitle doc htmlFilePath) /\
    DayOneEntry.Photos e = [] /\
    forall c col st0,
      st = withLog st0 LogProcessingEntry [wc_path c] -> wc_path c = htmlFilePath ->
      wc_err c = false -> de_isDir (wc_entry c) = false ->
      isHtmlName W (de_name (wc_entry c)) = true ->
      visit W res tz c col st0
      = (Ok (mkCollected (col_Entries col ++ [e])
               (mergeMedia m (col_allMediaToCopy col))),
         snd body).
Proof.
  intros Hdoc Hh Hp Htitle body Hbody Hphotos.
  assert (Htext : entryText (extractTitle doc htmlFilePath) (fst body)
                  = heading (extractTitle doc htmlFilePath)).
  { unfold entryText. rewrite Hbody.
    destruct (extractTitle doc htmlFilePath) as [|c s]; [now destruct Htitle |].
    reflexivity. }
  assert (Hemp : isEmptyEntry (heading (extractTitle doc htmlFilePath)) [] = false)
    by reflexivity.
  assert (Hproc : processEntryHTML W htmlFilePath res tz st
                  = (Ok (DayOneEntry.mk (token W (minted st)) (GoTime.FormatRFC3339 t)
                           (GoTime.FormatRFC3339 t)
                           (heading (extractTitle doc htmlFilePath)) false tz [],
                         es_mediaToCopy (fst body)),
                     snd body)).
  { rewrite processEntryHTML_eq, Hdoc. cbv zeta.
    destruct (headerText doc) as [|c s]; [now destruct Hh |].
    rewrite Hp. fold body. rewrite Htext, Hphotos, Hemp. reflexivity. }
  eexists _, _. split; [exact Hproc |].
  cbn [DayOneEntry.Text DayOneEntry.Photos]. do 2 (split; [reflexivity |]).
  intros c col st0 Hst Hpath Herr Hdir Hname.
  rewrite Hpath in Hst.
  rewrite visit_eq, Herr, Hdir, Hname, Hpath, <- Hst. cbv zeta. rewrite Hproc.
  cbn [fst snd DayOneEntry.Text DayOneEntry.Photos]. rewrite Hemp. reflexivity.
Qed.

Lemma title_only_entry_is_emitted_witness :
  (openDocument Sample.world Sample.titleOnlyPath = Ok Sample.titleOnlyDoc
   /\ headerText Sample.titleOnlyDoc <> ""
   /\ parseAppleDate (headerText Sample.titleOnlyDoc)
      = Ok (GoTime.Date 2025 5 16 12 0 0 0 GoTime.UTC)
   /\ extractTitle Sample.titleOnlyDoc Sample.titleOnlyPath <> "")
  /\ exists e m,
      processEntryHTML Sample.world Sample.titleOnlyPath SampleRun.resources "UTC"
        initialState
      = (Ok (e, m),
         snd (processBody Sample.world Sample.titleOnlyPath
                (GoTime.FormatRFC3339 (GoTime.Date 2025 5 16 12 0 0 0 GoTime.UTC))
                Sample.titleOnlyDoc
                (mkRunState (S (minted initialState)) (logged initialState)))) /\
      DayOneEntry.Text e = "# Only A Title" +:+ LF +:+ LF.
Proof.
  assert (H1 : openDocument Sample.world Sample.titleOnlyPath = Ok Sample.titleOnlyDoc)
    by reflexivity.
  assert (H2 : headerText Sample.titleOnlyDoc <> "") by (vm_compute; discriminate).
  assert (H3 : parseAppleDate (headerText Sample.titleOnlyDoc)
               = Ok (GoTime.Date 2025 5 16 12 0 0 0 GoTime.UTC))
    by (vm_compute; reflexivity).
  assert (H4 : extractTitle Sample.titleOnlyDoc Sample.titleOnlyPath <> "")
    by (vm_compute; discriminate).
  split; [auto |].
  destruct (title_only_entry_is_emitted Sample.world Sample.titleOnlyPath
              SampleRun.resources "UTC" initialState Sample.titleOnlyDoc _ H1 H2 H3 H4
              ltac:(vm_compute; reflexivity) ltac:(vm_compute; reflexivity))
    as (e & m & Hproc & Htext & _).
  exists e, m. split; [exact Hproc |]. rewrite Htext. vm_compute. reflexivity.
Defined.

(** C10. The destination of every copy instruction is [photos/], the
    identifier minted for the photo and the extension; hence, when the
    identifiers minted during the run are distinct, no two copy
    instructions have the same destination, be they of one entry or of two
    entries, and the destinations of the merged media map are distinct. *)
Theorem destinations_are_distinct (W : World) :
  (forall htmlFilePath date imgSel es st,
      let r := processImage W htmlFilePath date imgSel es st in
      es_mediaToCopy (fst r) = es_mediaToCopy es
      \/ exists imgSrc fileExt,
           isImageExt fileExt = true /\
           es_mediaToCopy (fst r)
           = <[resolveImage htmlFilePath imgSrc
               := "photos/" +:+ token W (minted st) +:+ fileExt]> (es_mediaToCopy es) /\
           minted (snd r) = S (minted st))
  /\ (forall inputZip outputZip tz journal allMediaToCopy archive st',
        main W inputZip outputZip tz initialState
        = (Completed journal allMediaToCopy archive, st') ->
        mintInjectiveUpTo W (minted st') ->
        (forall original dayOnePath,
            allMediaToCopy !! original = Some dayOnePath ->
            exists n fileExt,
              (n < minted st')%nat /\ isImageExt fileExt = true /\
              dayOnePath = "photos/" +:+ token W n +:+ fileExt)
        /\ distinctDestinations allMediaToCopy)
  /\ (forall htmlFilePath res tz st e m st',
        processEntryHTML W htmlFilePath res tz st = (Ok (e, m), st') ->
        mintInjectiveUpTo W (minted st') -> distinctDestinations m)
  /\ (forall path1 path2 res tz st0 st1 st1' st2 e1 e2 m1 m2 k1 k2 d1 d2,
        processEntryHTML W path1 res tz st0 = (Ok (e1, m1), st1) ->
        (minted st1 <= minted st1')%nat ->
        processEntryHTML W path2 res tz st1' = (Ok (e2, m2), st2) ->
        m1 !! k1 = Some d1 -> m2 !! k2 = Some d2 ->
        mintInjectiveUpTo W (minted st2) -> d1 <> d2).
Proof.
  split; [| split; [| split]].
  - intros htmlFilePath date imgSel es st. cbv zeta.
    destruct (processImage_cases W htmlFilePath date imgSel es st)
      as [[-> _] | (src & h & _ & Hext & -> & ->)]; [now left |].
    right. exists src, (imageExt W htmlFilePath src).
    cbn [withPhoto es_mediaToCopy]. rewrite destPath_token by exact Hext. auto.
  - intros inputZip outputZip tz journal allMediaToCopy archive st' Hmain Hinj.
    apply main_completed in Hmain. destruct Hmain as [_ Hm Hd].
    cbn [col_allMediaToCopy] in Hm, Hd. split; [| now apply Hd].
    intros k v Hk. destruct (Hm k v Hk) as (n & ext & Hn & He & ->).
    exists n, ext. rewrite destPath_token by exact He. repeat split; [lia | exact He].
  - intros htmlFilePath res tz st e m st' H Hinj.
    now apply (processEntryHTML_inv W _ _ _ _ _ _ _ H).
  - intros path1 path2 res tz st0 st1 st1' st2 e1 e2 m1 m2 k1 k2 d1 d2
      H1 Hle H2 K1 K2 Hinj.
    pose proof (processEntryHTML_inv W _ _ _ _ _ _ _ H1) as (_ & _ & M1 & _).
    pose proof (processEntryHTML_inv W _ _ _ _ _ _ _ H2) as (_ & Hlo2 & M2 & _).
    apply (mediaFrom_disjoint W (S (minted st0)) (minted st1) (S (minted st1'))
             (minted st2) (minted st2) m1 m2 k1 k2 d1 d2 Hinj); try assumption; lia.
Qed.

Lemma destinations_are_distinct_witness :
  (main Sample.world "in.zip" "out.zip" "UTC" initialState
   = (Completed SampleRun.finalJournal SampleRun.finalMedia SampleRun.finalArchive,
      SampleRun.finalState)
   /\ mintInjectiveUpTo Sample.world (minted SampleRun.finalState))
  /\ distinctDestinations SampleRun.finalMedia.
Proof.
  assert (H : main Sample.world "in.zip" "out.zip" "UTC" initialState
              = (Completed SampleRun.finalJournal SampleRun.finalMedia
                   SampleRun.finalArchive, SampleRun.finalState))
    by (vm_compute; reflexivity).
  split; [split; [exact H | exact sample_mint] |].
  exact (proj2 (proj1 (proj2 (destinations_are_distinct Sample.world))
                  _ _ _ _ _ _ _ H sample_mint)).
Defined.

(** * Further properties of the program *)

(** ** [unzip] *)

Module UnzipFacts.
Import Strings Filepath Unzip.

Example unzip_sample :
  unzip (sampleEnv sampleFiles) "in.zip" "/tmp/aj"
  = (Err (ErrIllegalPath "/etc/passwd"),
     [OpMkdirAll "/tmp/aj"; OpMkdirAll "/tmp/aj/Entries";
      OpMkdirAll "/tmp/aj/Entries"; OpOpenFile "/tmp/aj/Entries/a.html";
      OpCopy "/tmp/aj/Entries/a.html" (mkZipFile "Entries/a.html" false)]).
Proof. vm_compute. reflexivity. Qed.

Section WithEnv.
Context (E : Env).

Lemma extractFile_trace (dest : string) (f : ZipFile) (tr : list FsOp) :
  exists ops,
    snd (extractFile E dest f tr) = (tr ++ ops)%list /\
    (legal dest f = false -> ops = [] /\
       fst (extractFile E dest f tr) = Err (ErrIllegalPath (Join [dest; zf_Name f]))) /\
    (legal dest f = true ->
       Forall (within dest) ops /\
       (fst (extractFile E dest f tr) = Ok tt -> zf_isDir f = false ->
        In (OpCopy (Join [dest; zf_Name f]) f) ops)).
Proof.
  unfold extractFile, legal.
  destruct (HasPrefix (Join [dest; zf_Name f]) (Clean dest +:+ "/")) eqn:Hl; cbn [negb].
  - assert (Hu : within dest (OpOpenFile (Join [dest; zf_Name f]))) by exact Hl.
    assert (Hc : within dest (OpCopy (Join [dest; zf_Name f]) f)) by exact Hl.
    assert (Hd : within dest (OpMkdirAll (Join [dest; zf_Name f])))
      by (right; left; exact Hl).
    assert (Hp : within dest (OpMkdirAll (Dir (Join [dest; zf_Name f]))))
      by (right; right; eexists; split; [reflexivity | exact Hl]).
    destruct (zf_isDir f).
    { exists [OpMkdirAll (Join [dest; zf_Name f])]. split; [reflexivity |].
      split; [discriminate |]. intros _. split; [auto | discriminate]. }
    destruct (mkdirAllOk E tr _); cbn [negb].
    2:{ eexists [_]. split; [reflexivity |]. split; [discriminate |].
        intros _. split; [auto | discriminate]. }
    destruct (openFileOk E _ _); cbn [negb].
    2:{ eexists [_; _]. rewrite <- List.app_assoc. split; [reflexivity |].
        split; [discriminate |]. intros _. split; [auto | discriminate]. }
    destruct (memberOpenOk E _ _); cbn [negb].
    2:{ eexists [_; _]. rewrite <- List.app_assoc. split; [reflexivity |].
        split; [discriminate |]. intros _. split; [auto | discriminate]. }
    destruct (copyOk E _ _ _); cbn [negb].
    2:{ eexists [_; _; _]. rewrite <- !List.app_assoc. split; [reflexivity |].
        split; [discriminate |]. intros _. split; [auto | discriminate]. }
    eexists [_; _; _]. rewrite <- !List.app_assoc. split; [reflexivity |].
    split; [discriminate |]. intros _. split; [auto |].
    intros _ _. right. right. now left.
  - exists []. rewrite app_nil_r. split; [reflexivity |].
    split; [auto | discriminate].
Qed.

(** Extraction of one list of members after another. *)
Lemma extractAll_app (dest : string) (xs ys : list ZipFile) :
  forall tr,
    extractAll E dest (xs ++ ys) tr =
    match extractAll E dest xs tr with
    | (Ok _, tr') => extractAll E dest ys tr'
    | (Err e, tr') => (Err e, tr')
    end.
Proof.
  induction xs as [|x xs IH]; intros tr; [reflexivity |].
  cbn [extractAll app].
  destruct (extractFile E dest x tr) as [[[] | e] tr']; [apply IH | reflexivity].
Qed.

Lemma extractAll_trace (dest : string) (files : list ZipFile) :
  forall tr,
    exists ops,
      snd (extractAll E dest files tr) = (tr ++ ops)%list /\
      Forall (within dest) ops /\
      (fst (extractAll E dest files tr) = Ok tt ->
       forall f, In f files ->
         legal dest f = true /\
         (zf_isDir f = false -> In (OpCopy (Join [dest; zf_Name f]) f) ops)).
Proof.
  induction files as [|f files IH]; intros tr.
  - exists []. rewrite app_nil_r. split; [reflexivity |]. split; [constructor |].
    intros _ f [].
  - cbn [extractAll].
    destruct (extractFile_trace dest f tr) as (ops & Htr & Hill & Hleg).
    destruct (legal dest f) eqn:Hl.
    + destruct (Hleg eq_refl) as [Hw Hcopy]. clear Hill Hleg.
      destruct (extractFile E dest f tr) as [[[] | e] tr']; cbn [fst snd] in *; subst tr'.
      * destruct (IH (tr ++ ops)%list) as (ops' & Htr' & Hw' & Hok).
        exists (ops ++ ops')%list. rewrite Htr', List.app_assoc.
        split; [reflexivity |]. split; [now apply Forall_app |].
        intros Hr g [<- | Hin].
        -- split; [exact Hl |]. intros Hd. apply in_or_app. left. now apply Hcopy.
        -- destruct (Hok Hr g Hin) as [Hlg Hcg]. split; [exact Hlg |].
           intros Hd. apply in_or_app. right. now apply Hcg.
      * exists ops. split; [reflexivity |]. split; [exact Hw | discriminate].
    + destruct (Hill eq_refl) as [-> Hr]. clear Hill Hleg.
      destruct (extractFile E dest f tr) as [[[] | e] tr']; cbn [fst snd] in *;
        [discriminate Hr |].
      exists []. split; [exact Htr |]. split; [constructor | discriminate].
Qed.

End WithEnv.

End UnzipFacts.

Import Strings Filepath.

(** X1. [unzip] writes under the destination only: every file that it opens
    or copies to has a path that begins with the cleaned destination and a
    separator, and every directory that it makes is the destination, such
    a path, or the parent of such a path. *)
Theorem unzip_stays_within_destination (E : Unzip.Env) (src dest : string) :
  Forall (Unzip.within dest) (snd (Unzip.unzip E src dest)).
Proof.
  unfold Unzip.unzip.
  destruct (Unzip.zipOpenReader E src) as [files | e]; [| constructor].
  assert (Hd : Unzip.within dest (Unzip.OpMkdirAll dest)) by (now left).
  destruct (Unzip.mkdirAllOk E [] dest); cbn [negb]; [| cbn; auto].
  destruct (UnzipFacts.extractAll_trace E dest files [Unzip.OpMkdirAll dest])
    as (ops & -> & Hw & _).
  constructor; [exact Hd | exact Hw].
Qed.

(** X2. A member whose path leaves the destination stops the extraction with
    an error: the members after it are not read, and what was extracted
    before it stays. *)
Theorem unzip_stops_at_illegal_member (E : Unzip.Env) (src dest : string)
    (before after : list Unzip.ZipFile) (f : Unzip.ZipFile) :
  Unzip.zipOpenReader E src = Ok (before ++ f :: after)%list ->
  Unzip.mkdirAllOk E [] dest = true ->
  Unzip.legal dest f = false ->
  exists e,
    fst (Unzip.unzip E src dest) = Err e /\
    snd (Unzip.unzip E src dest)
    = snd (Unzip.extractAll E dest before [Unzip.OpMkdirAll dest]) /\
    (fst (Unzip.extractAll E dest before [Unzip.OpMkdirAll dest]) = Ok tt ->
     e = Unzip.ErrIllegalPath (Join [dest; Unzip.zf_Name f])).
Proof.
  intros Hopen Hmk Hill. unfold Unzip.unzip. rewrite Hopen, Hmk. cbn [negb].
  rewrite UnzipFacts.extractAll_app.
  destruct (Unzip.extractAll E dest before [Unzip.OpMkdirAll dest]) as [[[] | e] tr].
  - cbn [Unzip.extractAll].
    destruct (UnzipFacts.extractFile_trace E dest f tr) as (ops & Htr & Hi & _).
    destruct (Hi Hill) as [-> Hr]. rewrite app_nil_r in Htr.
    destruct (Unzip.extractFile E dest f tr) as [[[] | e] tr']; cbn [fst snd] in *;
      [discriminate Hr |].
    exists e. subst tr'. split; [reflexivity |]. split; [reflexivity |].
    intros _. congruence.
  - exists e. split; [reflexivity |]. split; [reflexivity | discriminate].
Qed.

Lemma unzip_stops_at_illegal_member_witness :
  (Unzip.zipOpenReader (Unzip.sampleEnv Unzip.sampleFiles) "in.zip"
   = Ok ([Unzip.mkZipFile "Entries/" true; Unzip.mkZipFile "Entries/a.html" false]
           ++ Unzip.mkZipFile "../../etc/passwd" false
              :: [Unzip.mkZipFile "Resources/b.png" false])%list
   /\ Unzip.mkdirAllOk (Unzip.sampleEnv Unzip.sampleFiles) [] "/tmp/aj" = true
   /\ Unzip.legal "/tmp/aj" (Unzip.mkZipFile "../../etc/passwd" false) = false)
  /\ exists e, fst (Unzip.unzip (Unzip.sampleEnv Unzip.sampleFiles) "in.zip" "/tmp/aj") = Err e.
Proof.
  assert (H1 : Unzip.zipOpenReader (Unzip.sampleEnv Unzip.sampleFiles) "in.zip"
               = Ok ([Unzip.mkZipFile "Entries/" true;
                      Unzip.mkZipFile "Entries/a.html" false]
                       ++ Unzip.mkZipFile "../../etc/passwd" false
                          :: [Unzip.mkZipFile "Resources/b.png" false])%list)
    by reflexivity.
  assert (H2 : Unzip.mkdirAllOk (Unzip.sampleEnv Unzip.sampleFiles) [] "/tmp/aj" = true)
    by reflexivity.
  assert (H3 : Unzip.legal "/tmp/aj" (Unzip.mkZipFile "../../etc/passwd" false) = false)
    by (vm_compute; reflexivity).
  split; [auto |].
  destruct (unzip_stops_at_illegal_member (Unzip.sampleEnv Unzip.sampleFiles)
              "in.zip" "/tmp/aj" _ _ _ H1 H2 H3) as (e & He & _).
  now exists e.
Defined.

(** X3. When [unzip] returns no error, every member passed the test of its
    path and every member that is not a directory was copied to its path
    under the destination. *)
Theorem unzip_success_extracts_every_file (E : Unzip.Env) (src dest : string)
    (files : list Unzip.ZipFile) :
  Unzip.zipOpenReader E src = Ok files ->
  fst (Unzip.unzip E src dest) = Ok tt ->
  forall f, In f files ->
    Unzip.legal dest f = true /\
    (Unzip.zf_isDir f = false ->
     In (Unzip.OpCopy (Join [dest; Unzip.zf_Name f]) f) (snd (Unzip.unzip E src dest))).
Proof.
  intros Hopen. unfold Unzip.unzip. rewrite Hopen.
  destruct (Unzip.mkdirAllOk E [] dest); cbn [negb]; [| discriminate].
  destruct (UnzipFacts.extractAll_trace E dest files [Unzip.OpMkdirAll dest])
    as (ops & Htr & _ & Hok).
  intros Hr f Hin. destruct (Hok Hr f Hin) as [Hl Hc]. split; [exact Hl |].
  intros Hd. rewrite Htr. apply in_or_app. right. now apply Hc.
Qed.

Lemma unzip_success_extracts_every_file_witness :
  (Unzip.zipOpenReader (Unzip.sampleEnv [Unzip.mkZipFile "Entries/a.html" false]) "in.zip"
   = Ok [Unzip.mkZipFile "Entries/a.html" false]
   /\ fst (Unzip.unzip (Unzip.sampleEnv [Unzip.mkZipFile "Entries/a.html" false])
             "in.zip" "/tmp/aj") = Ok tt)
  /\ In (Unzip.OpCopy "/tmp/aj/Entries/a.html" (Unzip.mkZipFile "Entries/a.html" false))
       (snd (Unzip.unzip (Unzip.sampleEnv [Unzip.mkZipFile "Entries/a.html" false])
               "in.zip" "/tmp/aj")).
Proof.
  assert (H1 : Unzip.zipOpenReader
                 (Unzip.sampleEnv [Unzip.mkZipFile "Entries/a.html" false]) "in.zip"
               = Ok [Unzip.mkZipFile "Entries/a.html" false]) by reflexivity.
  assert (H2 : fst (Unzip.unzip (Unzip.sampleEnv [Unzip.mkZipFile "Entries/a.html" false])
                      "in.zip" "/tmp/aj") = Ok tt) by (vm_compute; reflexivity).
  split; [auto |].
  exact (proj2 (unzip_success_extracts_every_file _ _ _ _ H1 H2
                  (Unzip.mkZipFile "Entries/a.html" false) ltac:(now left)) eq_refl).
Defined.

(** X4. The directories of the archive never make [unzip] fail: the error of
    [os.MkdirAll] is dropped for a member that is a directory. *)
Theorem unzip_ignores_directory_errors (E : Unzip.Env) (src dest : string)
    (files : list Unzip.ZipFile) :
  Unzip.zipOpenReader E src = Ok files ->
  Unzip.mkdirAllOk E [] dest = true ->
  Forall (fun f => Unzip.zf_isDir f = true /\ Unzip.legal dest f = true) files ->
  Unzip.unzip E src dest
  = (Ok tt,
     Unzip.OpMkdirAll dest
       :: map (fun f => Unzip.OpMkdirAll (Join [dest; Unzip.zf_Name f])) files).
Proof.
  intros Hopen Hmk Hall. unfold Unzip.unzip. rewrite Hopen, Hmk. cbn [negb].
  clear Hopen Hmk.
  change (Unzip.OpMkdirAll dest
            :: map (fun f => Unzip.OpMkdirAll (Join [dest; Unzip.zf_Name f])) files)
    with ([Unzip.OpMkdirAll dest]
            ++ map (fun f => Unzip.OpMkdirAll (Join [dest; Unzip.zf_Name f])) files)%list.
  generalize [Unzip.OpMkdirAll dest]. induction Hall as [|f files [Hd Hl] _ IH]; intros tr.
  - cbn. now rewrite app_nil_r.
  - cbn [Unzip.extractAll map]. unfold Unzip.extractFile.
    unfold Unzip.legal in Hl. rewrite Hl, Hd. cbn [negb].
    rewrite IH, <- List.app_assoc. reflexivity.
Qed.

Lemma unzip_ignores_directory_errors_witness :
  (Unzip.zipOpenReader (Unzip.sampleEnv [Unzip.mkZipFile "Entries/" true]) "in.zip"
   = Ok [Unzip.mkZipFile "Entries/" true]
   /\ Unzip.mkdirAllOk (Unzip.sampleEnv [Unzip.mkZipFile "Entries/" true]) [] "/tmp/aj" = true
   /\ Forall (fun f => Unzip.zf_isDir f = true /\ Unzip.legal "/tmp/aj" f = true)
        [Unzip.mkZipFile "Entries/" true])
  /\ Unzip.unzip (Unzip.sampleEnv [Unzip.mkZipFile "Entries/" true]) "in.zip" "/tmp/aj"
     = (Ok tt, [Unzip.OpMkdirAll "/tmp/aj"; Unzip.OpMkdirAll "/tmp/aj/Entries"]).
Proof.
  assert (H1 : Unzip.zipOpenReader (Unzip.sampleEnv [Unzip.mkZipFile "Entries/" true])
                 "in.zip" = Ok [Unzip.mkZipFile "Entries/" true]) by reflexivity.
  assert (H2 : Unzip.mkdirAllOk (Unzip.sampleEnv [Unzip.mkZipFile "Entries/" true]) []
                 "/tmp/aj" = true) by reflexivity.
  assert (H3 : Forall (fun f => Unzip.zf_isDir f = true /\ Unzip.legal "/tmp/aj" f = true)
                 [Unzip.mkZipFile "Entries/" true])
    by (constructor; [split; [reflexivity | vm_compute; reflexivity] | constructor]).
  split; [auto |].
  exact (unzip_ignores_directory_errors _ _ _ _ H1 H2 H3).
Defined.

(** ** Identifiers, digests and dates *)

Module TextFacts.
Import Strings GoTime AppleDate ProofDefs Shapes.
Import StringFacts DateFacts IdentFacts.
Local Open Scope Z_scope.

#[local] Arguments String.append : simpl nomatch.

Lemma hexByte_lower (b : ascii) (s : string) :
  allBytes isLowerHexByte (Uuid.hexByte b +:+ s) = allBytes isLowerHexByte s.
Proof. by_byte b. Qed.

Lemma hexByte_length (b : ascii) (s : string) :
  String.length (Uuid.hexByte b +:+ s) = S (S (String.length s)).
Proof. by_byte b. Qed.

Lemma hexString_shape (digest : string) :
  String.length (Uuid.hexString digest) = (2 * String.length digest)%nat /\
  allBytes isLowerHexByte (Uuid.hexString digest) = true.
Proof.
  induction digest as [|b digest [IHl IHa]]; [now split |].
  cbn [Uuid.hexString]. rewrite hexByte_length, hexByte_lower, IHl.
  split; [cbn [String.length]; lia | exact IHa].
Qed.

(** *** Separators *)

Lemma Contains_char_app (c : ascii) (a b : string) :
  Contains (a +:+ b) (String c "") = Contains a (String c "") || Contains b (String c "").
Proof.
  induction a as [|x a IH].
  - cbn [String.append Contains HasPrefix]. reflexivity.
  - cbn [String.append Contains HasPrefix]. rewrite IH.
    rewrite !andb_true_r. destruct (Ascii.eqb c x); reflexivity.
Qed.

Lemma Contains_comma_digit (n : Z) (s : string) :
  Contains (String (digitChar n) s) "," = Contains s ",".
Proof.
  rewrite (digitChar_mod n).
  destruct (digit_cases n) as [E|[E|[E|[E|[E|[E|[E|[E|[E|E]]]]]]]]];
    rewrite E; reflexivity.
Qed.

Lemma Contains_comma_dayText (d : Z) : Contains (dayText d) "," = false.
Proof.
  unfold dayText. destruct (d <? 10); rewrite !Contains_comma_digit; reflexivity.
Qed.

Lemma Contains_comma_monthText (short : bool) (m : Z) :
  Contains (monthText short m) "," = false.
Proof.
  unfold monthText.
  assert (H : forall tab, forallb (fun s => negb (Contains s ",")) tab = true ->
              forall i, Contains (nth i tab ""%string) "," = false).
  { intros tab Htab i. destruct (nth_in_or_default i tab ""%string) as [Hin | ->];
      [| reflexivity].
    rewrite forallb_forall in Htab. apply negb_true_iff. now apply Htab. }
  destruct short; apply H; reflexivity.
Qed.

(** *** A date without the day of the week *)

Lemma lookup_digit (tab : list string) (n : Z) (s : string) :
  forallb (fun name => match name with
                       | EmptyString => false
                       | String c _ => negb (isDigit c) && negb (isDigit (lowerByte c))
                       end) tab = true ->
  forall i, lookup i tab (String (digitChar n) s) = Err errBad.
Proof.
  induction tab as [|name tab IH]; intros Htab i; [reflexivity |].
  cbn [forallb] in Htab. apply andb_prop in Htab. destruct Htab as [Hname Htab].
  cbn [lookup]. destruct name as [|c name]; [discriminate Hname |].
  cbn [matchPrefix].
  assert (Hc : matchByte (digitChar n) c = false).
  { clear -Hname. rewrite (digitChar_mod n).
    destruct (digit_cases n) as [E|[E|[E|[E|[E|[E|[E|[E|[E|E]]]]]]]]]; rewrite E;
      destruct c as [[] [] [] [] [] [] [] []]; try reflexivity; discriminate Hname. }
  rewrite Hc. now apply IH.
Qed.

Lemma parseLayouts_year (y : Z) :
  exists e, parseLayouts layouts (yearText y) None = Err e.
Proof.
  cbn [parseLayouts layouts]. rewrite Parse_long, Parse_short.
  unfold parseMonthDayYear. rewrite yearText_digits.
  rewrite !lookup_digit by reflexivity. eauto.
Qed.

(** *** A day that the month does not have *)

Lemma short_of_long (m : Z) (rest : string) :
  1 <= m <= 12 -> m <> 5 ->
  parseMonthDayYear shortMonthNames (monthText false m +:+ String " " rest) = Err errBad.
Proof.
  intros Hm H5.
  destruct (month_cases _ Hm) as [E|[E|[E|[E|[E|[E|[E|[E|[E|[E|[E|E]]]]]]]]]]];
    subst; try (vm_compute; reflexivity). now destruct H5.
Qed.

Lemma long_of_short (m : Z) (rest : string) :
  1 <= m <= 12 -> m <> 5 ->
  parseMonthDayYear longMonthNames (monthText true m +:+ String " " rest) = Err errBad.
Proof.
  intros Hm H5. unfold parseMonthDayYear. now rewrite lookup_long_short.
Qed.

Lemma daysIn_May (y : Z) : daysIn 5 y = 31.
Proof. reflexivity. Qed.

Lemma parseLayouts_day_out_of_range (short : bool) (m d y : Z) :
  1 <= m <= 12 -> daysIn m y < d <= 31 -> 0 <= y <= 9999 ->
  exists e, parseLayouts layouts (dateText short m d y) None = Err e.
Proof.
  intros Hm Hd Hy.
  assert (H5 : m <> 5) by (intros ->; rewrite daysIn_May in Hd; lia).
  assert (H1 : 1 <= d <= 31).
  { split; [| lia]. assert (28 <= daysIn m y); [| lia]. unfold daysIn.
    repeat match goal with |- context [if ?b then _ else _] => destruct b end; lia. }
  assert (Hday : ((d <? 1) || (daysIn m y <? d)) = true).
  { apply orb_true_iff. right. apply Z.ltb_lt. lia. }
  cbn [parseLayouts layouts]. rewrite Parse_long, Parse_short.
  destruct short.
  - rewrite (parseMonthDayYear_dateText true m d y Hm H1 Hy).
    cbn [f_day f_month f_year]. rewrite Hday.
    unfold dateText. change (" " +:+ ?s) with (String " " s).
    rewrite (long_of_short m _ Hm H5). eauto.
  - rewrite (parseMonthDayYear_dateText false m d y Hm H1 Hy).
    cbn [f_day f_month f_year]. rewrite Hday.
    unfold dateText. change (" " +:+ ?s) with (String " " s).
    rewrite (short_of_long m _ Hm H5). eauto.
Qed.

(** *** The text of the creation date *)

Lemma numDigits_le (fuel : nat) :
  forall (n : Z) (k : nat),
    0 <= n < 10 ^ Z.of_nat (S k) -> (numDigits fuel n <= S k)%nat.
Proof.
  induction fuel as [|fuel IH]; intros n k Hn; cbn [numDigits]; [lia |].
  destruct (n <? 10) eqn:E; [lia |]. apply Z.ltb_ge in E.
  destruct k as [|k]; [change (10 ^ Z.of_nat 1) with 10 in Hn; lia |].
  apply le_n_S. apply IH. split; [apply Z.div_pos; lia |].
  apply Z.div_lt_upper_bound; [lia |].
  replace (Z.of_nat (S (S k))) with (Z.succ (Z.of_nat (S k))) in Hn by lia.
  rewrite Z.pow_succ_r in Hn by lia. lia.
Qed.

Lemma appendInt_width (x : Z) (k : nat) :
  0 <= x < 10 ^ Z.of_nat (S k) -> appendInt x (S k) = appendDigits (S k) x "".
Proof.
  intros Hx. unfold appendInt.
  assert (Hneg : (x <? 0) = false) by (apply Z.ltb_ge; lia). rewrite Hneg.
  rewrite Z.abs_eq by lia.
  pose proof (numDigits_le (Z.to_nat (Z.log2 x)) x k Hx) as Hn.
  rewrite (Nat.max_l (S k)) by exact Hn. reflexivity.
Qed.

Lemma FormatRFC3339_noon (y m d : Z) :
  1 <= m <= 12 -> 1 <= d <= daysIn m y -> 0 <= y <= 9999 ->
  FormatRFC3339 (Date y m d 12 0 0 0 UTC) = isoNoon y m d.
Proof.
  intros Hm Hd Hy. pose proof (daysIn_le_31 m y) as H31.
  destruct (Calendar.Date_fields y m d 12 0 0 UTC Hm Hd ltac:(lia) ltac:(lia) ltac:(lia))
    as (HY & HM & HD & HH & HMi & HS & _ & HL).
  unfold FormatRFC3339. rewrite HY, HM, HD, HH, HMi, HS, HL.
  rewrite (appendInt_width y 3) by (change (10 ^ Z.of_nat 4) with 10000; lia).
  rewrite (appendInt_width m 1) by (change (10 ^ Z.of_nat 2) with 100; lia).
  rewrite (appendInt_width d 1) by (change (10 ^ Z.of_nat 2) with 100; lia).
  reflexivity.
Qed.

End TextFacts.

Import Strings ProofDefs.

(** X5. [newDayOneUUID] returns 32 hexadecimal digits in upper case, without
    the dashes of the UUID, and uses up one identifier of the source. *)
Theorem newDayOneUUID_is_32_hex_digits (W : World) (st : RunState) :
  String.length (fst (newDayOneUUID W st)) = 32%nat
  /\ allBytes isUpperHexByte (fst (newDayOneUUID W st)) = true
  /\ snd (newDayOneUUID W st) = mkRunState (S (minted st)) (logged st).
Proof.
  rewrite IdentFacts.newDayOneUUID_eq. cbn [fst snd]. rewrite IdentFacts.token_eq.
  split; [apply IdentFacts.tokenOf_length |]. split; [apply IdentFacts.tokenOf_hex |].
  reflexivity.
Qed.

(** X6. [calculateMD5] returns the error of the file that cannot be read, and
    else the digest in hexadecimal: two digits in lower case for each byte
    of the digest. *)
Theorem calculateMD5_is_lower_hex (W : World) (filePath : string) :
  match readFile W filePath with
  | Err e => calculateMD5 W filePath = Err e
  | Ok content =>
      exists md5Hash,
        calculateMD5 W filePath = Ok md5Hash /\
        String.length md5Hash = (2 * String.length (md5sum W content))%nat /\
        allBytes Shapes.isLowerHexByte md5Hash = true
  end.
Proof.
  unfold calculateMD5. destruct (readFile W filePath) as [content | e]; [| reflexivity].
  exists (Uuid.hexString (md5sum W content)). split; [reflexivity |].
  apply TextFacts.hexString_shape.
Qed.

(** X7. A date without the day of the week, such as "May 14, 2025", is not
    understood: what precedes the first comma is dropped, and the year that
    is left is no date. *)
Theorem parseAppleDate_needs_the_weekday (short : bool) (m d y : Z) :
  exists e, parseAppleDate (AppleDate.dateText short m d y) = Err e.
Proof.
  unfold parseAppleDate, AppleDate.dateText.
  change (AppleDate.monthText short m +:+ " " +:+ AppleDate.dayText d +:+ ", "
          +:+ AppleDate.yearText y)
    with (AppleDate.monthText short m +:+ " " +:+ AppleDate.dayText d
          +:+ String "," (String " " (AppleDate.yearText y))).
  rewrite <- !StringFacts.app_assoc.
  rewrite (StringFacts.SplitN2_first ","
             ((AppleDate.monthText short m +:+ " ") +:+ AppleDate.dayText d)).
  - rewrite StringFacts.TrimSpace_space_plain.
    + apply TextFacts.parseLayouts_year.
    + rewrite DateFacts.yearText_digits. apply DateFacts.plainByte_digitChar.
    + rewrite DateFacts.yearText_digits, !StringFacts.reverse_cons.
      apply DateFacts.plainByte_digitChar.
  - rewrite !TextFacts.Contains_char_app, TextFacts.Contains_comma_monthText,
      TextFacts.Contains_comma_dayText.
    reflexivity.
Qed.

(** X8. A day that the month does not have, such as February 30, is an
    error, whichever the layout. *)
Theorem parseAppleDate_day_out_of_range (weekday : string) (short : bool) (m d y : Z) :
  Contains weekday "," = false ->
  (1 <= m <= 12)%Z -> (GoTime.daysIn m y < d <= 31)%Z -> (0 <= y <= 9999)%Z ->
  exists e, parseAppleDate (AppleDate.header weekday short m d y) = Err e.
Proof.
  intros Hw Hm Hd Hy. unfold parseAppleDate, AppleDate.header.
  change (weekday +:+ ", " +:+ AppleDate.dateText short m d y)
    with (weekday +:+ String "," (String " " (AppleDate.dateText short m d y))).
  rewrite (StringFacts.SplitN2_first "," weekday _ Hw).
  rewrite StringFacts.TrimSpace_space_plain.
  - now apply TextFacts.parseLayouts_day_out_of_range.
  - unfold AppleDate.dateText. now apply DateFacts.firstPlain_monthText.
  - apply DateFacts.firstPlain_reverse_dateText.
Qed.

Lemma parseAppleDate_day_out_of_range_witness :
  (Contains "Friday" "," = false /\ (1 <= 2 <= 12)%Z /\ (GoTime.daysIn 2 2024 < 30 <= 31)%Z
   /\ (0 <= 2024 <= 9999)%Z)
  /\ exists e, parseAppleDate "Friday, February 30, 2024" = Err e.
Proof.
  assert (H1 : Contains "Friday" "," = false) by reflexivity.
  assert (H2 : (1 <= 2 <= 12)%Z) by lia.
  assert (H3 : (GoTime.daysIn 2 2024 < 30 <= 31)%Z) by (vm_compute; split; [reflexivity | discriminate]).
  assert (H4 : (0 <= 2024 <= 9999)%Z) by lia.
  split; [auto |].
  exact (parseAppleDate_day_out_of_range "Friday" false 2 30 2024 H1 H2 H3 H4).
Defined.

(** X9. The creation date of an entry is the date of its header at noon in
    UTC, written year-month-day on 4, 2 and 2 digits and followed by
    [T12:00:00Z]; the modification date is the same text. *)
Theorem creation_date_is_iso_noon (weekday : string) (short : bool) (m d y : Z) :
  Contains weekday "," = false ->
  (1 <= m <= 12)%Z -> (1 <= d <= GoTime.daysIn m y)%Z -> (0 <= y <= 9999)%Z ->
  (exists t,
      parseAppleDate (AppleDate.header weekday short m d y) = Ok t /\
      GoTime.FormatRFC3339 t = Shapes.isoNoon y m d)
  /\ (forall W htmlFilePath res tz st st' doc e media,
        openDocument W htmlFilePath = Ok doc ->
        headerText doc = AppleDate.header weekday short m d y ->
        processEntryHTML W htmlFilePath res tz st = (Ok (e, media), st') ->
        DayOneEntry.CreationDate e = Shapes.isoNoon y m d /\
        DayOneEntry.ModifiedDate e = Shapes.isoNoon y m d).
Proof.
  intros Hw Hm Hd Hy.
  pose proof (DateFacts.parseAppleDate_header weekday short m d y Hw Hm Hd Hy) as Hp.
  pose proof (TextFacts.FormatRFC3339_noon y m d Hm Hd Hy) as Hf.
  split; [eauto |].
  intros W htmlFilePath res tz st st' doc e media Hdoc Hh H.
  apply RunFacts.processEntryHTML_Ok in H.
  destruct H as (doc' & t & Hdoc' & _ & Ht & H). cbv zeta in H.
  destruct H as (_ & -> & _).
  assert (doc' = doc) by congruence. subst doc'.
  rewrite Hh, Hp in Ht. injection Ht as <-.
  cbn [DayOneEntry.CreationDate DayOneEntry.ModifiedDate]. now rewrite Hf.
Qed.

Lemma creation_date_is_iso_noon_witness :
  (Contains "Wednesday" "," = false /\ (1 <= 5 <= 12)%Z /\ (1 <= 4 <= GoTime.daysIn 5 2025)%Z
   /\ (0 <= 2025 <= 9999)%Z)
  /\ exists t,
      parseAppleDate "Wednesday, May 4, 2025" = Ok t /\
      GoTime.FormatRFC3339 t = "2025-05-04T12:00:00Z".
Proof.
  assert (H1 : Contains "Wednesday" "," = false) by reflexivity.
  assert (H2 : (1 <= 5 <= 12)%Z) by lia.
  assert (H3 : (1 <= 4 <= GoTime.daysIn 5 2025)%Z) by (vm_compute; split; discriminate).
  assert (H4 : (0 <= 2025 <= 9999)%Z) by lia.
  split; [auto |].
  exact (proj1 (creation_date_is_iso_noon "Wednesday" false 5 4 2025 H1 H2 H3 H4)).
Defined.

(** ** The body of an entry *)

Module BodyFacts.
Import Strings Filepath ProofDefs Body.
Import IdentFacts EntryFacts.

Section WithWorld.
Context (W : World) (htmlFilePath date : string).

Lemma foldM_preserves {A : Type} (f : A -> EntryState -> M EntryState)
    (I : EntryState -> Prop) (l : list A) :
  (forall a es st, In a l -> I es -> I (fst (f a es st))) ->
  forall es st, I es -> I (fst (foldM f l es st)).
Proof.
  induction l as [|a l IH]; intros Hf es st Hes; [exact Hes |].
  cbn [foldM]. unfold bind.
  pose proof (Hf a es st (or_introl eq_refl) Hes) as Ha.
  destruct (f a es st) as [es' st']. apply IH; [| exact Ha].
  intros b es0 st0 Hin. apply Hf. now right.
Qed.


Section Steps.
Context (I : EntryState -> Prop).
Hypothesis Hconv :
  forall es st, I es -> I (fst (convertAndAppendP W htmlFilePath es st)).
Hypothesis Hwrite :
  forall n es st,
    I es ->
    I (fst (convertAndAppendP W htmlFilePath (writeP (outerHtmlOrEmpty W n) es) st)).

(** What the steps of the walk over the body keep, the treatment of
    one child of the page container keeps. *)
Lemma processChild_preserves (s : Html.Located) :
  (Html.Is s Html.sel_pageHeader = false -> Html.Is s Html.sel_title = false ->
   Html.Is s Html.sel_assetGrid = true ->
   forall img es st,
     In img (Html.Find s Html.sel_photo_img) ->
     I es -> I (fst (processImage W htmlFilePath date img es st))) ->
  forall es st, I es -> I (fst (processChild W htmlFilePath date s es st)).
Proof.
  intros Himg es st0 Hes. unfold processChild.
  destruct (Html.Is s Html.sel_pageHeader); [exact Hes |].
  destruct (Html.Is s Html.sel_title); [exact Hes |].
  destruct (Html.Is s Html.sel_assetGrid).
  - unfold bind. specialize (Hconv es st0 Hes).
    destruct (convertAndAppendP W htmlFilePath es st0) as [es1 st1].
    apply foldM_preserves; [| exact Hconv].
    intros img es' st' Hin. now apply Himg.
  - destruct (outerHtml W (fst s)) as [html | e] eqn:Hhtml; [| exact Hes].
    assert (Eh : html = outerHtmlOrEmpty W (fst s))
      by (unfold outerHtmlOrEmpty; now rewrite Hhtml).
    assert (Heach : forall sel es st,
               I es -> I (fst (appendEach W htmlFilePath sel es st))).
    { intros sel es' st' H. unfold appendEach. apply foldM_preserves; [| exact H].
      intros l es'' st'' _ H'. now apply Hwrite. }
    destruct (Html.Is s Html.sel_p || Html.Is s Html.sel_bodyText
              || Html.ParentIs s Html.sel_bodyText).
    { rewrite Eh. now apply Hwrite. }
    destruct (0 <? length (Html.Find s Html.sel_bodyText))%nat; [now apply Heach |].
    destruct (0 <? length (Html.Find s Html.sel_p))%nat; [now apply Heach |].
    exact Hes.
Qed.

(** And so does the walk over the body of a document, where only the
    images of the document are met. *)
Lemma processBody_preserves (doc : Html.Document) :
  (forall s img es st,
      In s (Html.Children (Html.docFind doc Html.sel_pageContainer)) ->
      Html.Is s Html.sel_pageHeader = false -> Html.Is s Html.sel_title = false ->
      Html.Is s Html.sel_assetGrid = true ->
      In img (Html.Find s Html.sel_photo_img) ->
      I es -> I (fst (processImage W htmlFilePath date img es st))) ->
  I (mkEntryState [] ∅ [] "") ->
  forall st, I (fst (processBody W htmlFilePath date doc st)).
Proof.
  intros Himg Hinit st. unfold processBody, bind.
  assert (H : I (fst (foldM (processChild W htmlFilePath date)
                        (Html.Children (Html.docFind doc Html.sel_pageContainer))
                        (mkEntryState [] ∅ [] "") st))).
  { apply foldM_preserves; [| exact Hinit].
    intros s es st0 Hin. apply processChild_preserves.
    intros H1 H2 H3 img es' st' Himgin. now apply (Himg s). }
  destruct (foldM _ _ _ st) as [es st']. now apply Hconv.
Qed.

End Steps.

Lemma photoFrom_insert (doc : Html.Document) (media : gmap string string)
    (k v : string) (p : DayOnePhoto.t) :
  photoFrom W doc htmlFilePath date media p ->
  photoFrom W doc htmlFilePath date (<[k := v]> media) p.
Proof.
  intros (src & Hi & He & Ht & Hs & Hm & Hd & Hk).
  exists src. repeat split; try assumption.
  destruct (decide (k = resolveImage htmlFilePath src)) as [-> | Hne].
  - rewrite lookup_insert_eq. eauto.
  - rewrite lookup_insert_ne by exact Hne. exact Hk.
Qed.

Lemma instructionFrom_more (doc : Html.Document) (photos more : list DayOnePhoto.t)
    (k v : string) :
  instructionFrom W doc htmlFilePath photos k v ->
  instructionFrom W doc htmlFilePath (photos ++ more) k v.
Proof.
  intros (src & p & Hi & Hk & He & Hs & Hin & Hm & Ht & Hv).
  exists src, p. repeat split; try assumption. apply in_or_app. now left.
Qed.

Lemma BodyInv_processImage (doc : Html.Document) (s img : Html.Located)
    (es : EntryState) (st : RunState) :
  In s (Html.Children (Html.docFind doc Html.sel_pageContainer)) ->
  Html.Is s Html.sel_pageHeader = false -> Html.Is s Html.sel_title = false ->
  Html.Is s Html.sel_assetGrid = true ->
  In img (Html.Find s Html.sel_photo_img) ->
  BodyInv W doc htmlFilePath date es ->
  BodyInv W doc htmlFilePath date (fst (processImage W htmlFilePath date img es st)).
Proof.
  intros Hs H1 H2 H3 Himg Hinv. rewrite processImage_eq.
  destruct (Html.Attr img "src") as [[|c src]|] eqn:Hattr; try exact Hinv.
  cbv zeta. set (imgSrc := String c src) in *.
  assert (Hof : imageOf doc imgSrc).
  { exists s, img. repeat split; try assumption. discriminate. }
  destruct (isImageExt (imageExt W htmlFilePath imgSrc)) eqn:Hext; cbn [negb];
    [| exact Hinv].
  assert (Hcase : forall md5Hash,
             stat W (resolveImage htmlFilePath imgSrc) <> StatNotExist ->
             calculateMD5 W (resolveImage htmlFilePath imgSrc) = Ok md5Hash ->
             BodyInv W doc htmlFilePath date
               (withPhoto es
                  (DayOnePhoto.mk md5Hash (TrimPrefix (imageExt W htmlFilePath imgSrc) ".")
                     (token W (minted st)) date)
                  (resolveImage htmlFilePath imgSrc)
                  (destPath (token W (minted st)) (imageExt W htmlFilePath imgSrc)))).
  { intros h Hstat Hmd5. destruct Hinv as [Hp Hm Hc Hb Hpc].
    split; cbn [withPhoto es_Photos es_mediaToCopy es_currentPContent
                  es_bodyMarkdownBuilder DayOnePhoto.Identifier].
    - apply Forall_app. split.
      + eapply Forall_impl; [exact Hp |]. intros p. apply photoFrom_insert.
      + constructor; [| constructor]. exists imgSrc.
        cbn [DayOnePhoto.Type_ DayOnePhoto.MD5 DayOnePhoto.CreationDate].
        repeat split; try assumption. rewrite lookup_insert_eq. eauto.
    - intros k v Hk.
      destruct (decide (resolveImage htmlFilePath imgSrc = k)) as [<- | Hne].
      + rewrite lookup_insert_eq in Hk. injection Hk as <-.
        exists imgSrc, (DayOnePhoto.mk h (TrimPrefix (imageExt W htmlFilePath imgSrc) ".")
                          (token W (minted st)) date).
        cbn [DayOnePhoto.Type_ DayOnePhoto.MD5 DayOnePhoto.Identifier].
        repeat split; try assumption. apply in_or_app. right. now left.
      + rewrite lookup_insert_ne in Hk by exact Hne.
        apply instructionFrom_more. now apply Hm.
    - rewrite map_size_insert, List.length_app. cbn [length].
      destruct (es_mediaToCopy es !! resolveImage htmlFilePath imgSrc); cbn; lia.
    - exact Hb.
    - unfold WriteString. apply Forall_app. split; [exact Hpc |].
      constructor; [exact I | constructor]. }
  destruct (stat W (resolveImage htmlFilePath imgSrc)) eqn:Hstat;
    [| exact Hinv |];
    (destruct (calculateMD5 W (resolveImage htmlFilePath imgSrc)) as [h | e] eqn:Hmd5;
     [| exact Hinv]);
    cbn [fst]; apply Hcase; try reflexivity; discriminate.
Qed.

Lemma BodyInv_convert (doc : Html.Document) (n : option Html.Node) (es : EntryState)
    (st : RunState) :
  BodyInv W doc htmlFilePath date es ->
  let es1 := match n with
             | Some n => writeP (outerHtmlOrEmpty W n) es
             | None => es
             end in
  BodyInv W doc htmlFilePath date (fst (convertAndAppendP W htmlFilePath es1 st)).
Proof.
  intros [Hp Hm Hc Hb Hpc]. cbv zeta.
  assert (Hes1 : forall html,
             (html = "" \/ exists n, html = outerHtmlOrEmpty W n) ->
             BodyInv W doc htmlFilePath date
               (fst (convertAndAppendP W htmlFilePath
                       (mkEntryState (es_Photos es) (es_mediaToCopy es)
                          (es_bodyMarkdownBuilder es) html) st))).
  { intros html Hhtml. unfold convertAndAppendP. cbn [es_currentPContent].
    destruct html as [|c s] eqn:Eh; [cbn [fst ret]; now split |].
    rewrite <- Eh in *.
    destruct Hhtml as [Hhtml | [node Hnode]]; [congruence |].
    destruct (convertString W html) as [md | e] eqn:Hconv.
    - cbn [fst ret]. split; cbn [es_Photos es_mediaToCopy es_currentPContent
                                   es_bodyMarkdownBuilder]; try assumption; try reflexivity.
      unfold WriteString. apply Forall_app. split; [exact Hpc |].
      constructor; [| constructor]. exists node, md. rewrite <- Hnode.
      repeat split; [congruence | exact Hconv].
    - unfold bind, logPrintf, ret. cbn [fst].
      split; cbn [es_Photos es_mediaToCopy es_currentPContent
                    es_bodyMarkdownBuilder]; try assumption; reflexivity. }
  destruct n as [node|].
  - unfold writeP. rewrite Hb. apply Hes1. right. now exists node.
  - destruct es as [ph me bu cu]. cbn in Hb. subst cu. apply Hes1. now left.
Qed.

Lemma BodyInv_init (doc : Html.Document) :
  BodyInv W doc htmlFilePath date (mkEntryState [] ∅ [] "").
Proof.
  split; cbn.
  - constructor.
  - intros k v Hk. rewrite lookup_empty in Hk. discriminate Hk.
  - rewrite map_size_empty. lia.
  - reflexivity.
  - constructor.
Qed.

Lemma processBody_BodyInv (doc : Html.Document) (st : RunState) :
  BodyInv W doc htmlFilePath date (fst (processBody W htmlFilePath date doc st)).
Proof.
  apply processBody_preserves.
  - intros es st0 H. exact (BodyInv_convert doc None es st0 H).
  - intros n es st0 H. exact (BodyInv_convert doc (Some n) es st0 H).
  - intros s img es st0. apply BodyInv_processImage.
  - apply BodyInv_init.
Qed.

(** *** The images that are recorded *)




End WithWorld.

Lemma imageType_allowed (ext : string) :
  isImageExt ext = true -> In (TrimPrefix ext ".") imageTypes.
Proof.
  intros H. destruct (isImageExt_cases ext H) as [->|[->|[->| ->]]]; cbn; auto.
Qed.

(** The destination of a photo, as the path of its file. *)
Lemma destPath_photoPath (W : World) (p : DayOnePhoto.t) (i : nat) (ext : string) :
  DayOnePhoto.Identifier p = token W i -> isImageExt ext = true ->
  DayOnePhoto.Type_ p = TrimPrefix ext "." ->
  destPath (DayOnePhoto.Identifier p) ext = photoPath p.
Proof.
  intros Hid He Hty. rewrite Hid, (destPath_token W i ext He).
  unfold photoPath. rewrite Hid, Hty.
  destruct (isImageExt_cases ext He) as [->|[->|[->| ->]]]; reflexivity.
Qed.

(** The body behind an entry that is returned, with what is known of
    it. *)
Lemma processEntryHTML_body (W : World) (path res tz : string) (st st' : RunState)
    (e : DayOneEntry.t) (m : gmap string string) :
  processEntryHTML W path res tz st = (Ok (e, m), st') ->
  exists doc body,
    openDocument W path = Ok doc /\
    processBody W path (DayOneEntry.CreationDate e) doc
      (mkRunState (S (minted st)) (logged st)) = (body, st') /\
    DayOneEntry.Text e = entryText (extractTitle doc path) body /\
    DayOneEntry.Photos e = es_Photos body /\
    m = es_mediaToCopy body /\
    EntryInv W (S (minted st)) (minted st') body /\
    BodyInv W doc path (DayOneEntry.CreationDate e) body.
Proof.
  intros H. apply processEntryHTML_state in H.
  destruct H as (doc & body & Hdoc & Hbody & Htext & Hphotos & Hm & Hinv).
  exists doc, body. do 6 (split; [assumption |]).
  pose proof (processBody_BodyInv W path (DayOneEntry.CreationDate e) doc
                (mkRunState (S (minted st)) (logged st))) as HB.
  now rewrite Hbody in HB.
Qed.

End BodyFacts.

Import Strings Filepath ProofDefs.

(** X10. An entry that [processEntryHTML] returns has a new identifier of 32
    hexadecimal digits, the same creation and modification dates, is not
    starred and has the time zone given to the program; the path of the
    resources given to [processEntryHTML] plays no role. *)
Theorem emitted_entry_fields (W : World) (htmlFilePath res tz : string)
    (st st' : RunState) (e : DayOneEntry.t) (media : gmap string string) :
  processEntryHTML W htmlFilePath res tz st = (Ok (e, media), st') ->
  DayOneEntry.UUID e = fst (newDayOneUUID W st)
  /\ String.length (DayOneEntry.UUID e) = 32%nat
  /\ allBytes isUpperHexByte (DayOneEntry.UUID e) = true
  /\ DayOneEntry.ModifiedDate e = DayOneEntry.CreationDate e
  /\ DayOneEntry.Starred e = false
  /\ DayOneEntry.TimeZone e = tz
  /\ forall res', processEntryHTML W htmlFilePath res' tz st = (Ok (e, media), st').
Proof.
  intros H. split; [| split; [| split; [| split; [| split; [| split]]]]];
    try (intros res'; exact H).
  all: apply RunFacts.processEntryHTML_Ok in H.
  all: destruct H as (doc & t & _ & _ & _ & H); cbv zeta in H.
  all: destruct H as (_ & -> & _ & _);
    cbn [DayOneEntry.UUID DayOneEntry.ModifiedDate DayOneEntry.CreationDate
           DayOneEntry.Starred DayOneEntry.TimeZone].
  all: try reflexivity.
  - rewrite IdentFacts.token_eq. apply IdentFacts.tokenOf_length.
  - rewrite IdentFacts.token_eq. apply IdentFacts.tokenOf_hex.
Qed.

Lemma emitted_entry_fields_witness :
  processEntryHTML Sample.world Sample.walkPath SampleRun.resources "UTC" initialState
  = (Ok (SampleRun.walkEntry, SampleRun.walkMedia), SampleRun.walkState)
  /\ DayOneEntry.UUID SampleRun.walkEntry = "00000000000000000000000000000000"
  /\ DayOneEntry.TimeZone SampleRun.walkEntry = "UTC".
Proof.
  assert (H : processEntryHTML Sample.world Sample.walkPath SampleRun.resources "UTC"
                initialState
              = (Ok (SampleRun.walkEntry, SampleRun.walkMedia), SampleRun.walkState))
    by (vm_compute; reflexivity).
  split; [exact H |].
  destruct (emitted_entry_fields Sample.world _ _ _ _ _ _ _ H)
    as (Hid & _ & _ & _ & _ & Htz & _).
  split; [rewrite Hid; vm_compute; reflexivity | exact Htz].
Defined.

(** X11. Every photo of an entry that is returned comes from an image of
    the document (an [img.asset_image] of a photo item of an asset grid,
    with its [src]): its type is the extension, in lower case and without
    the dot, of the file that the image resolves to, one of [png], [jpg],
    [jpeg] and [gif]; this file is there, its digest is that of the photo,
    and it has a copy instruction in the media map of the entry; the photo
    has the creation date of the entry and an identifier of 32 hexadecimal
    digits. *)
Theorem photos_of_an_emitted_entry (W : World) (htmlFilePath res tz : string)
    (st st' : RunState) (e : DayOneEntry.t) (media : gmap string string) :
  processEntryHTML W htmlFilePath res tz st = (Ok (e, media), st') ->
  exists doc,
    openDocument W htmlFilePath = Ok doc /\
    forall photo, In photo (DayOneEntry.Photos e) ->
      exists imgSrc,
        imageOf doc imgSrc /\
        DayOnePhoto.Type_ photo = TrimPrefix (imageExt W htmlFilePath imgSrc) "." /\
        In (DayOnePhoto.Type_ photo) Body.imageTypes /\
        stat W (resolveImage htmlFilePath imgSrc) <> StatNotExist /\
        calculateMD5 W (resolveImage htmlFilePath imgSrc) = Ok (DayOnePhoto.MD5 photo) /\
        is_Some (media !! resolveImage htmlFilePath imgSrc) /\
        DayOnePhoto.CreationDate photo = DayOneEntry.CreationDate e /\
        String.length (DayOnePhoto.Identifier photo) = 32%nat /\
        allBytes isUpperHexByte (DayOnePhoto.Identifier photo) = true.
Proof.
  intros H. apply BodyFacts.processEntryHTML_body in H.
  destruct H as (doc & body & Hdoc & _ & _ & Hphotos & -> & Hinv & HB).
  exists doc. split; [exact Hdoc |]. intros photo Hin. rewrite Hphotos in Hin.
  pose proof (Body.body_photos _ _ _ _ _ HB) as Hall.
  rewrite List.Forall_forall in Hall.
  destruct (Hall photo Hin) as (src & Hof & Hext & Hty & Hstat & Hmd5 & Hdate & Hk).
  destruct (inv_photos _ _ _ _ Hinv photo Hin) as (i & _ & Hid).
  exists src. do 2 (split; [assumption |]).
  split; [rewrite Hty; now apply BodyFacts.imageType_allowed |].
  do 4 (split; [assumption |]).
  rewrite Hid, IdentFacts.token_eq.
  split; [apply IdentFacts.tokenOf_length | apply IdentFacts.tokenOf_hex].
Qed.

Lemma photos_of_an_emitted_entry_witness :
  processEntryHTML Sample.world Sample.walkPath SampleRun.resources "UTC" initialState
  = (Ok (SampleRun.walkEntry, SampleRun.walkMedia), SampleRun.walkState)
  /\ exists doc,
      openDocument Sample.world Sample.walkPath = Ok doc /\
      forall photo, In photo (DayOneEntry.Photos SampleRun.walkEntry) ->
        exists imgSrc,
          imageOf doc imgSrc /\
          DayOnePhoto.Type_ photo
          = TrimPrefix (imageExt Sample.world Sample.walkPath imgSrc) "." /\
          In (DayOnePhoto.Type_ photo) Body.imageTypes /\
          stat Sample.world (resolveImage Sample.walkPath imgSrc) <> StatNotExist /\
          calculateMD5 Sample.world (resolveImage Sample.walkPath imgSrc)
          = Ok (DayOnePhoto.MD5 photo) /\
          is_Some (SampleRun.walkMedia !! resolveImage Sample.walkPath imgSrc) /\
          DayOnePhoto.CreationDate photo = DayOneEntry.CreationDate SampleRun.walkEntry /\
          String.length (DayOnePhoto.Identifier photo) = 32%nat /\
          allBytes isUpperHexByte (DayOnePhoto.Identifier photo) = true.
Proof.
  assert (H : processEntryHTML Sample.world Sample.walkPath SampleRun.resources "UTC"
                initialState
              = (Ok (SampleRun.walkEntry, SampleRun.walkMedia), SampleRun.walkState))
    by (vm_compute; reflexivity).
  split; [exact H |].
  exact (photos_of_an_emitted_entry Sample.world _ _ _ _ _ _ _ H).
Defined.

(** X12. Every copy instruction of an entry that is returned comes from an
    image of the document: its source is the path that the image resolves
    to, whose extension is allowed and whose file is there, and its
    destination is the path of a photo of the entry that has the digest of
    this file; and there are no more copy instructions than photos (two
    images of one file make two photos and one copy instruction). *)
Theorem copy_sources_of_an_emitted_entry (W : World) (htmlFilePath res tz : string)
    (st st' : RunState) (e : DayOneEntry.t) (media : gmap string string) :
  processEntryHTML W htmlFilePath res tz st = (Ok (e, media), st') ->
  exists doc,
    openDocument W htmlFilePath = Ok doc /\
    (forall original dayOnePath,
        media !! original = Some dayOnePath ->
        exists imgSrc photo,
          imageOf doc imgSrc /\
          original = resolveImage htmlFilePath imgSrc /\
          isImageExt (imageExt W htmlFilePath imgSrc) = true /\
          stat W original <> StatNotExist /\
          In photo (DayOneEntry.Photos e) /\
          calculateMD5 W original = Ok (DayOnePhoto.MD5 photo) /\
          dayOnePath = photoPath photo)
    /\ (size media <= length (DayOneEntry.Photos e))%nat.
Proof.
  intros H. apply BodyFacts.processEntryHTML_body in H.
  destruct H as (doc & body & Hdoc & _ & _ & Hphotos & -> & Hinv & HB).
  exists doc. split; [exact Hdoc |]. split.
  - intros k v Hk.
    destruct (Body.body_media _ _ _ _ _ HB k v Hk)
      as (src & p & Hof & -> & Hext & Hs & Hin & Hm & Hty & ->).
    destruct (inv_photos _ _ _ _ Hinv p Hin) as (i & _ & Hid).
    exists src, p. rewrite Hphotos. do 6 (split; [assumption || reflexivity |]).
    now apply (BodyFacts.destPath_photoPath W p i).
  - rewrite Hphotos. exact (Body.body_count _ _ _ _ _ HB).
Qed.

Lemma copy_sources_of_an_emitted_entry_witness :
  processEntryHTML Sample.world Sample.walkPath SampleRun.resources "UTC" initialState
  = (Ok (SampleRun.walkEntry, SampleRun.walkMedia), SampleRun.walkState)
  /\ exists doc,
      openDocument Sample.world Sample.walkPath = Ok doc /\
      (forall original dayOnePath,
          SampleRun.walkMedia !! original = Some dayOnePath ->
          exists imgSrc photo,
            imageOf doc imgSrc /\
            original = resolveImage Sample.walkPath imgSrc /\
            isImageExt (imageExt Sample.world Sample.walkPath imgSrc) = true /\
            stat Sample.world original <> StatNotExist /\
            In photo (DayOneEntry.Photos SampleRun.walkEntry) /\
            calculateMD5 Sample.world original = Ok (DayOnePhoto.MD5 photo) /\
            dayOnePath = photoPath photo)
      /\ (size SampleRun.walkMedia <= length (DayOneEntry.Photos SampleRun.walkEntry))%nat.
Proof.
  assert (H : processEntryHTML Sample.world Sample.walkPath SampleRun.resources "UTC"
                initialState
              = (Ok (SampleRun.walkEntry, SampleRun.walkMedia), SampleRun.walkState))
    by (vm_compute; reflexivity).
  split; [exact H |].
  exact (copy_sources_of_an_emitted_entry Sample.world _ _ _ _ _ _ _ H).
Defined.

(** X13. The body is converted one node at a time: after the walk no HTML is
    left waiting in the paragraph buffer, and every piece of text written
    to the body is the conversion of the HTML of one node, without
    surrounding white space and followed by a blank line. *)
Theorem body_is_converted_node_by_node (W : World) (htmlFilePath date : string)
    (doc : Html.Document) (st : RunState) :
  let es := fst (processBody W htmlFilePath date doc st) in
  es_currentPContent es = ""
  /\ forall text, In (MarkdownText text) (es_bodyMarkdownBuilder es) ->
       exists n markdownFrag,
         outerHtmlOrEmpty W n <> "" /\
         convertString W (outerHtmlOrEmpty W n) = Ok markdownFrag /\
         text = Strings.TrimSpace markdownFrag +:+ LF +:+ LF.
Proof.
  cbv zeta. pose proof (BodyFacts.processBody_BodyInv W htmlFilePath date doc st) as HB.
  split; [exact (Body.body_buffer _ _ _ _ _ HB) |].
  intros text Hin. pose proof (Body.body_pieces _ _ _ _ _ HB) as Hall.
  rewrite List.Forall_forall in Hall. exact (Hall _ Hin).
Qed.

(** ** The run *)

Module LogFacts.
Import Strings Filepath ProofDefs RunShapes.

Section WithPredicate.
Context (P : LogLine -> Prop).

Lemma appends_refl (st : RunState) : appends P st st.
Proof. exists []. rewrite app_nil_r. split; [reflexivity | constructor]. Qed.

Lemma appends_trans (st1 st2 st3 : RunState) :
  appends P st1 st2 -> appends P st2 st3 -> appends P st1 st3.
Proof.
  intros (l1 & E1 & H1) (l2 & E2 & H2). exists (l1 ++ l2)%list.
  rewrite E2, E1, List.app_assoc. split; [reflexivity | now apply Forall_app].
Qed.

Lemma appends_same_log (st st' : RunState) : logged st' = logged st -> appends P st st'.
Proof. intros E. exists []. rewrite app_nil_r. split; [exact E | constructor]. Qed.

Lemma logs_ret {A : Type} (a : A) : logs P (ret a).
Proof. intros st. apply appends_refl. Qed.

Lemma logs_bind {A B : Type} (c : M A) (k : A -> M B) :
  logs P c -> (forall a, logs P (k a)) -> logs P (bind c k).
Proof.
  intros Hc Hk st. unfold bind. specialize (Hc st).
  destruct (c st) as [a st1]. cbn [snd] in Hc.
  exact (appends_trans _ _ _ Hc (Hk a st1)).
Qed.

Lemma logs_logPrintf (site : LogSite) (args : list string) :
  P (mkLog site args) -> logs P (logPrintf site args).
Proof.
  intros H st. exists [mkLog site args]. split; [reflexivity |].
  constructor; [exact H | constructor].
Qed.

Lemma logs_foldM {A S : Type} (f : A -> S -> M S) (l : list A) :
  (forall a s, logs P (f a s)) -> forall s, logs P (foldM f l s).
Proof.
  intros Hf. induction l as [|a l IH]; intros s; [apply logs_ret |].
  cbn [foldM]. apply logs_bind; [apply Hf | exact IH].
Qed.

Lemma logs_newDayOneUUID (W : World) : logs P (newDayOneUUID W).
Proof. intros st. now apply appends_same_log. Qed.

End WithPredicate.

(** One step of the proof that a computation logs lines of a kind
    only. *)
Ltac logs_step :=
  match goal with
  | |- logs _ (ret _) => apply logs_ret
  | |- logs _ (logPrintf _ _) => apply logs_logPrintf; discriminate
  | |- logs _ (newDayOneUUID _) => apply logs_newDayOneUUID
  | |- logs _ (bind _ _) => apply logs_bind; [| intros ?]
  | |- logs _ (foldM _ _ _) => apply logs_foldM; intros ? ?
  | |- logs _ (match ?x with _ => _ end) => destruct x
  | |- logs _ (let '(_, _) := ?x in _) => destruct x
  end.

Section WithWorld.
Context (W : World).

Lemma logs_convertAndAppendP (path : string) (es : EntryState) :
  logs notCleanup (convertAndAppendP W path es).
Proof. unfold convertAndAppendP. repeat logs_step. Qed.

Lemma logs_processImage (path date : string) (img : Html.Located) (es : EntryState) :
  logs notCleanup (processImage W path date img es).
Proof. unfold processImage. repeat logs_step. Qed.

Lemma logs_processChild (path date : string) (s : Html.Located) (es : EntryState) :
  logs notCleanup (processChild W path date s es).
Proof.
  unfold processChild, appendEach.
  repeat first [apply logs_convertAndAppendP | apply logs_processImage | logs_step].
Qed.

Lemma logs_processBody (path date : string) (doc : Html.Document) :
  logs notCleanup (processBody W path date doc).
Proof.
  unfold processBody.
  repeat first [apply logs_convertAndAppendP | apply logs_processChild | logs_step].
Qed.

Lemma logs_processEntryHTML (path res tz : string) :
  logs notCleanup (processEntryHTML W path res tz).
Proof.
  unfold processEntryHTML.
  repeat first [apply logs_processBody | logs_step].
Qed.

Lemma logs_visit (res tz : string) (c : WalkCall) (col : Collected) :
  logs notCleanup (visit W res tz c col).
Proof.
  unfold visit. repeat first [apply logs_processEntryHTML | logs_step].
Qed.

Lemma logs_walk (res tz : string) (calls : list WalkCall) :
  forall col, logs notCleanup (walk W res tz calls col).
Proof.
  induction calls as [|c calls IH]; intros col; cbn [walk]; [apply logs_ret |].
  apply logs_bind; [apply logs_visit |]. intros [col' | e]; [apply IH | apply logs_ret].
Qed.

Lemma logs_detectRoots (tmp : string) : logs notCleanup (detectRoots W tmp).
Proof. unfold detectRoots. repeat logs_step. Qed.

Lemma logs_addMedia (item : string * string) (archive : list ZipMember) :
  logs notCleanup (addMedia W item archive).
Proof. unfold addMedia. repeat logs_step. Qed.

Lemma logs_createDayOneZip (out : string) (journal : DayOneJournal.t)
    (media : gmap string string) (tmp : string) :
  logs notCleanup (createDayOneZip W out journal media tmp).
Proof.
  unfold createDayOneZip. repeat first [apply logs_addMedia | logs_step].
Qed.

End WithWorld.

End LogFacts.

Module ShapeFacts.
Import Strings Filepath ProofDefs RunShapes LogFacts.
Import RunFacts MainFacts.

Section WithWorld.
Context (W : World).

Lemma appends_log (st : RunState) (site : LogSite) (args : list string) :
  site <> LogCleaningUp ->
  appends notCleanup st (mkRunState (minted st) (logged st ++ [mkLog site args])).
Proof.
  intros H. exists [mkLog site args]. split; [reflexivity |].
  constructor; [exact H | constructor].
Qed.

(** How a run goes, when both paths are given. *)
Lemma main_shape (inputZip outputZip tz : string) (st st' : RunState) (out : Outcome) :
  inputZip <> "" -> outputZip <> "" ->
  main W inputZip outputZip tz st = (out, st') ->
  match out with
  | UsageExit => False
  | Fatal _ => appends notCleanup st st'
  | Completed journal allMediaToCopy archive =>
      exists tmp col stw stw' stz stz',
        mkdirTemp W = Ok tmp /\
        walk W (snd (rootsOf W tmp)) tz (walkDir W (fst (rootsOf W tmp)))
          (mkCollected [] ∅) stw = (Ok col, stw') /\
        journal = DayOneJournal.mk {[ "version" := "1.0" ]} (col_Entries col) /\
        allMediaToCopy = col_allMediaToCopy col /\
        createDayOneZip W outputZip journal allMediaToCopy tmp stz = (Ok archive, stz') /\
        appends notCleanup st stz' /\
        logged st' =
        (logged stz'
           ++ [mkLog LogComplete []; mkLog LogOutputWritten [outputZip];
               mkLog LogCleaningUp [tmp]]
           ++ (if removeAllOk W tmp then [] else [mkLog LogCleanupFailed [tmp]]))%list /\
        minted st' = minted stw'
  end.
Proof.
  intros Hi Ho. unfold main.
  apply String.eqb_neq in Hi, Ho. rewrite Hi, Ho. cbn [orb].
  unfold bind at 1. cbn [logPrintf].
  set (st0 := mkRunState _ _).
  assert (A0 : appends notCleanup st st0) by (apply appends_log; discriminate).
  clearbody st0.
  destruct (mkdirTemp W) as [tmp | []] eqn:Htmp;
    [| intros H; injection H as <- <-; exact A0].
  unfold bind at 1. cbn [logPrintf]. unfold bind at 1. cbn [logPrintf].
  set (st1 := mkRunState _ _).
  assert (A1 : appends notCleanup st st1).
  { apply (appends_trans _ _ _ _ A0).
    eapply appends_trans; apply appends_log; discriminate. }
  clearbody st1. clear A0 st0.
  destruct (unzipOk W inputZip tmp) eqn:Hunzip; cbn [negb];
    [| intros H; injection H as <- <-; exact A1].
  unfold bind at 1. cbn [logPrintf].
  set (st2 := mkRunState _ _).
  assert (A2 : appends notCleanup st st2)
    by (apply (appends_trans _ _ _ _ A1); apply appends_log; discriminate).
  clearbody st2. clear A1 st1.
  unfold bind at 1.
  pose proof (detectRoots_fst W tmp st2) as Hroots.
  pose proof (logs_detectRoots W tmp st2) as A3.
  destruct (detectRoots W tmp st2) as [[entriesPath resourcesPath] st3].
  cbn [fst snd] in Hroots, A3.
  assert (He : entriesPath = fst (rootsOf W tmp)) by (now rewrite <- Hroots).
  assert (Hr : resourcesPath = snd (rootsOf W tmp)) by (now rewrite <- Hroots).
  subst entriesPath resourcesPath. clear Hroots.
  pose proof (appends_trans _ _ _ _ A2 A3) as A3'. clear A2 A3 st2.
  destruct (stat W (fst (rootsOf W tmp))) eqn:Hs;
    [| intros H; injection H as <- <-; exact A3' |].
  all: clear Hs.
  all: unfold bind at 1.
  all: assert (A4 : logs notCleanup
                      (match stat W (snd (rootsOf W tmp)) with
                       | StatNotExist => logPrintf LogNoResources [snd (rootsOf W tmp)]
                       | _ => ret tt
                       end)) by (repeat logs_step).
  all: specialize (A4 st3).
  all: destruct (match stat W (snd (rootsOf W tmp)) with
                 | StatNotExist => logPrintf LogNoResources [snd (rootsOf W tmp)]
                 | _ => ret tt
                 end st3) as [[] st4]; cbn [snd] in A4.
  all: pose proof (appends_trans _ _ _ _ A3' A4) as A4'; clear A3' A4 st3.
  all: unfold bind at 1; cbn [logPrintf].
  all: set (st5 := mkRunState _ _).
  all: assert (A5 : appends notCleanup st st5)
         by (apply (appends_trans _ _ _ _ A4'); apply appends_log; discriminate).
  all: clearbody st5; clear A4' st4.
  all: unfold bind at 1.
  all: pose proof (logs_walk W (snd (rootsOf W tmp)) tz
                     (walkDir W (fst (rootsOf W tmp))) (mkCollected [] ∅) st5) as A6.
  all: destruct (walk W (snd (rootsOf W tmp)) tz (walkDir W (fst (rootsOf W tmp)))
                   (mkCollected [] ∅) st5)
         as [[col | []] st6] eqn:Hwalk; cbn [snd] in A6;
       [| intros H; injection H as <- <-; exact (appends_trans _ _ _ _ A5 A6)].
  all: pose proof (appends_trans _ _ _ _ A5 A6) as A6'; clear A6.
  all: cbv zeta; unfold bind at 1.
  all: assert (A7 : logs notCleanup
                      (match col_Entries col with
                       | [] => logPrintf LogNoEntries []
                       | _ :: _ => logPrintf LogProcessedCount []
                       end)) by (repeat logs_step).
  all: specialize (A7 st6).
  all: destruct (match col_Entries col with
                 | [] => logPrintf LogNoEntries []
                 | _ :: _ => logPrintf LogProcessedCount []
                 end st6) as [[] st7] eqn:H7; cbn [snd] in A7.
  all: assert (M7 : minted st7 = minted st6)
         by (destruct (col_Entries col); cbn in H7; injection H7 as <-; reflexivity).
  all: clear H7.
  all: pose proof (appends_trans _ _ _ _ A6' A7) as A7'; clear A6' A7.
  all: unfold bind at 1; cbn [logPrintf].
  all: set (st8 := mkRunState _ _).
  all: assert (A8 : appends notCleanup st st8)
         by (apply (appends_trans _ _ _ _ A7'); apply appends_log; discriminate).
  all: assert (M8 : minted st8 = minted st6) by exact M7.
  all: clearbody st8; clear A7' M7 st7.
  all: unfold bind at 1.
  all: pose proof (logs_createDayOneZip W outputZip
                     (DayOneJournal.mk {[ "version" := "1.0" ]} (col_Entries col))
                     (col_allMediaToCopy col) tmp st8) as A9.
  all: pose proof (createDayOneZip_minted W outputZip
                     (DayOneJournal.mk {[ "version" := "1.0" ]} (col_Entries col))
                     (col_allMediaToCopy col) tmp st8) as M9.
  all: destruct (createDayOneZip W outputZip _ (col_allMediaToCopy col) tmp st8)
         as [[archive | ze] st9] eqn:Hzip; cbn [snd] in A9;
       [| intros H; injection H as <- <-; exact (appends_trans _ _ _ _ A8 A9)].
  all: pose proof (appends_trans _ _ _ _ A8 A9) as A9'; clear A9.
  all: unfold bind, ret, logPrintf, cleanup.
  all: destruct (removeAllOk W tmp) eqn:Hrm; intros H; injection H as <- <-.
  all: exists tmp, col, st5, st6, st8, st9; rewrite Hrm; cbn [logged minted].
  all: rewrite <- ?List.app_assoc; cbn [app].
  all: cbn [snd] in M9.
  all: repeat split; try assumption; try reflexivity; congruence.
Qed.

(** *** The walk *)

Lemma grows_refl (col : Collected) : grows 0 col col.
Proof. exists []. rewrite app_nil_r. split; [reflexivity |]. split; [cbn; lia | auto]. Qed.

Lemma grows_trans (n1 n2 : nat) (c1 c2 c3 : Collected) :
  grows n1 c1 c2 -> grows n2 c2 c3 -> grows (n1 + n2) c1 c3.
Proof.
  intros (l1 & E1 & L1 & K1) (l2 & E2 & L2 & K2). exists (l1 ++ l2)%list.
  rewrite E2, E1, List.app_assoc, List.length_app. split; [reflexivity |]. split; [lia | auto].
Qed.

Lemma visit_grows (res tz : string) (c : WalkCall) (col : Collected) (st : RunState) :
  match fst (visit W res tz c col st) with
  | Ok col' =>
      grows (if htmlCall W c then 1 else 0) col col' /\
      (htmlCall W c = false -> col' = col /\ snd (visit W res tz c col st) = st)
  | Err _ => wc_err c = true
  end.
Proof.
  rewrite visit_eq. unfold htmlCall.
  destruct (wc_err c); [reflexivity |].
  destruct (de_isDir (wc_entry c)); cbn [negb andb fst snd];
    [split; [apply grows_refl | auto] |].
  destruct (isHtmlName W (de_name (wc_entry c))); cbn [fst snd];
    [| split; [apply grows_refl | auto]].
  cbv zeta.
  destruct (processEntryHTML W (wc_path c) res tz _) as [[[e m] | err] st1];
    cbn [fst snd].
  - destruct (isEmptyEntry (DayOneEntry.Text e) (DayOneEntry.Photos e)); cbn [fst snd].
    + split; [| discriminate]. destruct (grows_refl col) as (new & E & L & K).
      exists new. split; [exact E |]. split; [lia | exact K].
    + split; [| discriminate]. exists [e]. cbn [col_Entries col_allMediaToCopy].
      split; [reflexivity |]. split; [cbn; lia |].
      intros k Hk. rewrite mergeMedia_lookup. destruct (m !! k); eauto.
  - split; [| discriminate]. destruct (grows_refl col) as (new & E & L & K).
    exists new. split; [exact E |]. split; [lia | exact K].
Qed.

Lemma walk_grows (res tz : string) (calls : list WalkCall) :
  forall col st,
    match fst (walk W res tz calls col st) with
    | Ok col' =>
        grows (length (List.filter (htmlCall W) calls)) col col' /\
        (Forall (fun c => htmlCall W c = false) calls ->
         col' = col /\ snd (walk W res tz calls col st) = st)
    | Err _ => True
    end.
Proof.
  induction calls as [|c calls IH]; intros col st.
  - cbn. split; [apply grows_refl | auto].
  - cbn [walk]. unfold bind.
    pose proof (visit_grows res tz c col st) as Hv.
    destruct (visit W res tz c col st) as [[col1 | []] st1]; cbn [fst snd] in *;
      [| exact I].
    destruct Hv as [Hg Hsame]. specialize (IH col1 st1).
    destruct (walk W res tz calls col1 st1) as [[col2 | []] st2]; cbn [fst snd] in *;
      [| exact I].
    destruct IH as [Hg2 Hsame2]. split.
    + cbn [List.filter]. pose proof (grows_trans _ _ _ _ _ Hg Hg2) as H.
      destruct (htmlCall W c); exact H.
    + intros Hall. inversion Hall as [|c' calls' Hc Hrest]; subst.
      destruct (Hsame Hc) as [-> ->]. now apply Hsame2.
Qed.

(** *** The archive *)

Lemma addMedia_eq (item : string * string) (archive : list ZipMember) (st : RunState) :
  fst (addMedia W item archive st) = (archive ++ membersOf W item)%list.
Proof.
  unfold addMedia, membersOf, written. destruct item as [orig dest]. cbn [fst snd].
  destruct (zipCreateOk W dest); cbn; [| now rewrite app_nil_r].
  destruct (osOpenOk W orig); cbn; [| reflexivity].
  destruct (ioCopyOk W orig dest); reflexivity.
Qed.

Lemma addMedia_fold (items : list (string * string)) :
  forall archive st,
    fst (foldM (addMedia W) items archive st)
    = (archive ++ flat_map (membersOf W) items)%list.
Proof.
  induction items as [|item items IH]; intros archive st.
  - cbn. now rewrite app_nil_r.
  - cbn [foldM]. unfold bind. pose proof (addMedia_eq item archive st) as Ha.
    destruct (addMedia W item archive st) as [a1 st1]. cbn [fst] in Ha. subst a1.
    rewrite IH. cbn [flat_map]. now rewrite <- List.app_assoc.
Qed.

Lemma createDayOneZip_archive (out : string) (journal : DayOneJournal.t)
    (media : gmap string string) (tmp : string) (st st' : RunState)
    (archive : list ZipMember) :
  createDayOneZip W out journal media tmp st = (Ok archive, st') ->
  exists jsonData,
    marshalIndent W journal = Ok jsonData /\
    archive = JournalJson jsonData :: flat_map (membersOf W) (map_to_list media).
Proof.
  unfold createDayOneZip.
  destruct (osCreateOk W out); [| discriminate].
  destruct (zipCreateOk W "Journal.json"); [| discriminate].
  destruct (marshalIndent W journal) as [d | []]; [| discriminate].
  destruct (zipWriteOk W d); [| discriminate]. cbn [negb]. unfold bind.
  pose proof (addMedia_fold (map_to_list media) [JournalJson d] st) as Hf.
  destruct (foldM (addMedia W) (map_to_list media) [JournalJson d] st) as [a st1].
  cbn [fst] in Hf. intros H. injection H as <- <-. exists d. now split.
Qed.

Lemma members_length (items : list (string * string)) :
  length (flat_map (membersOf W) items)
  = length (List.filter (fun item => zipCreateOk W (snd item)) items).
Proof.
  induction items as [|item items IH]; [reflexivity |].
  cbn [flat_map List.filter]. rewrite List.length_app, IH. unfold membersOf.
  destruct (zipCreateOk W (snd item)); reflexivity.
Qed.

Lemma members_spec (media : gmap string string) (x : ZipMember) :
  In x (flat_map (membersOf W) (map_to_list media)) <->
  exists orig dest,
    media !! orig = Some dest /\ zipCreateOk W dest = true /\
    x = MediaFile dest (written W orig dest).
Proof.
  rewrite in_flat_map. split.
  - intros ([orig dest] & Hin & Hx). unfold membersOf in Hx. cbn [fst snd] in Hx.
    destruct (zipCreateOk W dest) eqn:Hc; [| destruct Hx].
    destruct Hx as [<- | []].
    apply list_elem_of_In, elem_of_map_to_list in Hin. now exists orig, dest.
  - intros (orig & dest & Hk & Hc & ->). exists (orig, dest). split.
    + now apply list_elem_of_In, elem_of_map_to_list.
    + unfold membersOf. cbn [fst snd]. rewrite Hc. now left.
Qed.

End WithWorld.

End ShapeFacts.

Import Strings Filepath ProofDefs RunShapes.

(** X14. When [createDayOneZip] returns no error, the archive has
    [Journal.json] first, with the marshalled journal, and after it one
    member for each copy instruction whose member could be created, and
    nothing else.  The member holds the whole file when the file could be
    opened and copied; it is empty when the file could not be opened, and
    holds what was copied when the copy failed: a media file that fails
    does not stop the others, and its member stays in the archive. *)
Theorem createDayOneZip_journal_then_media (W : World) (outputZipPath : string)
    (journal : DayOneJournal.t) (mediaToCopy : gmap string string)
    (tempExtractBasePath : string) (st st' : RunState) (archive : list ZipMember) :
  createDayOneZip W outputZipPath journal mediaToCopy tempExtractBasePath st
  = (Ok archive, st') ->
  exists jsonData rest,
    marshalIndent W journal = Ok jsonData /\
    archive = JournalJson jsonData :: rest /\
    length rest
    = length (List.filter (fun item => zipCreateOk W (snd item)) (map_to_list mediaToCopy)) /\
    forall member,
      In member rest <->
      exists originalPath dayOneZipPath,
        mediaToCopy !! originalPath = Some dayOneZipPath /\
        zipCreateOk W dayOneZipPath = true /\
        member = MediaFile dayOneZipPath
                   (if negb (osOpenOk W originalPath) then NoContent
                    else if negb (ioCopyOk W originalPath dayOneZipPath)
                         then PartOf originalPath
                         else AllOf originalPath).
Proof.
  intros H. apply ShapeFacts.createDayOneZip_archive in H.
  destruct H as (d & Hd & ->).
  exists d, (flat_map (membersOf W) (map_to_list mediaToCopy)).
  split; [exact Hd |]. split; [reflexivity |].
  split; [apply ShapeFacts.members_length |].
  intros member. apply ShapeFacts.members_spec.
Qed.

Lemma createDayOneZip_journal_then_media_witness :
  createDayOneZip Sample.world "out.zip" SampleRun.finalJournal SampleRun.finalMedia
    "/tmp/aj" initialState
  = (Ok SampleRun.finalArchive,
     snd (createDayOneZip Sample.world "out.zip" SampleRun.finalJournal
            SampleRun.finalMedia "/tmp/aj" initialState))
  /\ exists jsonData rest,
      marshalIndent Sample.world SampleRun.finalJournal = Ok jsonData /\
      SampleRun.finalArchive = JournalJson jsonData :: rest.
Proof.
  assert (H : createDayOneZip Sample.world "out.zip" SampleRun.finalJournal
                SampleRun.finalMedia "/tmp/aj" initialState
              = (Ok SampleRun.finalArchive,
                 snd (createDayOneZip Sample.world "out.zip" SampleRun.finalJournal
                        SampleRun.finalMedia "/tmp/aj" initialState)))
    by (vm_compute; reflexivity).
  split; [exact H |].
  destruct (createDayOneZip_journal_then_media Sample.world _ _ _ _ _ _ _ H)
    as (d & rest & Hd & Ha & _).
  exists d, rest. split; [exact Hd | exact Ha].
Defined.

(** X15. The walk over the [Entries] folder only adds to the journal: the
    entries it had stay, in their order, at most one entry is added for each
    file with an HTML name, and no source path leaves the media map;
    folders and files with another name change nothing. *)
Theorem walk_only_appends (W : World) (resourcesPath defaultTimeZone : string)
    (calls : list WalkCall) (col col' : Collected) (st st' : RunState) :
  walk W resourcesPath defaultTimeZone calls col st = (Ok col', st') ->
  (exists new,
      col_Entries col' = (col_Entries col ++ new)%list /\
      (length new <= length (List.filter (htmlCall W) calls))%nat)
  /\ (forall original,
        is_Some (col_allMediaToCopy col !! original) ->
        is_Some (col_allMediaToCopy col' !! original))
  /\ (Forall (fun c => htmlCall W c = false) calls -> col' = col /\ st' = st).
Proof.
  intros H.
  pose proof (ShapeFacts.walk_grows W resourcesPath defaultTimeZone calls col st) as Hg.
  rewrite H in Hg. cbn [fst snd] in Hg. destruct Hg as [(new & E & L & K) Hsame].
  split; [now exists new |]. split; [exact K | exact Hsame].
Qed.

Lemma walk_only_appends_witness :
  walk Sample.world SampleRun.resources "UTC" Sample.calls (mkCollected [] ∅) initialState
  = (Ok (mkCollected (DayOneJournal.Entries SampleRun.finalJournal) SampleRun.finalMedia),
     snd (walk Sample.world SampleRun.resources "UTC" Sample.calls (mkCollected [] ∅)
            initialState))
  /\ (length (DayOneJournal.Entries SampleRun.finalJournal) <= 6)%nat.
Proof.
  assert (H : walk Sample.world SampleRun.resources "UTC" Sample.calls (mkCollected [] ∅)
                initialState
              = (Ok (mkCollected (DayOneJournal.Entries SampleRun.finalJournal)
                       SampleRun.finalMedia),
                 snd (walk Sample.world SampleRun.resources "UTC" Sample.calls
                        (mkCollected [] ∅) initialState)))
    by (vm_compute; reflexivity).
  split; [exact H |].
  destruct (proj1 (walk_only_appends Sample.world _ _ _ _ _ _ _ H)) as (new & E & L).
  cbn [col_Entries app] in E. rewrite E. exact L.
Defined.

(** X16. [main] stops with the usage message exactly when the input path or
    the output path is empty, before anything is logged or done. *)
Theorem main_usage_exit (W : World) (inputZip outputZip tz : string) (st st' : RunState) :
  main W inputZip outputZip tz st = (UsageExit, st')
  <-> (inputZip = "" \/ outputZip = "") /\ st' = st.
Proof.
  split.
  - intros H.
    destruct (String.eqb inputZip "" || String.eqb outputZip "") eqn:Hargs.
    + unfold main in H. rewrite Hargs in H. injection H as <-.
      apply orb_prop in Hargs. split; [| reflexivity].
      destruct Hargs as [E | E]; apply String.eqb_eq in E; auto.
    + apply orb_false_elim in Hargs. destruct Hargs as [Hi Ho].
      apply String.eqb_neq in Hi, Ho.
      destruct (MainFacts.main_cases W inputZip outputZip tz st st' _ Hi Ho H).
  - intros [[-> | ->] ->]; unfold main.
    + reflexivity.
    + now rewrite orb_true_r.
Qed.

(** X17. The temporary directory is removed only by a run that is completed:
    a run that stops with a fatal error leaves it (the log has no cleaning
    line), a completed run logs the cleaning of the directory that
    [os.MkdirTemp] made. *)
Theorem cleanup_only_when_completed (W : World) (inputZip outputZip tz : string)
    (out : Outcome) (st' : RunState) :
  main W inputZip outputZip tz initialState = (out, st') ->
  match out with
  | Completed _ _ _ =>
      exists tmp, mkdirTemp W = Ok tmp /\ In (mkLog LogCleaningUp [tmp]) (logged st')
  | _ => forall line, In line (logged st') -> log_site line <> LogCleaningUp
  end.
Proof.
  intros H.
  destruct (String.eqb inputZip "" || String.eqb outputZip "") eqn:Hargs.
  { unfold main in H. rewrite Hargs in H. injection H as <- <-. intros line []. }
  apply orb_false_elim in Hargs. destruct Hargs as [Hi Ho].
  apply String.eqb_neq in Hi, Ho.
  pose proof (ShapeFacts.main_shape W inputZip outputZip tz _ st' out Hi Ho H) as Hs.
  destruct out as [| e | j m a]; [destruct Hs | |].
  - destruct Hs as (lines & E & Hall). cbn [logged initialState app] in E.
    rewrite E. intros line Hin. rewrite List.Forall_forall in Hall. now apply Hall.
  - destruct Hs as (tmp & col & stw & stw' & stz & stz' & Htmp & _ & _ & _ & _ & _ & E & _).
    exists tmp. split; [exact Htmp |]. rewrite E.
    apply in_or_app. right. cbn. auto.
Qed.

Lemma cleanup_only_when_completed_witness :
  main Sample.unreadableWorld "in.zip" "out.zip" "UTC" initialState
  = (Fatal FatalWalk,
     snd (main Sample.unreadableWorld "in.zip" "out.zip" "UTC" initialState))
  /\ forall line,
       In line (logged (snd (main Sample.unreadableWorld "in.zip" "out.zip" "UTC"
                               initialState))) ->
       log_site line <> LogCleaningUp.
Proof.
  assert (H : main Sample.unreadableWorld "in.zip" "out.zip" "UTC" initialState
              = (Fatal FatalWalk,
                 snd (main Sample.unreadableWorld "in.zip" "out.zip" "UTC" initialState)))
    by (vm_compute; reflexivity).
  split; [exact H |].
  exact (cleanup_only_when_completed Sample.unreadableWorld _ _ _ _ _ H).
Defined.

(** X18. The journal of a completed run has the metadata [version 1.0] and at
    most one entry for each file with an HTML name that the walk met, and
    the archive begins with [Journal.json], which holds the marshalled
    journal. *)
Theorem completed_run_journal (W : World) (inputZip outputZip tz : string)
    (st st' : RunState) (journal : DayOneJournal.t) (allMediaToCopy : gmap string string)
    (archive : list ZipMember) :
  main W inputZip outputZip tz st = (Completed journal allMediaToCopy archive, st') ->
  DayOneJournal.Metadata journal = {[ "version" := "1.0" ]}
  /\ (exists tmp,
        mkdirTemp W = Ok tmp /\
        (length (DayOneJournal.Entries journal)
         <= length (List.filter (htmlCall W) (walkDir W (fst (rootsOf W tmp)))))%nat)
  /\ exists jsonData rest,
       marshalIndent W journal = Ok jsonData /\ archive = JournalJson jsonData :: rest.
Proof.
  intros H.
  destruct (String.eqb inputZip "" || String.eqb outputZip "") eqn:Hargs.
  { unfold main in H. rewrite Hargs in H. discriminate H. }
  apply orb_false_elim in Hargs. destruct Hargs as [Hi Ho].
  apply String.eqb_neq in Hi, Ho.
  pose proof (ShapeFacts.main_shape W inputZip outputZip tz _ st' _ Hi Ho H) as Hs.
  destruct Hs as (tmp & col & stw & stw' & stz & stz' & Htmp & Hwalk & -> & -> & Hzip & _).
  split; [reflexivity |]. split.
  - exists tmp. split; [exact Htmp |].
    pose proof (ShapeFacts.walk_grows W (snd (rootsOf W tmp)) tz
                  (walkDir W (fst (rootsOf W tmp))) (mkCollected [] ∅) stw) as Hg.
    rewrite Hwalk in Hg. cbn [fst] in Hg. destruct Hg as [(new & E & L & _) _].
    cbn [DayOneJournal.Entries col_Entries app] in *. now rewrite E.
  - apply ShapeFacts.createDayOneZip_archive in Hzip. destruct Hzip as (d & Hd & ->).
    eauto.
Qed.

Lemma completed_run_journal_witness :
  main Sample.world "in.zip" "out.zip" "UTC" initialState
  = (Completed SampleRun.finalJournal SampleRun.finalMedia SampleRun.finalArchive,
     SampleRun.finalState)
  /\ DayOneJournal.Metadata SampleRun.finalJournal = {[ "version" := "1.0" ]}.
Proof.
  assert (H : main Sample.world "in.zip" "out.zip" "UTC" initialState
              = (Completed SampleRun.finalJournal SampleRun.finalMedia
                   SampleRun.finalArchive, SampleRun.finalState))
    by (vm_compute; reflexivity).
  split; [exact H |].
  exact (proj1 (completed_run_journal Sample.world _ _ _ _ _ _ _ _ H)).
Defined.

(** X19. An export without any file with an HTML name is no error: when no
    fatal condition holds, the run is completed with an empty journal, no
    media, and an archive that holds [Journal.json] alone. *)
Theorem export_without_html_files (W : World) (inputZip outputZip tz : string) :
  inputZip <> "" -> outputZip <> "" ->
  noFatalCondition W inputZip outputZip ->
  (forall root, Forall (fun c => htmlCall W c = false) (walkDir W root)) ->
  exists jsonData st',
    marshalIndent W (DayOneJournal.mk {[ "version" := "1.0" ]} []) = Ok jsonData /\
    main W inputZip outputZip tz initialState
    = (Completed (DayOneJournal.mk {[ "version" := "1.0" ]} []) ∅ [JournalJson jsonData],
       st').
Proof.
  intros Hi Ho Hok Hnone.
  destruct (main_completes W inputZip outputZip tz initialState Hi Ho eq_refl Hok)
    as (j & m & a & st' & Hmain).
  pose proof (ShapeFacts.main_shape W inputZip outputZip tz _ st' _ Hi Ho Hmain) as Hs.
  destruct Hs as (tmp & col & stw & stw' & stz & stz' & Htmp & Hwalk & Hj & Hm & Hzip & _).
  pose proof (ShapeFacts.walk_grows W (snd (rootsOf W tmp)) tz
                (walkDir W (fst (rootsOf W tmp))) (mkCollected [] ∅) stw) as Hg.
  rewrite Hwalk in Hg. cbn [fst snd] in Hg. destruct Hg as [_ Hsame].
  destruct (Hsame (Hnone _)) as [-> _]. cbn [col_Entries col_allMediaToCopy] in Hj, Hm.
  subst j m. apply ShapeFacts.createDayOneZip_archive in Hzip.
  destruct Hzip as (d & Hd & Ha). rewrite map_to_list_empty in Ha. cbn in Ha. subst a.
  exists d, st'. split; [exact Hd | exact Hmain].
Qed.

Lemma export_without_html_files_witness :
  ("in.zip" <> "" /\ "out.zip" <> ""
   /\ noFatalCondition plainWorld "in.zip" "out.zip"
   /\ forall root, Forall (fun c => htmlCall plainWorld c = false) (walkDir plainWorld root))
  /\ exists jsonData st',
      main plainWorld "in.zip" "out.zip" "UTC" initialState
      = (Completed (DayOneJournal.mk {[ "version" := "1.0" ]} []) ∅ [JournalJson jsonData],
         st').
Proof.
  assert (Hi : "in.zip" <> "") by discriminate.
  assert (Ho : "out.zip" <> "") by discriminate.
  assert (Hok : noFatalCondition plainWorld "in.zip" "out.zip").
  { exists "/tmp/aj". split; [reflexivity |]. split; [reflexivity |].
    split; [vm_compute; discriminate |].
    split; [intros c [<- | [<- | []]]; reflexivity |].
    split; [reflexivity |]. split; [reflexivity |].
    split; [intros j; now exists "{}" | reflexivity]. }
  assert (Hnone : forall root,
             Forall (fun c => htmlCall plainWorld c = false) (walkDir plainWorld root))
    by (intros root; repeat constructor).
  split; [auto |].
  destruct (export_without_html_files plainWorld "in.zip" "out.zip" "UTC" Hi Ho Hok Hnone)
    as (d & st' & _ & H).
  exists d, st'. exact H.
Defined.

(** ** The names of the files and the day of the week *)

Module NameFacts.
Import Strings ProofDefs StringFacts.

#[local] Arguments String.append : simpl nomatch.



Lemma HasPrefix_app (p s : string) : HasPrefix (p +:+ s) p = true.
Proof.
  induction p as [|c p IH]; cbn [String.append HasPrefix]; [reflexivity |].
  now rewrite Ascii.eqb_refl, IH.
Qed.



End NameFacts.

Import Strings ProofDefs RunShapes.

(** X20. The day of the week of a header is not read: two headers that differ
    only before the first comma give the same result. *)
Theorem parseAppleDate_ignores_the_weekday (weekday1 weekday2 rest : string) :
  Contains weekday1 "," = false -> Contains weekday2 "," = false ->
  parseAppleDate (weekday1 +:+ "," +:+ rest) = parseAppleDate (weekday2 +:+ "," +:+ rest).
Proof.
  intros H1 H2. unfold parseAppleDate.
  change ("," +:+ rest) with (String "," rest).
  now rewrite (StringFacts.SplitN2_first "," weekday1 rest H1),
    (StringFacts.SplitN2_first "," weekday2 rest H2).
Qed.

Lemma parseAppleDate_ignores_the_weekday_witness :
  (Contains "Monday" "," = false /\ Contains "Wednesday" "," = false)
  /\ parseAppleDate "Monday, May 14, 2025" = parseAppleDate "Wednesday, May 14, 2025".
Proof.
  assert (H1 : Contains "Monday" "," = false) by reflexivity.
  assert (H2 : Contains "Wednesday" "," = false) by reflexivity.
  split; [auto |].
  exact (parseAppleDate_ignores_the_weekday "Monday" "Wednesday" " May 14, 2025" H1 H2).
Defined.



(** ** The names that [unzip] accepts *)

Module PathFacts.
Import Strings Filepath Unzip.

#[local] Arguments String.append : simpl nomatch.

Example elements_ex : elements "Entries/a.html" = ["Entries"; "a.html"].
Proof. reflexivity. Qed.

Example elements_ex2 : elements "../x/" = [".."; "x"; ""].
Proof. reflexivity. Qed.

Example ordinary_ex : ordinary "./Entries//a.html" = true.
Proof. reflexivity. Qed.

Example ordinary_ex2 : ordinary "Entries/../../x" = false.
Proof. reflexivity. Qed.

Example ordinary_ex3 : ordinary "./" = false.
Proof. reflexivity. Qed.

(** *** The first element of a path *)

Lemma elements_nonempty (s : string) : elements s <> [].
Proof.
  destruct s as [|c s]; cbn [elements]; [discriminate |].
  destruct (isSep c); [discriminate |]. destruct (elements s); discriminate.
Qed.

(** What [splitElem] returns: the first element, and the rest, which is
    empty or begins with a separator. *)
Lemma splitElem_spec (s : string) :
  let '(e, r) := splitElem s in
  s = e +:+ r /\
  (String.length r <= String.length s)%nat /\
  match r with
  | "" => elements s = [e]
  | String c r' => isSep c = true /\ elements s = e :: elements r'
  end.
Proof.
  induction s as [|c s IH]; [cbn; auto |].
  cbn [splitElem elements]. destruct (isSep c) eqn:Hc.
  - cbn [String.append String.length]. split; [reflexivity |]. split; [lia |].
    split; [exact Hc | reflexivity].
  - destruct (splitElem s) as [e r]. destruct IH as (-> & Hlen & Hr).
    cbn [String.append String.length]. split; [reflexivity |]. split; [lia |].
    destruct r as [|d r'].
    + now rewrite Hr.
    + destruct Hr as [Hd ->]. now split.
Qed.

Lemma splitElem_sep (s : string) : atElemEnd s = true -> splitElem s = ("", s).
Proof.
  destruct s as [|c s]; [reflexivity |]. cbn [atElemEnd splitElem]. now intros ->.
Qed.

Lemma splitElem_first (c : ascii) (s : string) :
  isSep c = false ->
  splitElem (String c s) = (String c (fst (splitElem s)), snd (splitElem s)).
Proof. intros Hc. cbn [splitElem]. rewrite Hc. now destruct (splitElem s). Qed.

Lemma atElemEnd_splitElem (s : string) :
  atElemEnd s = String.eqb (fst (splitElem s)) "".
Proof.
  destruct s as [|c s]; [reflexivity |]. cbn [atElemEnd splitElem].
  destruct (isSep c); [reflexivity |]. now destruct (splitElem s).
Qed.

(** *** One step of the loop of [Clean], for a rooted path *)

Lemma cleanLoop_elem (fuel : nat) (c : ascii) (rest out : string) :
  isSep c = false ->
  cleanLoop (S fuel) true (String c rest) out 1 =
  let e := fst (splitElem (String c rest)) in
  let r := snd (splitElem (String c rest)) in
  if String.eqb e "." then cleanLoop fuel true r out 1
  else if String.eqb e ".." then
    if (1 <? String.length out)%nat
    then cleanLoop fuel true r (backtrack out 1) 1
    else cleanLoop fuel true r out 1
  else
    cleanLoop fuel true r
      (reverse e +:+ (if negb (String.length out =? 1)%nat then String "/" out else out)) 1.
Proof.
  intros Hc. cbv zeta. rewrite (splitElem_first c rest Hc). cbn [fst snd].
  cbn [cleanLoop]. rewrite Hc.
  assert (Hgen : forall e r, splitElem (String c rest) = (e, r) ->
            (let w := String.length out in
             let out1 :=
               if true && negb (w =? 1)%nat || negb true && negb (w =? 0)%nat
               then String "/" out else out in
             let '(e0, r0) := splitElem (String c rest) in
             cleanLoop fuel true r0 (rev_string out1 e0) 1)
            = cleanLoop fuel true r
                (reverse e +:+ (if negb (String.length out =? 1)%nat
                                then String "/" out else out)) 1).
  { intros e r E. cbv zeta. rewrite E. cbn [andb negb orb].
    rewrite orb_false_r. unfold reverse. now rewrite StringFacts.rev_string_app. }
  specialize (Hgen _ _ (splitElem_first c rest Hc)).
  destruct (Ascii.eqb c ".") eqn:Ec; cbn [andb].
  - apply Ascii.eqb_eq in Ec. subst c.
    rewrite (atElemEnd_splitElem rest).
    change (String.eqb (String "." (fst (splitElem rest))) ".")
      with (String.eqb (fst (splitElem rest)) "").
    destruct (String.eqb (fst (splitElem rest)) "") eqn:E1.
    + (* the element is [.] *)
      assert (Hr : splitElem rest = ("", rest)).
      { apply splitElem_sep. now rewrite atElemEnd_splitElem. }
      now rewrite Hr.
    + destruct rest as [|d rest']; [discriminate E1 |].
      cbn [HasPrefix drop].
      destruct (isSep d) eqn:Hd; [cbn [splitElem] in E1; rewrite Hd in E1; discriminate E1 |].
      rewrite (splitElem_first d rest' Hd). cbn [fst snd].
      rewrite andb_true_r.
      change (String.eqb (String "." (String d (fst (splitElem rest')))) "..")
        with (Ascii.eqb "." d && String.eqb (fst (splitElem rest')) "").
      rewrite (atElemEnd_splitElem rest').
      destruct (Ascii.eqb "." d && String.eqb (fst (splitElem rest')) "") eqn:E2.
      * (* the element is [..] *)
        apply andb_prop in E2. destruct E2 as [_ E2].
        assert (Hr : splitElem rest' = ("", rest')).
        { apply splitElem_sep. now rewrite atElemEnd_splitElem. }
        rewrite Hr. cbn [snd negb]. reflexivity.
      * rewrite (splitElem_first d rest' Hd) in Hgen. cbn [fst snd] in Hgen.
        exact Hgen.
  - assert (E1 : String.eqb (String c (fst (splitElem rest))) "." = false).
    { cbn [String.eqb]. now rewrite Ec. }
    assert (E2 : String.eqb (String c (fst (splitElem rest))) ".." = false).
    { cbn [String.eqb]. now rewrite Ec. }
    rewrite E1, E2. exact Hgen.
Qed.

Lemma splitElem_length (s : string) :
  (String.length (snd (splitElem s)) <= String.length s)%nat.
Proof.
  pose proof (splitElem_spec s) as H. destruct (splitElem s) as [e r].
  destruct H as (_ & H & _). exact H.
Qed.

Lemma isSep_slash (c : ascii) : isSep c = true -> c = "/"%char.
Proof. unfold isSep. apply Ascii.eqb_eq. Qed.

(** Enough fuel is as good as more. *)
Lemma cleanLoop_fuel (f1 : nat) :
  forall (f2 : nat) (path out : string),
    (String.length path <= f1)%nat -> (String.length path <= f2)%nat ->
    cleanLoop f1 true path out 1 = cleanLoop f2 true path out 1.
Proof.
  induction f1 as [|f1 IH]; intros f2 path out H1 H2.
  - destruct path; [| cbn in H1; lia]. now rewrite !IdentFacts.cleanLoop_nil.
  - destruct path as [|c rest]; [now rewrite !IdentFacts.cleanLoop_nil |].
    destruct f2 as [|f2]; [cbn in H2; lia |]. cbn [String.length] in H1, H2.
    pose proof (splitElem_length rest) as Hr.
    destruct (isSep c) eqn:Hc.
    + apply isSep_slash in Hc. subst c. rewrite !IdentFacts.cleanLoop_sep.
      apply IH; lia.
    + rewrite !(cleanLoop_elem _ c rest out Hc). cbv zeta.
      rewrite (splitElem_first c rest Hc). cbn [fst snd].
      repeat match goal with |- context [if ?b then _ else _] => destruct b end;
        apply IH; lia.
Qed.

(** *** Elements and the predicates on them *)

Lemma forallb_elements (c : ascii) (rest : string) (P : string -> bool) :
  isSep c = false -> P "" = true ->
  forallb P (elements (String c rest))
  = P (fst (splitElem (String c rest)))
    && forallb P (elements (snd (splitElem (String c rest)))).
Proof.
  intros Hc HP. pose proof (splitElem_spec (String c rest)) as H.
  destruct (splitElem (String c rest)) as [e r]. cbn [fst snd].
  destruct H as (_ & _ & H). destruct r as [|d r'].
  - rewrite H. cbn. now rewrite HP.
  - destruct H as [Hd ->]. cbn [elements]. rewrite Hd. cbn. now rewrite HP.
Qed.

Lemma existsb_elements (c : ascii) (rest : string) (P : string -> bool) :
  isSep c = false -> P "" = false ->
  existsb P (elements (String c rest))
  = P (fst (splitElem (String c rest)))
    || existsb P (elements (snd (splitElem (String c rest)))).
Proof.
  intros Hc HP. pose proof (splitElem_spec (String c rest)) as H.
  destruct (splitElem (String c rest)) as [e r]. cbn [fst snd].
  destruct H as (_ & _ & H). destruct r as [|d r'].
  - rewrite H. cbn. now rewrite HP.
  - destruct H as [Hd ->]. cbn [elements]. rewrite Hd. cbn. now rewrite HP.
Qed.

(** *** A name without [..] is added to what was cleaned before it *)

Lemma cleanLoop_ordinary (fuel : nat) :
  forall (path out : string),
    (String.length path <= fuel)%nat ->
    forallb (fun e => negb (String.eqb e "..")) (elements path) = true ->
    exists x,
      cleanLoop fuel true path out 1 = x +:+ out /\
      (existsb isProper (elements path) = true -> String.length out <> 1%nat ->
       exists y, x = y +:+ "/").
Proof.
  induction fuel as [|fuel IH]; intros path out Hlen Hall.
  - destruct path; [| cbn in Hlen; lia]. exists "". split; [reflexivity |].
    cbn. discriminate.
  - destruct path as [|c rest].
    { exists "". split; [reflexivity |]. cbn. discriminate. }
    cbn [String.length] in Hlen. pose proof (splitElem_length rest) as Hr.
    destruct (isSep c) eqn:Hc.
    + pose proof Hc as Hc'. apply isSep_slash in Hc'. subst c.
      rewrite IdentFacts.cleanLoop_sep.
      cbn [elements] in Hall |- *. rewrite Hc in Hall |- *.
      cbn [forallb existsb] in Hall |- *.
      destruct (IH rest out ltac:(lia) Hall) as (x & Ex & Hx).
      exists x. split; [exact Ex | exact Hx].
    + rewrite (cleanLoop_elem _ c rest out Hc). cbv zeta.
      rewrite (forallb_elements c rest _ Hc eq_refl) in Hall.
      rewrite (existsb_elements c rest isProper Hc eq_refl).
      rewrite (splitElem_first c rest Hc) in *. cbn [fst snd] in *.
      set (e := String c (fst (splitElem rest))) in *.
      set (r := snd (splitElem rest)) in *.
      apply andb_prop in Hall. destruct Hall as [Hnd Hall].
      apply negb_true_iff in Hnd. rewrite Hnd.
      destruct (String.eqb e ".") eqn:Edot.
      * destruct (IH r out ltac:(lia) Hall) as (x & Ex & Hx).
        exists x. split; [exact Ex |].
        unfold isProper. rewrite Edot. cbn [negb andb orb].
        rewrite andb_false_r. exact Hx.
      * destruct (IH r (reverse e +:+
                        (if negb (String.length out =? 1)%nat then String "/" out else out))
                    ltac:(lia) Hall) as (x & Ex & _).
        exists (x +:+ reverse e +:+
                (if negb (String.length out =? 1)%nat then "/" else "")).
        split.
        -- rewrite Ex. rewrite !StringFacts.app_assoc.
           destruct (String.length out =? 1)%nat; reflexivity.
        -- intros _ Hout. apply Nat.eqb_neq in Hout. rewrite Hout. cbn [negb].
           exists (x +:+ reverse e). now rewrite StringFacts.app_assoc.
Qed.

(** *** Cleaning a path after another *)

Lemma splitElem_app (a b : string) :
  splitElem (a +:+ String "/" b)
  = (fst (splitElem a), snd (splitElem a) +:+ String "/" b).
Proof.
  induction a as [|c a IH]; [reflexivity |].
  cbn [String.append splitElem]. destruct (isSep c); [reflexivity |].
  rewrite IH. now destruct (splitElem a).
Qed.

Lemma cleanLoop_app (fuel : nat) :
  forall (a b out : string),
    (String.length (a +:+ String "/" b) <= fuel)%nat ->
    cleanLoop fuel true (a +:+ String "/" b) out 1
    = cleanLoop fuel true (String "/" b) (cleanLoop fuel true a out 1) 1.
Proof.
  induction fuel as [|fuel IH]; intros a b out Hlen.
  - rewrite StringFacts.length_app in Hlen. cbn in Hlen. lia.
  - destruct a as [|c a]; [now rewrite IdentFacts.cleanLoop_nil |].
    cbn [String.append String.length] in Hlen.
    pose proof (splitElem_length a) as Hr.
    assert (Hb : (String.length (String "/" b) <= fuel)%nat).
    { rewrite StringFacts.length_app in Hlen. lia. }
    assert (Hsub : forall a' out',
               (String.length a' <= String.length a)%nat ->
               cleanLoop fuel true (a' +:+ String "/" b) out' 1
               = cleanLoop (S fuel) true (String "/" b) (cleanLoop fuel true a' out' 1) 1).
    { intros a' out' Ha'.
      rewrite (cleanLoop_fuel (S fuel) fuel (String "/" b)) by lia.
      apply IH. rewrite StringFacts.length_app in *. lia. }
    cbn [String.append]. destruct (isSep c) eqn:Hc.
    + apply isSep_slash in Hc. subst c. rewrite !IdentFacts.cleanLoop_sep.
      now apply Hsub.
    + rewrite (cleanLoop_elem fuel c (a +:+ String "/" b) out Hc).
      rewrite (cleanLoop_elem fuel c a out Hc). cbv zeta.
      change (String c (a +:+ String "/" b)) with (String c a +:+ String "/" b).
      rewrite (splitElem_app (String c a) b). cbn [fst snd].
      rewrite (splitElem_first c a Hc). cbn [fst snd].
      repeat match goal with |- context [if ?x then _ else _] => destruct x end;
        now apply Hsub.
Qed.

End PathFacts.

Import Strings Filepath.

(** X22. [unzip] accepts the ordinary names: when the destination is an
    absolute path other than the root, a member whose name has no [..]
    among its elements, and has an element that is neither empty nor [.],
    passes the test of its path. *)
Theorem unzip_accepts_ordinary_names (dest name : string) (isDir : bool) :
  HasPrefix dest "/" = true ->
  String.length (Clean dest) <> 1%nat ->
  Unzip.ordinary name = true ->
  Unzip.legal dest (Unzip.mkZipFile name isDir) = true.
Proof.
  intros Hroot Hlen Hord.
  destruct dest as [|c d]; [discriminate Hroot |].
  cbn [HasPrefix] in Hroot. rewrite andb_true_r in Hroot.
  apply Ascii.eqb_eq in Hroot. subst c.
  apply andb_prop in Hord. destruct Hord as [Hall Hex].
  assert (HJ : Join [String "/" d; name] = Clean (String "/" (d +:+ String "/" name)))
    by reflexivity.
  assert (HC : forall p out,
             cleanLoop (S (String.length p)) true p "/" 1 = out -> out <> "" ->
             Clean (String "/" p) = reverse out).
  { intros p out <- Hne. unfold Clean. cbn [isSep drop String.length].
    change (Ascii.eqb "/" "/") with true. cbv iota.
    destruct (cleanLoop (S (String.length p)) true p "/" 1); [now destruct Hne |].
    reflexivity. }
  unfold Unzip.legal. cbn [Unzip.zf_Name]. rewrite HJ.
  set (od := cleanLoop (S (String.length d)) true d "/" 1) in *.
  assert (Hod : od <> "").
  { intros E. apply Hlen. unfold Clean. cbn [isSep drop String.length].
    change (Ascii.eqb "/" "/") with true. cbv iota. fold od. now rewrite E. }
  rewrite (HC d od eq_refl Hod) in *. rewrite StringFacts.length_reverse in Hlen.
  set (p := d +:+ String "/" name).
  assert (Hp : String.length p = (String.length d + S (String.length name))%nat)
    by (unfold p; now rewrite StringFacts.length_app).
  assert (Hout : exists y, cleanLoop (S (String.length p)) true p "/" 1
                           = (y +:+ "/") +:+ od).
  { unfold p at 2. rewrite PathFacts.cleanLoop_app by (fold p; lia).
    rewrite (PathFacts.cleanLoop_fuel (S (String.length p)) (S (String.length d)) d)
      by lia.
    fold od. rewrite IdentFacts.cleanLoop_sep.
    destruct (PathFacts.cleanLoop_ordinary (String.length p) name od ltac:(lia) Hall)
      as (x & Ex & Hx).
    destruct (Hx Hex Hlen) as (y & ->). now exists y. }
  destruct Hout as (y & Hout).
  assert (Hne : (y +:+ "/") +:+ od <> "").
  { intros E. apply (f_equal String.length) in E.
    rewrite !StringFacts.length_app in E. cbn in E. lia. }
  rewrite (HC p _ Hout Hne). rewrite !StringFacts.reverse_app.
  change (reverse "/") with "/".
  rewrite <- StringFacts.app_assoc. apply NameFacts.HasPrefix_app.
Qed.

Lemma unzip_accepts_ordinary_names_witness :
  (HasPrefix "/tmp/aj" "/" = true /\ String.length (Clean "/tmp/aj") <> 1%nat
   /\ Unzip.ordinary "Entries/2025-05-14_Morning_Walk.html" = true)
  /\ Unzip.legal "/tmp/aj" (Unzip.mkZipFile "Entries/2025-05-14_Morning_Walk.html" false)
     = true.
Proof.
  assert (H1 : HasPrefix "/tmp/aj" "/" = true) by reflexivity.
  assert (H2 : String.length (Clean "/tmp/aj") <> 1%nat) by (vm_compute; discriminate).
  assert (H3 : Unzip.ordinary "Entries/2025-05-14_Morning_Walk.html" = true)
    by reflexivity.
  split; [auto |].
  exact (unzip_accepts_ordinary_names "/tmp/aj" "Entries/2025-05-14_Morning_Walk.html"
           false H1 H2 H3).
Defined.

(** ** Where an image reference leads *)

Module ImageFacts.
Import Strings Filepath ProofDefs Paths.
Import PathFacts.

#[local] Arguments String.append : simpl nomatch.

(** *** The steps of the loop of [Clean] *)

Lemma cleanRooted_nil (out : string) : cleanRooted "" out = out.
Proof. reflexivity. Qed.

Lemma cleanRooted_sep (q out : string) :
  cleanRooted (String "/" q) out = cleanRooted q out.
Proof.
  unfold cleanRooted. cbn [String.length]. now rewrite IdentFacts.cleanLoop_sep.
Qed.

Lemma splitElem_plain (e r : string) :
  allBytes notSep e = true -> atElemEnd r = true -> splitElem (e +:+ r) = (e, r).
Proof.
  intros He Hr. induction e as [|c e IH]; [now apply splitElem_sep |].
  cbn [allBytes] in He. apply andb_prop in He. destruct He as [Hc He].
  unfold notSep in Hc. apply negb_true_iff in Hc.
  cbn [String.append splitElem]. now rewrite Hc, (IH He).
Qed.

Lemma plain_cases (e : string) :
  plain e = true ->
  allBytes notSep e = true /\ String.eqb e "." = false /\ String.eqb e ".." = false /\
  exists c e', e = String c e' /\ isSep c = false.
Proof.
  unfold plain, Unzip.isProper. intros H.
  apply andb_prop in H. destruct H as [H Hall].
  apply andb_prop in H. destruct H as [H Hdd].
  apply andb_prop in H. destruct H as [Hne Hd].
  apply negb_true_iff in Hne, Hd, Hdd.
  split; [exact Hall |]. split; [exact Hd |]. split; [exact Hdd |].
  destruct e as [|c e']; [discriminate Hne |]. exists c, e'. split; [reflexivity |].
  cbn [allBytes] in Hall. apply andb_prop in Hall. destruct Hall as [Hc _].
  unfold notSep in Hc. now apply negb_true_iff in Hc.
Qed.

Lemma cleanRooted_plain (e r out : string) :
  plain e = true -> atElemEnd r = true -> String.length out <> 1%nat ->
  cleanRooted (e +:+ r) out = cleanRooted r (reverse e +:+ String "/" out).
Proof.
  intros He Hr Hout. destruct (plain_cases e He) as (Hall & Hd & Hdd & c & e' & -> & Hc).
  unfold cleanRooted. cbn [String.append String.length].
  rewrite (cleanLoop_elem _ c (e' +:+ r) out Hc). cbv zeta.
  change (String c (e' +:+ r)) with (String c e' +:+ r).
  rewrite (splitElem_plain (String c e') r Hall Hr). cbn [fst snd].
  rewrite Hd, Hdd. apply Nat.eqb_neq in Hout. rewrite Hout. cbn [negb].
  apply cleanLoop_fuel; rewrite ?StringFacts.length_app; lia.
Qed.

Lemma cleanRooted_dotdot (r out : string) :
  atElemEnd r = true -> (1 < String.length out)%nat ->
  cleanRooted (String "." (String "." r)) out = cleanRooted r (backtrack out 1).
Proof.
  intros Hr Hout. unfold cleanRooted. cbn [String.length].
  rewrite (cleanLoop_elem _ "." (String "." r) out eq_refl). cbv zeta.
  change (String "." (String "." r)) with (".." +:+ r).
  rewrite (splitElem_plain ".." r eq_refl Hr). cbn [fst snd].
  change (String.eqb ".." ".") with false. change (String.eqb ".." "..") with true.
  cbv iota. apply Nat.ltb_lt in Hout. rewrite Hout.
  apply cleanLoop_fuel; lia.
Qed.

(** [..] takes the last element away. *)
Lemma backtrack_element (x out : string) :
  allBytes notSep x = true -> (1 <= String.length out)%nat ->
  backtrack (x +:+ String "/" out) 1 = out.
Proof.
  intros Hx Hout. induction x as [|c x IH].
  - cbn [String.append backtrack]. change (isSep "/") with true.
    cbn [negb]. now rewrite andb_false_r.
  - cbn [allBytes] in Hx. apply andb_prop in Hx. destruct Hx as [Hc Hx].
    unfold notSep in Hc. cbn [String.append backtrack]. rewrite Hc.
    assert (Hlen : (1 <? String.length (x +:+ String "/" out))%nat = true).
    { apply Nat.ltb_lt. rewrite StringFacts.length_app. cbn [String.length]. lia. }
    rewrite Hlen. cbn [andb]. now apply IH.
Qed.

Lemma allBytes_reverse (p : ascii -> bool) (s : string) :
  allBytes p (reverse s) = allBytes p s.
Proof.
  induction s as [|c s IH]; [reflexivity |].
  rewrite StringFacts.reverse_cons, IdentFacts.allBytes_app, IH. cbn [allBytes].
  rewrite andb_true_r. apply andb_comm.
Qed.

(** *** Paths under a clean root *)

Lemma Clean_under_root (root q : string) :
  HasPrefix root "/" = true -> Clean root = root ->
  cleanRooted q (reverse root) <> "" ->
  Clean (root +:+ String "/" q) = reverse (cleanRooted q (reverse root)).
Proof.
  intros Hroot Hclean Hne. destruct root as [|c d]; [discriminate Hroot |].
  cbn [HasPrefix] in Hroot. rewrite andb_true_r in Hroot.
  apply Ascii.eqb_eq in Hroot. subst c.
  assert (Hod : cleanLoop (S (String.length d)) true d "/" 1 = reverse (String "/" d)).
  { unfold Clean in Hclean. cbn [drop String.length] in Hclean.
    change (isSep "/") with true in Hclean. cbv iota in Hclean.
    destruct (cleanLoop (S (String.length d)) true d "/" 1) as [|a s] eqn:E;
      [discriminate Hclean |].
    apply (f_equal reverse) in Hclean.
    now rewrite StringFacts.reverse_involutive in Hclean. }
  assert (Hout : cleanLoop (S (String.length (d +:+ String "/" q))) true
                   (d +:+ String "/" q) "/" 1
                 = cleanRooted q (reverse (String "/" d))).
  { rewrite cleanLoop_app by lia.
    rewrite (cleanLoop_fuel _ (S (String.length d)) d)
      by (rewrite ?StringFacts.length_app; lia).
    rewrite Hod, IdentFacts.cleanLoop_sep. unfold cleanRooted.
    apply cleanLoop_fuel; rewrite ?StringFacts.length_app; cbn [String.length]; lia. }
  change (String "/" d +:+ String "/" q) with (String "/" (d +:+ String "/" q)).
  unfold Clean. cbn [drop String.length].
  change (isSep "/") with true. cbv iota. rewrite Hout.
  destruct (cleanRooted q (reverse (String "/" d))); [now destruct Hne | reflexivity].
Qed.

Lemma lastElemRev_plain (x y acc : string) :
  allBytes notSep x = true ->
  snd (lastElemRev acc (x +:+ String "/" y)) = String "/" y.
Proof.
  revert acc. induction x as [|c x IH]; intros acc Hx; [reflexivity |].
  cbn [allBytes] in Hx. apply andb_prop in Hx. destruct Hx as [Hc Hx].
  unfold notSep in Hc. apply negb_true_iff in Hc.
  cbn [String.append lastElemRev]. rewrite Hc. now apply IH.
Qed.

Lemma Dir_of_file (p file : string) :
  allBytes notSep file = true -> Dir (p +:+ String "/" file) = Clean (p +:+ "/").
Proof.
  intros Hf. unfold Dir.
  rewrite StringFacts.reverse_app, StringFacts.reverse_cons, StringFacts.app_assoc.
  change ("/" +:+ reverse p) with (String "/" (reverse p)).
  rewrite lastElemRev_plain by (now rewrite allBytes_reverse).
  now rewrite StringFacts.reverse_cons, StringFacts.reverse_involutive.
Qed.

End ImageFacts.

Import Strings Filepath ProofDefs Paths.

(** X23. An image reference is resolved from the folder of the entry:
    in the entry [root/entries/file], the reference [../resources/img]
    leads to [root/resources/img] (for a clean absolute [root] other than
    [/] and plain names), and this path is the source of the copy
    instruction when the photo is recorded. *)
Theorem image_reference_resolves_under_root (root entries resources file img : string) :
  HasPrefix root "/" = true -> Clean root = root -> String.length root <> 1%nat ->
  plain entries = true -> plain resources = true ->
  allBytes notSep file = true -> plain img = true ->
  let htmlFilePath := root +:+ "/" +:+ entries +:+ "/" +:+ file in
  let imgSrc := "../" +:+ resources +:+ "/" +:+ img in
  let absImgSrc := root +:+ "/" +:+ resources +:+ "/" +:+ img in
  resolveImage htmlFilePath imgSrc = absImgSrc
  /\ forall W date imgSel es st md5Hash,
       Html.Attr imgSel "src" = Some imgSrc ->
       isImageExt (imageExt W htmlFilePath imgSrc) = true ->
       stat W absImgSrc <> StatNotExist ->
       calculateMD5 W absImgSrc = Ok md5Hash ->
       is_Some (es_mediaToCopy (fst (processImage W htmlFilePath date imgSel es st))
                  !! absImgSrc).
Proof.
  intros Hroot Hclean Hlen He Hr Hf Hi. cbv zeta.
  set (od := reverse root).
  assert (Hod : String.length od <> 1%nat)
    by (unfold od; now rewrite StringFacts.length_reverse).
  assert (Hod1 : (1 <= String.length od)%nat).
  { unfold od. rewrite StringFacts.length_reverse.
    destruct root; [discriminate Hroot | cbn; lia]. }
  destruct (ImageFacts.plain_cases entries He) as (Hea & _).
  assert (Hgrow : forall x y, (1 <= String.length y)%nat ->
                              String.length (x +:+ String "/" y) <> 1%nat
                              /\ x +:+ String "/" y <> "").
  { intros x y Hy. split.
    - rewrite StringFacts.length_app. cbn [String.length]. lia.
    - intros E. apply (f_equal String.length) in E.
      rewrite StringFacts.length_app in E. cbn in E. lia. }
  (* the folder of the entry *)
  assert (HD : Dir (root +:+ "/" +:+ entries +:+ "/" +:+ file) = root +:+ "/" +:+ entries).
  { replace (root +:+ "/" +:+ entries +:+ "/" +:+ file)
      with ((root +:+ "/" +:+ entries) +:+ String "/" file)
      by (now rewrite !StringFacts.app_assoc).
    rewrite (ImageFacts.Dir_of_file _ file Hf).
    replace ((root +:+ "/" +:+ entries) +:+ "/")
      with (root +:+ String "/" (entries +:+ "/"))
      by (now rewrite !StringFacts.app_assoc).
    assert (Hc : cleanRooted (entries +:+ "/") od = reverse entries +:+ String "/" od).
    { rewrite (ImageFacts.cleanRooted_plain entries "/" od He eq_refl Hod).
      now rewrite ImageFacts.cleanRooted_sep, ImageFacts.cleanRooted_nil. }
    rewrite (ImageFacts.Clean_under_root root _ Hroot Hclean); fold od; rewrite Hc;
      [| now apply Hgrow].
    rewrite StringFacts.reverse_app, StringFacts.reverse_cons.
    unfold od. rewrite !StringFacts.reverse_involutive.
    now rewrite !StringFacts.app_assoc. }
  (* a path under the other folder *)
  assert (HT : forall q,
             cleanRooted q od = reverse img +:+ String "/" (reverse resources +:+ String "/" od) ->
             Clean (root +:+ String "/" q) = root +:+ "/" +:+ resources +:+ "/" +:+ img).
  { intros q Hq.
    rewrite (ImageFacts.Clean_under_root root q Hroot Hclean); fold od; rewrite Hq;
      [| apply Hgrow; rewrite StringFacts.length_app; cbn [String.length]; lia].
    rewrite StringFacts.reverse_app, StringFacts.reverse_cons.
    rewrite StringFacts.reverse_app, StringFacts.reverse_cons.
    unfold od. rewrite !StringFacts.reverse_involutive.
    now rewrite !StringFacts.app_assoc. }
  assert (Htail : cleanRooted (resources +:+ String "/" img) od
                  = reverse img +:+ String "/" (reverse resources +:+ String "/" od)).
  { rewrite (ImageFacts.cleanRooted_plain resources (String "/" img) od Hr eq_refl Hod).
    rewrite ImageFacts.cleanRooted_sep.
    rewrite <- (StringFacts.app_empty_r img) at 1.
    rewrite (ImageFacts.cleanRooted_plain img "" _ Hi eq_refl (proj1 (Hgrow _ _ Hod1))).
    apply ImageFacts.cleanRooted_nil. }
  assert (Hres : resolveImage (root +:+ "/" +:+ entries +:+ "/" +:+ file)
                   ("../" +:+ resources +:+ "/" +:+ img)
                 = root +:+ "/" +:+ resources +:+ "/" +:+ img).
  { unfold resolveImage. rewrite HD.
    assert (HJ : Join [root +:+ "/" +:+ entries; "../" +:+ resources +:+ "/" +:+ img]
                 = Clean (root +:+ String "/"
                            (entries +:+ String "/"
                               (String "." (String "." (String "/"
                                  (resources +:+ String "/" img))))))).
    { destruct root as [|c d]; [discriminate Hroot |].
      cbn [Join joinWith String.append]. now rewrite !StringFacts.app_assoc. }
    rewrite HJ. rewrite (HT _).
    - apply (HT (resources +:+ String "/" img)). exact Htail.
    - rewrite (ImageFacts.cleanRooted_plain entries
                 (String "/" (String "." (String "." (String "/"
                    (resources +:+ String "/" img))))) od He eq_refl Hod).
      rewrite ImageFacts.cleanRooted_sep.
      rewrite ImageFacts.cleanRooted_dotdot;
        [| reflexivity
         | rewrite StringFacts.length_app; cbn [String.length]; lia].
      rewrite ImageFacts.backtrack_element
        by (rewrite ?ImageFacts.allBytes_reverse; assumption).
      rewrite ImageFacts.cleanRooted_sep. exact Htail. }
  split; [exact Hres |].
  intros W date imgSel es st md5Hash Hattr Hext Hstat Hmd5.
  rewrite EntryFacts.processImage_eq, Hattr.
  change ("../" +:+ resources +:+ "/" +:+ img)
    with (String "." (String "." (String "/" (resources +:+ String "/" img)))) in *.
  cbv zeta. rewrite Hext, Hres. cbn [negb].
  destruct (stat W (root +:+ "/" +:+ resources +:+ "/" +:+ img)) eqn:Es;
    [| now destruct Hstat |]; rewrite Hmd5; cbn [fst withPhoto es_mediaToCopy];
    rewrite lookup_insert_eq; eauto.
Qed.

Lemma image_reference_resolves_under_root_witness :
  (HasPrefix "/tmp/aj" "/" = true /\ Clean "/tmp/aj" = "/tmp/aj"
   /\ String.length "/tmp/aj" <> 1%nat
   /\ plain "Entries" = true /\ plain "Resources" = true
   /\ allBytes notSep "2025-05-14_Morning_Walk.html" = true /\ plain "IMG1.png" = true)
  /\ resolveImage "/tmp/aj/Entries/2025-05-14_Morning_Walk.html" "../Resources/IMG1.png"
     = "/tmp/aj/Resources/IMG1.png".
Proof.
  assert (H1 : HasPrefix "/tmp/aj" "/" = true) by reflexivity.
  assert (H2 : Clean "/tmp/aj" = "/tmp/aj") by reflexivity.
  assert (H3 : String.length "/tmp/aj" <> 1%nat) by (cbn; discriminate).
  assert (H4 : plain "Entries" = true) by reflexivity.
  assert (H5 : plain "Resources" = true) by reflexivity.
  assert (H6 : allBytes notSep "2025-05-14_Morning_Walk.html" = true) by reflexivity.
  assert (H7 : plain "IMG1.png" = true) by reflexivity.
  split; [repeat split; assumption |].
  exact (proj1 (image_reference_resolves_under_root "/tmp/aj" "Entries" "Resources"
                  "2025-05-14_Morning_Walk.html" "IMG1.png" H1 H2 H3 H4 H5 H6 H7)).
Defined.

(** ** The placeholders in the text of an entry *)

Module PlaceholderFacts.
Import Strings Filepath ProofDefs Body.
Import StringFacts IdentFacts EntryFacts.

(** *** A text within another *)

Lemma Contains_cons (c : ascii) (s p : string) :
  Contains (String c s) p = HasPrefix (String c s) p || Contains s p.
Proof. reflexivity. Qed.

Lemma HasPrefix_longer (x y p : string) :
  HasPrefix x p = true -> HasPrefix (x +:+ y) p = true.
Proof.
  revert x. induction p as [|d p IH]; intros x H; [reflexivity |].
  destruct x as [|c x]; [discriminate H |].
  cbn [HasPrefix] in H. apply andb_prop in H. destruct H as [Hc H].
  change (String c x +:+ y) with (String c (x +:+ y)). cbn [HasPrefix].
  now rewrite Hc, (IH x H).
Qed.

Lemma Contains_app_l (x y p : string) :
  Contains x p = true -> Contains (x +:+ y) p = true.
Proof.
  induction x as [|c x IH]; intros H.
  - cbn [Contains] in H. rewrite orb_false_r in H.
    destruct p; [| discriminate H]. destruct y; reflexivity.
  - rewrite Contains_cons in H. apply orb_prop in H.
    change (String c x +:+ y) with (String c (x +:+ y)). rewrite Contains_cons.
    destruct H as [H | H].
    + change (String c (x +:+ y)) with (String c x +:+ y).
      now rewrite (HasPrefix_longer _ y _ H).
    + rewrite (IH H). apply orb_true_r.
Qed.

Lemma Contains_app_r (x y p : string) :
  Contains y p = true -> Contains (x +:+ y) p = true.
Proof.
  intros H. induction x as [|c x IH]; [exact H |].
  change (String c x +:+ y) with (String c (x +:+ y)).
  rewrite Contains_cons, IH. apply orb_true_r.
Qed.

(** A text without line feed that begins before a line feed ends before
    it. *)
Lemma HasPrefix_before_LF (a b p : string) :
  allBytes notLF p = true ->
  HasPrefix (a +:+ String "010" b) p = true -> HasPrefix a p = true.
Proof.
  revert a. induction p as [|d p IH]; intros a Hp H; [reflexivity |].
  cbn [allBytes] in Hp. apply andb_prop in Hp. destruct Hp as [Hd Hp].
  destruct a as [|c a].
  - change ("" +:+ String "010" b) with (String "010" b) in H.
    cbn [HasPrefix] in H. apply andb_prop in H. destruct H as [H _].
    apply Ascii.eqb_eq in H. subst d. discriminate Hd.
  - change (String c a +:+ String "010" b) with (String c (a +:+ String "010" b)) in H.
    cbn [HasPrefix] in H |- *. apply andb_prop in H. destruct H as [Hc H].
    now rewrite Hc, (IH a Hp H).
Qed.

Lemma Contains_before_LF (a b p : string) :
  allBytes notLF p = true ->
  Contains (a +:+ String "010" b) p = true ->
  Contains a p = true \/ Contains b p = true.
Proof.
  intros Hp. induction a as [|c a IH]; intros H.
  - change ("" +:+ String "010" b) with (String "010" b) in H.
    rewrite Contains_cons in H. apply orb_prop in H.
    destruct H as [H | H]; [| now right].
    left. apply (HasPrefix_before_LF "" b p Hp) in H.
    cbn [Contains]. now rewrite H.
  - change (String c a +:+ String "010" b) with (String c (a +:+ String "010" b)) in H.
    rewrite Contains_cons in H. apply orb_prop in H. destruct H as [H | H].
    + left. apply (HasPrefix_before_LF (String c a) b p Hp) in H.
      now rewrite Contains_cons, H.
    + destruct (IH H) as [Ha | Hb]; [left | now right].
      rewrite Contains_cons, Ha. apply orb_true_r.
Qed.

(** A piece that ends with a blank line: what is in the piece and what
    follows are apart. *)
Lemma Contains_blank_line_then (body rest p : string) :
  allBytes notLF p = true -> Contains "" p = false ->
  Contains (body +:+ LF +:+ LF +:+ rest) p = true ->
  Contains body p = true \/ Contains rest p = true.
Proof.
  intros Hp He H.
  change (body +:+ LF +:+ LF +:+ rest)
    with (body +:+ String "010" (String "010" rest)) in H.
  apply (Contains_before_LF _ _ _ Hp) in H.
  destruct H as [H | H]; [now left |].
  apply (Contains_before_LF "" _ _ Hp) in H.
  destruct H as [H | H]; [congruence | now right].
Qed.

Lemma Contains_blank_line (body rest p : string) :
  allBytes notLF p = true -> Contains "" p = false ->
  Contains ((body +:+ LF +:+ LF) +:+ rest) p = true ->
  Contains body p = true \/ Contains rest p = true.
Proof.
  intros Hp He H. apply (Contains_blank_line_then body rest p Hp He).
  now rewrite (app_assoc body (LF +:+ LF) rest) in H.
Qed.

(** *** [strings.TrimSpace] gives a part of the text *)

Lemma drop_suffix (n : nat) (s : string) : exists x, s = x +:+ drop n s.
Proof.
  revert s. induction n as [|n IH]; intros s; [now exists "" |].
  destruct s as [|c s]; [now exists "" |]. cbn [drop].
  destruct (IH s) as [x Hx]. exists (String c x).
  change (String c x +:+ drop n s) with (String c (x +:+ drop n s)). now rewrite <- Hx.
Qed.

Lemma stripSpace_suffix (encs : list string) (s s' : string) :
  stripSpace encs s = Some s' -> exists x, s = x +:+ s'.
Proof.
  unfold stripSpace. destruct s as [|c r]; [discriminate |].
  destruct (isAsciiSpace c).
  - intros H. injection H as <-. now exists (String c "").
  - destruct (List.find _ encs) as [e|]; [| discriminate].
    intros H. injection H as <-. apply drop_suffix.
Qed.

Lemma trimLoop_suffix (fuel : nat) (encs : list string) :
  forall s, exists x, s = x +:+ trimLoop fuel encs s.
Proof.
  induction fuel as [|fuel IH]; intros s; [now exists "" |].
  cbn [trimLoop]. destruct (stripSpace encs s) as [s'|] eqn:Hs; [| now exists ""].
  destruct (stripSpace_suffix _ _ _ Hs) as [x ->]. destruct (IH s') as [y Hy].
  exists (x +:+ y). rewrite app_assoc. apply f_equal. exact Hy.
Qed.

Lemma TrimSpace_within (s : string) : exists a b, s = a +:+ TrimSpace s +:+ b.
Proof.
  unfold TrimSpace, TrimLeftSpace, TrimRightSpace.
  destruct (trimLoop_suffix (String.length s) unicodeSpaces s) as [a Ha].
  set (l := trimLoop (String.length s) unicodeSpaces s) in *.
  destruct (trimLoop_suffix (String.length l) (map reverse unicodeSpaces) (reverse l))
    as [y Hy].
  set (r := trimLoop (String.length l) (map reverse unicodeSpaces) (reverse l)) in *.
  exists a, (reverse y).
  rewrite <- reverse_app, <- Hy, reverse_involutive. exact Ha.
Qed.

Lemma Contains_TrimSpace (s p : string) :
  Contains (TrimSpace s) p = true -> Contains s p = true.
Proof.
  intros H. destruct (TrimSpace_within s) as (a & b & E).
  rewrite E. apply Contains_app_r, Contains_app_l, H.
Qed.

(** *** Placeholders *)

Lemma placeholder_cons (photoUUID : string) :
  placeholder photoUUID = String "!" ("[](dayone-moment://" +:+ photoUUID +:+ ")").
Proof. reflexivity. Qed.

Lemma placeholder_notLF (photoUUID : string) :
  allBytes notLF photoUUID = true -> allBytes notLF (placeholder photoUUID) = true.
Proof.
  intros H. unfold placeholder. now rewrite !allBytes_app, H.
Qed.

Lemma placeholder_not_empty (photoUUID : string) :
  Contains "" (placeholder photoUUID) = false.
Proof. reflexivity. Qed.

Lemma Contains_other_byte (c : ascii) (s p' : string) :
  allBytes (fun b => negb (Ascii.eqb c b)) s = true ->
  Contains s (String c p') = false.
Proof.
  induction s as [|b s IH]; intros H; [reflexivity |].
  cbn [allBytes] in H. apply andb_prop in H. destruct H as [Hb Hs].
  rewrite Contains_cons, (IH Hs). cbn [HasPrefix].
  apply negb_true_iff in Hb. now rewrite Hb.
Qed.

Lemma upperHex_notBang (b : ascii) :
  isUpperHexByte b = true -> negb (Ascii.eqb "!" b) = true.
Proof. destruct b as [[] [] [] [] [] [] [] []]; intros H; try discriminate H; reflexivity. Qed.

Lemma upperHex_notParen (b : ascii) : isUpperHexByte b = true -> b <> ")"%char.
Proof. intros H ->. discriminate H. Qed.

(** An identifier that ends where another one, of hexadecimal digits,
    ends, is this one. *)
Lemma HasPrefix_identifier (id' id : string) :
  allBytes isUpperHexByte id' = true ->
  HasPrefix (id' +:+ ")") (id +:+ ")") = true -> id = id'.
Proof.
  revert id. induction id' as [|h t IH]; intros id Hh H.
  - destruct id as [|c r]; [reflexivity |].
    change ("" +:+ ")") with ")" in H.
    change (String c r +:+ ")") with (String c (r +:+ ")")) in H.
    cbn [HasPrefix] in H. apply andb_prop in H. destruct H as [_ H].
    destruct r; discriminate H.
  - cbn [allBytes] in Hh. apply andb_prop in Hh. destruct Hh as [Hh Ht].
    change (String h t +:+ ")") with (String h (t +:+ ")")) in H.
    destruct id as [|c r].
    + change ("" +:+ ")") with ")" in H. cbn [HasPrefix] in H.
      apply andb_prop in H. destruct H as [H _]. apply Ascii.eqb_eq in H.
      symmetry in H. now apply upperHex_notParen in H.
    + change (String c r +:+ ")") with (String c (r +:+ ")")) in H.
      cbn [HasPrefix] in H. apply andb_prop in H. destruct H as [Hc H].
      apply Ascii.eqb_eq in Hc. subst c. f_equal. now apply IH.
Qed.

(** The placeholder of an identifier holds no other placeholder. *)
Lemma placeholder_within_placeholder (id' id : string) :
  allBytes isUpperHexByte id' = true ->
  Contains (placeholder id') (placeholder id) = true -> id = id'.
Proof.
  intros Hh H. rewrite (placeholder_cons id') in H.
  rewrite Contains_cons in H. apply orb_prop in H. destruct H as [H | H].
  - apply (HasPrefix_identifier id' id Hh). exact H.
  - exfalso. rewrite (placeholder_cons id) in H.
    rewrite Contains_other_byte in H; [discriminate H |].
    pose proof (allBytes_impl isUpperHexByte _ id' upperHex_notBang Hh) as Hb.
    rewrite !allBytes_app, Hb. reflexivity.
Qed.

(** A placeholder in the text of the body is in one of the pieces
    written: in the text that a node was converted to, or in the
    reference to a photo. *)
Lemma builder_placeholder (W : World) (b : Builder) (p : string) :
  allBytes notLF p = true -> Contains "" p = false ->
  Forall (convertedPiece W) b ->
  Contains (builderString b) p = true ->
  (exists n markdownFrag,
      convertString W (outerHtmlOrEmpty W n) = Ok markdownFrag /\
      In (MarkdownText (TrimSpace markdownFrag +:+ LF +:+ LF)) b /\
      Contains (TrimSpace markdownFrag) p = true)
  \/ (exists photoUUID, In (PhotoRef photoUUID) b /\
                        Contains (placeholder photoUUID) p = true).
Proof.
  intros Hp He Hall. induction Hall as [|piece b Hpiece Hall IH]; intros H.
  - change (builderString []) with "" in H. congruence.
  - change (builderString (piece :: b)) with (pieceString piece +:+ builderString b) in H.
    assert (Hrest : Contains (builderString b) p = true ->
              (exists n markdownFrag,
                  convertString W (outerHtmlOrEmpty W n) = Ok markdownFrag /\
                  In (MarkdownText (TrimSpace markdownFrag +:+ LF +:+ LF)) (piece :: b) /\
                  Contains (TrimSpace markdownFrag) p = true)
              \/ (exists photoUUID, In (PhotoRef photoUUID) (piece :: b) /\
                                    Contains (placeholder photoUUID) p = true)).
    { intros H1. destruct (IH H1) as [(n & frag & Hc & Hin & Hf) | (id & Hin & Hf)].
      - left. exists n, frag. split; [exact Hc |]. split; [now right | exact Hf].
      - right. exists id. split; [now right | exact Hf]. }
    destruct piece as [text | id].
    + destruct Hpiece as (n & frag & _ & Hc & ->). cbn [pieceString] in H.
      destruct (Contains_blank_line _ _ _ Hp He H) as [H1 | H1]; [| now apply Hrest].
      left. exists n, frag. split; [exact Hc |]. split; [now left | exact H1].
    + assert (E : pieceString (PhotoRef id) = placeholder id +:+ LF +:+ LF).
      { unfold pieceString, placeholder. now rewrite !app_assoc. }
      rewrite E in H.
      destruct (Contains_blank_line _ _ _ Hp He H) as [H1 | H1]; [| now apply Hrest].
      right. exists id. split; [now left | exact H1].
Qed.

(** A placeholder in the text of an entry is in the title or in the
    text of the body. *)
Lemma entryText_placeholder (entryTitle : string) (es : EntryState) (photoUUID : string) :
  allBytes notLF photoUUID = true ->
  Contains (entryText entryTitle es) (placeholder photoUUID) = true ->
  Contains entryTitle (placeholder photoUUID) = true
  \/ Contains (builderString (es_bodyMarkdownBuilder es)) (placeholder photoUUID) = true.
Proof.
  intros Hid H. pose proof (placeholder_notLF photoUUID Hid) as Hp.
  unfold entryText in H. cbv zeta in H.
  destruct entryTitle as [|c t]; [right; now apply Contains_TrimSpace |].
  set (text := TrimSpace (builderString (es_bodyMarkdownBuilder es))) in *.
  change ("# " +:+ String c t +:+ LF +:+ LF +:+ text)
    with (String "#" (String " " (String c t +:+ LF +:+ LF +:+ text))) in H.
  assert (Hskip : forall b s,
             negb (Ascii.eqb "!" b) = true ->
             Contains (String b s) (placeholder photoUUID) = true ->
             Contains s (placeholder photoUUID) = true).
  { intros b s Hb Hc. rewrite Contains_cons, (placeholder_cons photoUUID) in Hc.
    cbn [HasPrefix] in Hc. apply negb_true_iff in Hb. rewrite Hb in Hc.
    rewrite <- (placeholder_cons photoUUID) in Hc. exact Hc. }
  apply Hskip in H; [| reflexivity]. apply Hskip in H; [| reflexivity].
  destruct (Contains_blank_line_then _ _ _ Hp (placeholder_not_empty photoUUID) H)
    as [H1 | H1].
  - now left.
  - right. now apply Contains_TrimSpace.
Qed.

End PlaceholderFacts.

Import Strings Filepath ProofDefs.

(** C6, as the specification has it, fails: a document whose title is the
    text of a placeholder (with the identifier of a photo of another
    entry) gives an entry whose text holds this placeholder, and which has
    no photo. *)
Lemma placeholder_in_title_has_no_photo : ~ everyPlaceholderHasPhoto.
Proof.
  intros H.
  assert (Hproc : processEntryHTML Sample.world Sample.tokenPath SampleRun.resources "UTC"
                    initialState
                  = (Ok (SampleRun.tokenEntry, ∅), SampleRun.tokenState))
    by (vm_compute; reflexivity).
  destruct (H Sample.world Sample.tokenPath SampleRun.resources "UTC" initialState
              SampleRun.tokenState SampleRun.tokenEntry ∅
              "00000000000000000000000000000001" Hproc ltac:(vm_compute; reflexivity))
    as (photo & Hin & _).
  exact Hin.
Qed.

(** C6, amended. In an entry that is returned, the references to photos
    written in the body are those of the photos of the entry, in the same
    order; and a placeholder in the text of the entry (its identifier
    being on one line) has its photo in the entry, unless the placeholder
    is in the title of the document or in the text that a node of the
    document was converted to. *)
Theorem placeholders_written_have_photos (W : World) (htmlFilePath res tz : string)
    (st st' : RunState) (e : DayOneEntry.t) (m : gmap string string) :
  processEntryHTML W htmlFilePath res tz st = (Ok (e, m), st') ->
  exists doc body,
    openDocument W htmlFilePath = Ok doc /\
    processBody W htmlFilePath (DayOneEntry.CreationDate e) doc
      (mkRunState (S (minted st)) (logged st)) = (body, st') /\
    DayOneEntry.Text e = entryText (extractTitle doc htmlFilePath) body /\
    DayOneEntry.Photos e = es_Photos body /\
    photoRefs (es_bodyMarkdownBuilder body)
    = map DayOnePhoto.Identifier (DayOneEntry.Photos e) /\
    forall photoUUID,
      allBytes notLF photoUUID = true ->
      Contains (DayOneEntry.Text e) (placeholder photoUUID) = true ->
      (exists photo,
          In photo (DayOneEntry.Photos e) /\ DayOnePhoto.Identifier photo = photoUUID)
      \/ Contains (extractTitle doc htmlFilePath) (placeholder photoUUID) = true
      \/ exists n markdownFrag,
           convertString W (outerHtmlOrEmpty W n) = Ok markdownFrag /\
           In (MarkdownText (TrimSpace markdownFrag +:+ LF +:+ LF))
             (es_bodyMarkdownBuilder body) /\
           Contains (TrimSpace markdownFrag) (placeholder photoUUID) = true.
Proof.
  intros H. apply BodyFacts.processEntryHTML_body in H.
  destruct H as (doc & body & Hdoc & Hbody & Htext & Hphotos & _ & Hinv & HB).
  exists doc, body. do 4 (split; [assumption |]).
  pose proof (inv_refs _ _ _ _ Hinv) as Hrefs. rewrite <- Hphotos in Hrefs.
  split; [exact Hrefs |].
  intros photoUUID Hid Hin. rewrite Htext in Hin.
  destruct (PlaceholderFacts.entryText_placeholder _ _ _ Hid Hin) as [Ht | Hb];
    [right; now left |].
  destruct (PlaceholderFacts.builder_placeholder W _ _
              (PlaceholderFacts.placeholder_notLF _ Hid)
              (PlaceholderFacts.placeholder_not_empty _)
              (Body.body_pieces _ _ _ _ _ HB) Hb)
    as [(n & frag & Hc & Hp & Hf) | (id & Hp & Hf)].
  - right. right. now exists n, frag.
  - left.
    assert (Hidin : In id (photoRefs (es_bodyMarkdownBuilder body))).
    { unfold photoRefs. apply in_flat_map. exists (PhotoRef id). split; [exact Hp | now left]. }
    rewrite Hrefs in Hidin. apply in_map_iff in Hidin.
    destruct Hidin as (photo & Hpid & Hpin). exists photo. split; [exact Hpin |].
    rewrite Hpid. symmetry. apply PlaceholderFacts.placeholder_within_placeholder; [| exact Hf].
    rewrite Hphotos in Hpin.
    destruct (inv_photos _ _ _ _ Hinv photo Hpin) as (i & _ & Hi).
    rewrite <- Hpid, Hi, IdentFacts.token_eq. apply IdentFacts.tokenOf_hex.
Qed.

Lemma placeholders_written_have_photos_witness :
  processEntryHTML Sample.world Sample.walkPath SampleRun.resources "UTC" initialState
  = (Ok (SampleRun.walkEntry, SampleRun.walkMedia), SampleRun.walkState)
  /\ exists doc body,
      openDocument Sample.world Sample.walkPath = Ok doc /\
      processBody Sample.world Sample.walkPath
        (DayOneEntry.CreationDate SampleRun.walkEntry) doc
        (mkRunState (S (minted initialState)) (logged initialState))
      = (body, SampleRun.walkState) /\
      DayOneEntry.Text SampleRun.walkEntry
      = entryText (extractTitle doc Sample.walkPath) body /\
      DayOneEntry.Photos SampleRun.walkEntry = es_Photos body /\
      photoRefs (es_bodyMarkdownBuilder body)
      = map DayOnePhoto.Identifier (DayOneEntry.Photos SampleRun.walkEntry) /\
      forall photoUUID,
        allBytes notLF photoUUID = true ->
        Contains (DayOneEntry.Text SampleRun.walkEntry) (placeholder photoUUID) = true ->
        (exists photo,
            In photo (DayOneEntry.Photos SampleRun.walkEntry) /\
            DayOnePhoto.Identifier photo = photoUUID)
        \/ Contains (extractTitle doc Sample.walkPath) (placeholder photoUUID) = true
        \/ exists n markdownFrag,
             convertString Sample.world (outerHtmlOrEmpty Sample.world n) = Ok markdownFrag /\
             In (MarkdownText (TrimSpace markdownFrag +:+ LF +:+ LF))
               (es_bodyMarkdownBuilder body) /\
             Contains (TrimSpace markdownFrag) (placeholder photoUUID) = true.
Proof.
  assert (H : processEntryHTML Sample.world Sample.walkPath SampleRun.resources "UTC"
                initialState
              = (Ok (SampleRun.walkEntry, SampleRun.walkMedia), SampleRun.walkState))
    by (vm_compute; reflexivity).
  split; [exact H |].
  exact (placeholders_written_have_photos Sample.world _ _ _ _ _ _ _ H).
Defined.

(** ** One image file in two entries *)

Module SharedFacts.
Import Strings Filepath ProofDefs Body RunShapes.
Import IdentFacts EntryFacts RunFacts MainFacts BodyFacts ShapeFacts.

Section WithWorld.
Context (W : World) (res tz : string).


(** *** Identifiers are minted, never taken back *)



(** *** The destinations that a walk adds are new *)





(** *** The documents that do not show a file leave its instruction *)



(** *** A document that shows a file gives an entry with its photo *)



(** *** Two documents that show one file *)


End WithWorld.

End SharedFacts.

Import Strings Filepath ProofDefs RunShapes.



